(** * ai-edge-torch: torch_tfl operators, Hammer model configs, reauthoring
      verification scripts and the aten composite pass

    A shallow embedding of
    - [ai_edge_torch/generative/examples/hammer/hammer.py],
    - [ai_edge_torch/odml_torch/experimental/torch_tfl/_ops.py],
    - [ai_edge_torch/generative/examples/openelm/verify.py] and
      [ai_edge_torch/generative/examples/phi/verify_phi4.py],
    - the expectations of
      [ai_edge_torch/_convert/fx_passes/test/test_build_aten_composite_pass.py],
    with the properties the specification states about them. *)

From Stdlib Require Import ZArith QArith Qround Lia List String Ascii Bool.
From Stdlib Require Import DecimalString.
From stdpp Require Import base option list strings.

Local Open Scope string_scope.
Local Open Scope list_scope.
Local Open Scope Z_scope.

(** ** Python exceptions and results *)

Module Py.

Inductive exn :=
| ValueError (msg : string)
| AssertionError
| AttributeError (msg : string)
| IndexError (msg : string)
| RuntimeError (msg : string).

Inductive result (A : Type) :=
| Ok (a : A)
| Raise (e : exn).
Arguments Ok {A} a.
Arguments Raise {A} e.

Definition rmap {A B} (f : A -> B) (r : result A) : result B :=
  match r with
  | Ok a => Ok (f a)
  | Raise e => Raise e
  end.

(** An object store with a computation that may raise: the state is
    threaded through, and a raise keeps the state reached so far. *)
Definition M (S A : Type) : Type := S -> result A * S.

Definition ret {S A} (a : A) : M S A := fun s => (Ok a, s).
Definition raise {S A} (e : exn) : M S A := fun s => (Raise e, s).
Definition bind {S A B} (m : M S A) (k : A -> M S B) : M S B :=
  fun s => match m s with
           | (Ok a, s') => k a s'
           | (Raise e, s') => (Raise e, s')
           end.

End Py.

Notation "'do' x <- m ; k" := (Py.bind m (fun x => k))
  (at level 10, x name, m at level 100, k at level 200).
Notation "f <$$> r" := (Py.rmap f r) (at level 61, left associativity).
Notation "m ;; k" := (Py.bind m (fun _ => k))
  (at level 100, k at level 200, right associativity).

(** ** generative/examples/hammer/hammer.py *)

Module Hammer.

(** Members of the enums of [layers.model_config] that hammer.py names;
    the other members of each enum are kept under one constructor. *)
Inductive FeedForwardType := GATED | FeedForwardType_other (name : string).
Inductive ActivationType := SILU | ActivationType_other (name : string).
Inductive NormalizationType := RMS_NORM | NormalizationType_other (name : string).

(** Python objects live in a store and are named by their location:
    two fields holding the same location alias one object. *)
Abbreviation loc := nat (only parsing).

(** The dataclasses of [layers.model_config], with the fields hammer.py
    passes or assigns.  Float literals are kept as the rational they
    denote ([1e-06] is 1/1000000, [1.0] is 1). *)
Record AttentionConfig := {
  num_heads : Z;
  head_dim : Z;
  num_query_groups : Z;
  rotary_base : Z;
  rotary_percentage : Q;
  qkv_use_bias : bool }.

Record ActivationConfig := { act_type : ActivationType }.

Record FeedForwardConfig := {
  ff_type : FeedForwardType;
  activation : loc;
  intermediate_size : Z }.

Record NormalizationConfig := {
  norm_type : NormalizationType;
  epsilon : Q;
  norm_enable_hlfb : bool }.

Record TransformerBlockConfig := {
  attn_config : loc;
  ff_config : loc;
  pre_attention_norm_config : loc;
  post_attention_norm_config : loc }.

Record ModelConfig := {
  vocab_size : Z;
  num_layers : Z;
  max_seq_len : Z;
  embedding_dim : Z;
  kv_cache_max_len : Z;
  block_configs : loc;
  final_norm_config : loc;
  enable_hlfb : bool }.

Inductive obj :=
| OAttn (a : AttentionConfig)
| OAct (a : ActivationConfig)
| OFF (f : FeedForwardConfig)
| ONorm (n : NormalizationConfig)
| OBlock (b : TransformerBlockConfig)
| OModel (m : ModelConfig).

Abbreviation store := (list obj) (only parsing).

(** Constructing an object allocates the next location. *)
Definition alloc (o : obj) : Py.M store loc :=
  fun s => (Py.Ok (List.length s), s ++ [o]).

Definition get_block (l : loc) : Py.M store TransformerBlockConfig :=
  fun s => match s !! l with
           | Some (OBlock b) => (Py.Ok b, s)
           | _ => (Py.Raise (Py.AttributeError "attn_config"), s)
           end.

Definition get_model (l : loc) : Py.M store ModelConfig :=
  fun s => match s !! l with
           | Some (OModel m) => (Py.Ok m, s)
           | _ => (Py.Raise (Py.AttributeError "block_config"), s)
           end.

(** [obj.field = v]: an in-place update of the object at [l]. *)
Definition set_attn (l : loc) (f : AttentionConfig -> AttentionConfig)
  : Py.M store unit :=
  fun s => match s !! l with
           | Some (OAttn a) => (Py.Ok tt, <[l := OAttn (f a)]> s)
           | _ => (Py.Raise (Py.AttributeError "attn_config"), s)
           end.

Definition set_ff (l : loc) (f : FeedForwardConfig -> FeedForwardConfig)
  : Py.M store unit :=
  fun s => match s !! l with
           | Some (OFF a) => (Py.Ok tt, <[l := OFF (f a)]> s)
           | _ => (Py.Raise (Py.AttributeError "ff_config"), s)
           end.

Definition set_model (l : loc) (f : ModelConfig -> ModelConfig)
  : Py.M store unit :=
  fun s => match s !! l with
           | Some (OModel a) => (Py.Ok tt, <[l := OModel (f a)]> s)
           | _ => (Py.Raise (Py.AttributeError "config"), s)
           end.

Definition with_num_heads (v : Z) (a : AttentionConfig) : AttentionConfig :=
  {| num_heads := v; head_dim := head_dim a;
     num_query_groups := num_query_groups a; rotary_base := rotary_base a;
     rotary_percentage := rotary_percentage a;
     qkv_use_bias := qkv_use_bias a |}.

Definition with_head_dim (v : Z) (a : AttentionConfig) : AttentionConfig :=
  {| num_heads := num_heads a; head_dim := v;
     num_query_groups := num_query_groups a; rotary_base := rotary_base a;
     rotary_percentage := rotary_percentage a;
     qkv_use_bias := qkv_use_bias a |}.

Definition with_intermediate_size (v : Z) (f : FeedForwardConfig)
  : FeedForwardConfig :=
  {| ff_type := ff_type f; activation := activation f;
     intermediate_size := v |}.

Definition with_num_layers (v : Z) (m : ModelConfig) : ModelConfig :=
  {| vocab_size := vocab_size m; num_layers := v;
     max_seq_len := max_seq_len m; embedding_dim := embedding_dim m;
     kv_cache_max_len := kv_cache_max_len m;
     block_configs := block_configs m;
     final_norm_config := final_norm_config m;
     enable_hlfb := enable_hlfb m |}.

Definition with_embedding_dim (v : Z) (m : ModelConfig) : ModelConfig :=
  {| vocab_size := vocab_size m; num_layers := num_layers m;
     max_seq_len := max_seq_len m; embedding_dim := v;
     kv_cache_max_len := kv_cache_max_len m;
     block_configs := block_configs m;
     final_norm_config := final_norm_config m;
     enable_hlfb := enable_hlfb m |}.

Definition with_vocab_size (v : Z) (m : ModelConfig) : ModelConfig :=
  {| vocab_size := v; num_layers := num_layers m;
     max_seq_len := max_seq_len m; embedding_dim := embedding_dim m;
     kv_cache_max_len := kv_cache_max_len m;
     block_configs := block_configs m;
     final_norm_config := final_norm_config m;
     enable_hlfb := enable_hlfb m |}.

(** Modelled from the spec: [ModelConfig.block_config(idx)] of
    [layers.model_config] is not among the sources verified here.  hammer.py
    stores one [TransformerBlockConfig] in [block_configs] and notes
    "Hammer has only one block config": the method hands out that one
    object, whatever the index. *)
Definition block_config (config : loc) (idx : Z) : Py.M store loc :=
  do m <- get_model config;
  Py.ret (block_configs m).

(** The default of the keyword argument [kv_cache_max_len: int = 1024]. *)
Definition kv_cache_max_len_default : Z := 1024.

Definition get_1_5b_model_config (kv_cache_max_len : option Z)
  : Py.M store loc :=
  let kv_cache_max_len := default kv_cache_max_len_default kv_cache_max_len in
  do attn_config <- alloc (OAttn {|
       num_heads := 12;
       head_dim := 128;
       num_query_groups := 2;
       rotary_base := 1000000;
       rotary_percentage := 1;
       qkv_use_bias := true |});
  do act <- alloc (OAct {| act_type := SILU |});
  do ff_config <- alloc (OFF {|
       ff_type := GATED;
       activation := act;
       intermediate_size := 8960 |});
  do norm_config <- alloc (ONorm {|
       norm_type := RMS_NORM;
       epsilon := 1 # 1000000;
       norm_enable_hlfb := true |});
  do block_config <- alloc (OBlock {|
       attn_config := attn_config;
       ff_config := ff_config;
       pre_attention_norm_config := norm_config;
       post_attention_norm_config := norm_config |});
  do config <- alloc (OModel {|
       vocab_size := 151665;
       num_layers := 28;
       max_seq_len := 32768;
       embedding_dim := 1536;
       kv_cache_max_len := kv_cache_max_len;
       block_configs := block_config;
       final_norm_config := norm_config;
       enable_hlfb := true |});
  Py.ret config.

Definition get_0_5b_model_config (kv_cache_max_len : option Z)
  : Py.M store loc :=
  do config <- get_1_5b_model_config kv_cache_max_len;
  do block_config <- block_config config 0;
  do b <- get_block block_config;
  set_attn (attn_config b) (with_num_heads 14);;
  do b <- get_block block_config;
  set_attn (attn_config b) (with_head_dim 64);;
  do b <- get_block block_config;
  set_ff (ff_config b) (with_intermediate_size 4864);;
  set_model config (with_num_layers 24);;
  set_model config (with_embedding_dim 896);;
  Py.ret config.

Definition get_fake_model_config (kv_cache_max_len : option Z)
  : Py.M store loc :=
  do config <- get_1_5b_model_config kv_cache_max_len;
  set_model config (with_vocab_size 128);;
  set_model config (with_num_layers 2);;
  set_model config (with_embedding_dim 16);;
  do block_config <- block_config config 0;
  do b <- get_block block_config;
  set_ff (ff_config b) (with_intermediate_size 64);;
  Py.ret config.

(** *** Reading a config out of the store

    What a caller sees when it follows the references of a config. *)
Record FeedForwardView := {
  v_ff_type : FeedForwardType;
  v_activation : ActivationConfig;
  v_intermediate_size : Z }.

Record BlockView := {
  v_attn_config : AttentionConfig;
  v_ff_config : FeedForwardView;
  v_pre_attention_norm_config : NormalizationConfig;
  v_post_attention_norm_config : NormalizationConfig }.

Record ModelView := {
  v_vocab_size : Z;
  v_num_layers : Z;
  v_max_seq_len : Z;
  v_embedding_dim : Z;
  v_kv_cache_max_len : Z;
  v_block_config : BlockView;
  v_final_norm_config : NormalizationConfig;
  v_enable_hlfb : bool }.

Definition read_attn (s : store) (l : loc) : option AttentionConfig :=
  match s !! l with Some (OAttn a) => Some a | _ => None end.
Definition read_act (s : store) (l : loc) : option ActivationConfig :=
  match s !! l with Some (OAct a) => Some a | _ => None end.
Definition read_norm (s : store) (l : loc) : option NormalizationConfig :=
  match s !! l with Some (ONorm a) => Some a | _ => None end.

Definition read_ff (s : store) (l : loc) : option FeedForwardView :=
  match s !! l with
  | Some (OFF f) =>
      a ← read_act s (activation f);
      Some {| v_ff_type := ff_type f; v_activation := a;
              v_intermediate_size := intermediate_size f |}
  | _ => None
  end.

Definition read_block (s : store) (l : loc) : option BlockView :=
  match s !! l with
  | Some (OBlock b) =>
      a ← read_attn s (attn_config b);
      f ← read_ff s (ff_config b);
      n1 ← read_norm s (pre_attention_norm_config b);
      n2 ← read_norm s (post_attention_norm_config b);
      Some {| v_attn_config := a; v_ff_config := f;
              v_pre_attention_norm_config := n1;
              v_post_attention_norm_config := n2 |}
  | _ => None
  end.

Definition read_model (s : store) (l : loc) : option ModelView :=
  match s !! l with
  | Some (OModel m) =>
      b ← read_block s (block_configs m);
      n ← read_norm s (final_norm_config m);
      Some {| v_vocab_size := vocab_size m;
              v_num_layers := num_layers m;
              v_max_seq_len := max_seq_len m;
              v_embedding_dim := embedding_dim m;
              v_kv_cache_max_len := kv_cache_max_len m;
              v_block_config := b;
              v_final_norm_config := n;
              v_enable_hlfb := enable_hlfb m |}
  | _ => None
  end.

(** The config a call returns, as its caller reads it. *)
Definition returned_config (m : Py.M store loc) (s : store)
  : option ModelView :=
  match m s with
  | (Py.Ok l, s') => read_model s' l
  | (Py.Raise _, _) => None
  end.

End Hammer.

(** ** torch tensors, as far as torch_tfl/_ops.py uses them *)

Module Torch.

Inductive dtype :=
| float16 | bfloat16 | float32 | float64
| int8 | uint8 | int16 | int32 | int64 | bool_.

(** A tensor is a strided view of a storage: indexing and transposing
    make views of the same storage, [clone] makes a new storage. *)
Record tensor := {
  storage : nat;
  offset : Z;
  shape : list Z;
  strides : list Z;
  dtype_of : dtype }.

Definition ndim (t : tensor) : Z := Z.of_nat (List.length (shape t)).

Definition numel (shape : list Z) : Z := fold_right Z.mul 1 shape.

Fixpoint in_bounds (idx shape : list Z) : bool :=
  match idx, shape with
  | [], [] => true
  | i :: idx, d :: shape => (0 <=? i) && (i <? d) && in_bounds idx shape
  | _, _ => false
  end.

Fixpoint dot (idx strides : list Z) : Z :=
  match idx, strides with
  | i :: idx, st :: strides => i * st + dot idx strides
  | _, _ => 0
  end.

(** Row-major strides of a freshly allocated tensor. *)
Fixpoint contiguous_strides (shape : list Z) : list Z :=
  match shape with
  | [] => []
  | _ :: ds => numel ds :: contiguous_strides ds
  end.

(** All multi-indices of a shape, in row-major order. *)
Fixpoint all_indices (shape : list Z) : list (list Z) :=
  match shape with
  | [] => [[]]
  | d :: ds => i ← seqZ 0 d; (fun idx => i :: idx) <$> all_indices ds
  end.

(** [dim] counted from the end when negative (torch's maybe_wrap_dim;
    a 0-dim tensor is treated as having one dimension). *)
Definition wrap_dim (dim n : Z) : Py.result nat :=
  let n := Z.max n 1 in
  if (- n <=? dim) && (dim <? n)
  then Py.Ok (Z.to_nat (if dim <? 0 then dim + n else dim))
  else Py.Raise (Py.IndexError "Dimension out of range").

Definition swap {A} (i j : nat) (l : list A) : list A :=
  match l !! i, l !! j with
  | Some x, Some y => <[i := y]> (<[j := x]> l)
  | _, _ => l
  end.

(** [torch.transpose(t, dim0, dim1)]: a view with two dimensions
    exchanged. *)
Definition transpose (t : tensor) (dim0 dim1 : Z) : Py.result tensor :=
  match wrap_dim dim0 (ndim t), wrap_dim dim1 (ndim t) with
  | Py.Ok d0, Py.Ok d1 =>
      Py.Ok {| storage := storage t;
               offset := offset t;
               shape := swap d0 d1 (shape t);
               strides := swap d0 d1 (strides t);
               dtype_of := dtype_of t |}
  | Py.Raise e, _ | _, Py.Raise e => Py.Raise e
  end.

(** Python's [slice.indices] for step 1: a bound below zero counts from
    the end, and both bounds are clipped to [0, n]. *)
Definition clip_bound (i n : Z) : Z :=
  if i <? 0 then Z.max (i + n) 0 else Z.min i n.

(** [t[s_0, ..., s_k]] for slices [s_i = slice(a_i, b_i)]: the offset
    added to the view and its shape.  Dimensions past the last slice
    are kept whole. *)
Fixpoint getitem_slices (slices : list (Z * Z)) (shape strides : list Z)
  : Py.result (Z * list Z) :=
  match slices, shape, strides with
  | [], _, _ => Py.Ok (0, shape)
  | (a, b) :: slices, d :: shape, st :: strides =>
      let start := clip_bound a d in
      let stop := clip_bound b d in
      match getitem_slices slices shape strides with
      | Py.Ok (off, sh) =>
          Py.Ok (start * st + off, Z.max (stop - start) 0 :: sh)
      | Py.Raise e => Py.Raise e
      end
  | _ :: _, _, _ => Py.Raise (Py.IndexError "too many indices for tensor")
  end.

Definition getitem (t : tensor) (slices : list (Z * Z)) : Py.result tensor :=
  match getitem_slices slices (shape t) (strides t) with
  | Py.Ok (off, sh) =>
      Py.Ok {| storage := storage t;
               offset := offset t + off;
               shape := sh;
               strides := strides t;
               dtype_of := dtype_of t |}
  | Py.Raise e => Py.Raise e
  end.

Section Elem.
Context {elem : Type}.

(** The storages allocated so far; a storage is named by its position. *)
Local Abbreviation heap := (list (list elem)).

(** The element of [t] at a multi-index. *)
Definition tensor_get (h : heap) (t : tensor) (idx : list Z)
  : option elem :=
  if in_bounds idx (shape t) then
    let pos := offset t + dot idx (strides t) in
    if 0 <=? pos then h !! storage t ≫= (.!! Z.to_nat pos) else None
  else None.

(** Every element of the view lies in its storage. *)
Definition tensor_ok (h : heap) (t : tensor) : Prop :=
  List.length (strides t) = List.length (shape t) /\
  Forall (fun idx => is_Some (tensor_get h t idx)) (all_indices (shape t)).

(** [t.clone()]: a new storage with the elements of the view (laid
    out row-major; torch may keep the stride order of a dense input,
    which reading by multi-index does not observe). *)
Definition clone (t : tensor) : Py.M heap tensor :=
  fun h =>
    match mapM (tensor_get h t) (all_indices (shape t)) with
    | Some data =>
        (Py.Ok {| storage := List.length h;
                  offset := 0;
                  shape := shape t;
                  strides := contiguous_strides (shape t);
                  dtype_of := dtype_of t |},
         h ++ [data])
    | None => (Py.Raise (Py.RuntimeError "storage out of range"), h)
    end.

End Elem.

(** [torch.permute(t, dims)]: a view whose dimension [i] is dimension
    [dims[i]] of [t].  The number of entries must be the number of
    dimensions; the entries are then taken in order, each counted from
    the end when negative, and none may come twice. *)
Fixpoint permute_dims (dims : list Z) (n : Z) (seen : list nat)
  : Py.result (list nat) :=
  match dims with
  | [] => Py.Ok []
  | dim :: dims =>
      match wrap_dim dim n with
      | Py.Ok d =>
          if bool_decide (d ∈ seen)
          then Py.Raise (Py.RuntimeError
                           "permute(): duplicate dims are not allowed.")
          else match permute_dims dims n (d :: seen) with
               | Py.Ok ds => Py.Ok (d :: ds)
               | Py.Raise e => Py.Raise e
               end
      | Py.Raise e => Py.Raise e
      end
  end.

(** The entries of [l] at the positions [ds]. *)
Definition gather (ds : list nat) (l : list Z) : list Z :=
  (fun d => l !!! d) <$> ds.

Definition permute (t : tensor) (dims : list Z) : Py.result tensor :=
  if negb (List.length dims =? List.length (shape t))%nat
  then Py.Raise (Py.RuntimeError
                   "permute(): number of dimensions does not match")
  else match permute_dims dims (ndim t) [] with
       | Py.Ok ds =>
           Py.Ok {| storage := storage t;
                    offset := offset t;
                    shape := gather ds (shape t);
                    strides := gather ds (strides t);
                    dtype_of := dtype_of t |}
       | Py.Raise e => Py.Raise e
       end.

(** [t.numel()] *)
Definition tensor_numel (t : tensor) : Z := numel (shape t).

Global Instance dtype_eq_dec : EqDecision dtype.
Proof. solve_decision. Defined.

(** *** Fake tensors: shapes and dtypes without values *)

(** A size is an integer or a symbol made during tracing. *)
Inductive size := Int (n : Z) | SymInt (id : nat).

Record fake_tensor := {
  fake_shape : list size;
  fake_dtype : dtype }.

(** The fake-implementation context of [torch.library.get_ctx()]: the
    next unused symbol. *)
Definition new_dynamic_size : Py.M nat size :=
  fun next => (Py.Ok (SymInt next), S next).

End Torch.

(** ** The string functions of Python that torch_tfl/_ops.py calls

    A [str] is the list of its code points.  The code points written
    as numbers below: 9 to 13 tab to carriage return, 32 the space,
    43 "+", 45 "-", 48 to 57 "0" to "9", 63 "?", 95 "_"; ASCII ends
    at 127. *)

Module PyStr.

(** The code point of an ASCII character, and a literal of ASCII
    characters as a [str]. *)
Definition chr (c : ascii) : N := N_of_ascii c.

Definition of_string (s : string) : list N :=
  chr <$> list_ascii_of_string s.

(** [s.split(sep)] for a one-character separator: one more part than
    there are separators, empty parts kept. *)
Fixpoint split (sep : N) (s : list N) : list (list N) :=
  match s with
  | [] => [[]]
  | c :: s' =>
      if (c =? sep)%N then [] :: split sep s'
      else match split sep s' with
           | part :: parts => (c :: part) :: parts
           | [] => [[c]]
           end
  end.

(** [s.count(c)] for a one-character [c]. *)
Fixpoint count (c : N) (s : list N) : nat :=
  match s with
  | [] => 0
  | a :: s' => (if (a =? c)%N then 1 else 0) + count c s'
  end.

(** [sep.join(parts)]. *)
Fixpoint join (sep : list N) (parts : list (list N)) : list N :=
  match parts with
  | [] => []
  | [part] => part
  | part :: parts => part ++ sep ++ join sep parts
  end.

(** What the Unicode character database says of a code point, as far
    as [int] and the pattern [\d] ask: whitespace, a decimal digit with
    its value, or neither. *)
Inductive char_class := Space | Decimal (d : Z) | Other.

Section Unicode.

(** The database above ASCII belongs to the interpreter. *)
Variable unicode_class : N -> char_class.

(** The value of a decimal digit of any script: "0" to "9" in ASCII,
    the digits of the database above it. *)
Definition decimal (c : N) : option Z :=
  if (c <? 128)%N then
    if (48 <=? c)%N && (c <=? 57)%N then Some (Z.of_N c - 48) else None
  else
    match unicode_class c with
    | Decimal d => if (0 <=? d) && (d <=? 9) then Some d else None
    | _ => None
    end.

(** A character the pattern [\d] matches in a [str]. *)
Definition is_digit (c : N) : bool :=
  match decimal c with Some _ => true | None => false end.

(** [re.match(r"\d+", s)]: the longest run of decimal digits at the
    start of [s], when there is at least one. *)
Fixpoint digits_prefix (s : list N) : list N :=
  match s with
  | c :: s' => if is_digit c then c :: digits_prefix s' else []
  | [] => []
  end.

Definition re_match_digits (s : list N) : option (list N) :=
  match digits_prefix s with
  | [] => None
  | m => Some m
  end.

(** [int] first rewrites its argument in ASCII: whitespace above ASCII
    becomes a space, a decimal digit of another script the ASCII digit
    of its value, and any other character above ASCII a question mark,
    which no literal contains. *)
Definition to_ascii (c : N) : N :=
  if (c <? 128)%N then c
  else
    match unicode_class c with
    | Space => 32%N
    | _ => match decimal c with
           | Some d => Z.to_N (48 + d)
           | None => 63%N
           end
    end.

(** The ASCII characters [int] skips around a literal: tab to carriage
    return, and the space. *)
Definition is_space (c : N) : bool :=
  ((9 <=? c)%N && (c <=? 13)%N) || (c =? 32)%N.

Definition is_ascii_digit (c : N) : bool := (48 <=? c)%N && (c <=? 57)%N.

Definition digit_value (c : N) : Z := Z.of_N c - 48.

Fixpoint lstrip (l : list N) : list N :=
  match l with
  | c :: l' => if is_space c then lstrip l' else l
  | [] => []
  end.

(** The digits and underscores a literal starts with. *)
Fixpoint literal_prefix (l : list N) : list N :=
  match l with
  | c :: l' => if is_ascii_digit c || (c =? 95)%N
               then c :: literal_prefix l' else []
  | [] => []
  end.

(** Digits of an integer literal: groups of digits, one underscore
    allowed between two digits. *)
Fixpoint int_digits (acc : Z) (after_digit : bool) (l : list N)
  : option Z :=
  match l with
  | [] => if after_digit then Some acc else None
  | c :: l' =>
      if is_ascii_digit c then int_digits (10 * acc + digit_value c) true l'
      else if (c =? 95)%N then
        if after_digit then int_digits acc false l' else None
      else None
  end.

(** [sys.get_int_max_str_digits()], as the interpreter starts. *)
Definition int_max_str_digits : Z := 4300.

Definition invalid_literal : Py.exn :=
  Py.ValueError "invalid literal for int() with base 10".

Definition exceeds_the_limit : Py.exn :=
  Py.ValueError "Exceeds the limit (4300 digits) for integer string conversion".

(** [int(s)] in base 10: whitespace, a sign, the digits, whitespace.
    The digits are counted against the limit before what follows them
    is looked at.  The messages are given without the literal or the
    count they end with. *)
Definition int (s : list N) : Py.result Z :=
  let l := lstrip (to_ascii <$> s) in
  let '(negative, body) :=
    match l with
    | c :: l' =>
        if (c =? 43)%N then (false, l')
        else if (c =? 45)%N then (true, l')
        else (false, l)
    | [] => (false, [])
    end in
  let literal := literal_prefix body in
  let rest := drop (List.length literal) body in
  match int_digits 0 false literal with
  | None => Py.Raise invalid_literal
  | Some n =>
      if int_max_str_digits
         <? Z.of_nat (List.length (List.filter is_ascii_digit literal))
      then Py.Raise exceeds_the_limit
      else if forallb is_space rest
      then Py.Ok (if negative then - n else n)
      else Py.Raise invalid_literal
  end.

End Unicode.

End PyStr.

(** ** odml_torch/experimental/torch_tfl/_ops.py *)

Module TorchTfl.
Import Torch.

(** The last assertion of [tfl_slice_tensor], the operator whose fake
    implementation follows:
    [assert not shape or shape.count(",") == input.ndim - 1]. *)
Definition tfl_slice_tensor_shape_assert (input : tensor) (shape : list N)
  : bool :=
  bool_decide (shape = [])
  || (Z.of_nat (PyStr.count (PyStr.chr ",") shape) =? ndim input - 1).

Section Ops.
Context {elem : Type}.
Local Abbreviation heap := (list (list elem)).

(** [torch.matmul] is torch's own; the operators only pass their
    arguments on to it. *)
Variable torch_matmul : tensor -> tensor -> Py.M heap tensor.

Definition lift {A} (r : Py.result A) : Py.M heap A := fun h => (r, h).

Definition tfl_batch_matmul (x y : tensor) (adj_x adj_y : bool)
  : Py.M heap tensor :=
  if (ndim x <? 2) || (ndim y <? 2) then
    Py.raise (Py.ValueError "Input tensors must have at least 2 dimensions.")
  else
    do x <- (if adj_x then lift (transpose x (-1) (-2)) else Py.ret x);
    do y <- (if adj_y then lift (transpose y (-1) (-2)) else Py.ret y);
    torch_matmul x y.

Definition tfl_slice (input : tensor) (begin size : list Z)
  : Py.M heap tensor :=
  if negb ((List.length begin =? List.length size)%nat
           && (List.length size =? List.length (shape input))%nat)
  then Py.raise Py.AssertionError
  else
    let slices := zip_with (fun i l => (i, i + l)) begin size in
    do view <- lift (getitem input slices);
    clone view.

Definition tfl_transpose (input : tensor) (perm : list Z)
  : Py.M heap tensor :=
  if negb (List.length perm =? List.length (shape input))%nat
  then Py.raise Py.AssertionError
  else
    do view <- lift (permute input perm);
    clone view.

(** The Python number an element of an integer tensor stands for. *)
Variable item : elem -> Z.

(** [t.tolist()] of a one-dimensional tensor. *)
Definition tolist (t : tensor) : Py.M heap (list Z) :=
  fun h =>
    match shape t with
    | [n] =>
        match mapM (fun i => tensor_get h t [i]) (seqZ 0 n) with
        | Some l => (Py.Ok (item <$> l), h)
        | None => (Py.Raise (Py.RuntimeError "storage out of range"), h)
        end
    | _ => (Py.Raise (Py.RuntimeError "not a one-dimensional tensor"), h)
    end.

Definition tfl_slice_tensor (input begin size : tensor) (shape : list N)
  : Py.M heap tensor :=
  if negb ((ndim begin =? ndim size) && (ndim size =? 1))
  then Py.raise Py.AssertionError
  else if negb ((tensor_numel begin =? tensor_numel size)
                && (tensor_numel size =? ndim input))
  then Py.raise Py.AssertionError
  else if negb (bool_decide (dtype_of begin = int32)
                && bool_decide (dtype_of size = int32))
  then Py.raise Py.AssertionError
  else if negb (tfl_slice_tensor_shape_assert input shape)
  then Py.raise Py.AssertionError
  else
    do begin_list <- tolist begin;
    do size_list <- tolist size;
    let slices := zip_with (fun i l => (i, i + l)) begin_list size_list in
    do view <- lift (getitem input slices);
    clone view.

End Ops.

Section Fake.

(** [torch.empty] and [Tensor.new_empty] are torch's own, and the
    character database is the interpreter's. *)
Variable torch_empty : list size -> dtype -> Py.result fake_tensor.
Variable unicode_class : N -> PyStr.char_class.

Definition tfl_reshape_fake (input : tensor) (shape : list Z)
  : Py.result fake_tensor :=
  torch_empty (Int <$> shape) (dtype_of input).

(** The loop over [shape_symbols]: a symbol that starts with a digit is
    read by [int], any other takes a new dynamic size. *)
Fixpoint shape_of_symbols (shape_symbols : list (list N))
  : Py.M nat (list size) :=
  match shape_symbols with
  | [] => Py.ret []
  | sym :: rest =>
      do d <- (match PyStr.re_match_digits unicode_class sym with
               | Some _ =>
                   fun ctx => (Int <$$> PyStr.int unicode_class sym, ctx)
               | None => new_dynamic_size
               end);
      do ds <- shape_of_symbols rest;
      Py.ret (d :: ds)
  end.

Definition tfl_slice_tensor_fake (input begin size : tensor)
           (shape : list N) : Py.M nat fake_tensor :=
  let shape_str :=
    match shape with
    | [] => PyStr.join (PyStr.of_string ",")
                       (replicate (List.length (Torch.shape input))
                                  (PyStr.of_string "?"))
    | _ => shape
    end in
  let shape_symbols := PyStr.split (PyStr.chr ",") shape_str in
  do shape <- shape_of_symbols shape_symbols;
  fun ctx => (torch_empty shape (dtype_of input), ctx).

End Fake.

End TorchTfl.

(** ** generative/examples/openelm/verify.py and phi/verify_phi4.py *)

Module Verify.

(** The values of the command-line flags as given; a flag left out
    takes its default. *)
Record flag_values := {
  given_prompts : list string;
  given_max_new_tokens : option Z }.

(** [flags.DEFINE_multi_string(name, default, help)]: the occurrences
    of the flag, or the one default. *)
Definition multi_string_value (default : string) (given : list string)
  : list string :=
  match given with
  | [] => [default]
  | _ => given
  end.

(** [flags.DEFINE_integer(name, default, help)]. *)
Definition integer_value (default : Z) (given : option Z) : Z :=
  from_option id default given.

Section Scripts.

(** The model hub library and [pathlib], outside this repository:
    the hub keeps downloaded checkpoints in a cache that is part of
    the world the scripts run in. *)
Context {world hf_model hf_tokenizer path : Type}.
Variable AutoModelForCausalLM_from_pretrained :
  string -> bool -> Py.M world hf_model.
Variable AutoTokenizer_from_pretrained : string -> Py.M world hf_tokenizer.
Variable cached_file : string -> string -> Py.M world string.
Variable CONFIG_NAME : string.
Variable Path : string -> path.
Variable parent : path -> path.
Variable str : path -> string.

(** The builders of the reauthored models, [openelm.build_model] and
    [phi4.build_model], read a checkpoint directory. *)
Context {model : Type}.
Variable openelm_build_model : string -> Py.M world model.
Variable phi4_build_model : path -> Py.M world model.

(** What the models compute. *)
Context {token logits : Type}.
Variable encode : hf_tokenizer -> string -> list token.
Variable hf_forward : hf_model -> list token -> logits.
Variable reauthored_forward : model -> list token -> logits.
Variable argmax : logits -> token.
Variable is_eos : token -> bool.
Variable allclose : logits -> logits -> bool.

(** The wrappers of [utilities.verifier] and
    [utilities.transformers_verifier]. *)
Inductive model_wrapper :=
| TransformersModelWrapper (m : hf_model)
| ReauthoredModelWrapper (m : model).

Inductive tokenizer_wrapper :=
| TokenizerWrapper (t : hf_tokenizer).

Definition forward (m : model_wrapper) : list token -> logits :=
  match m with
  | TransformersModelWrapper m => hf_forward m
  | ReauthoredModelWrapper m => reauthored_forward m
  end.

(** Modelled from the spec: [verifier.verify_reauthored_model] is not
    among the sources verified here.  The spec has the scripts "compare a
    reimplemented model's numerical outputs against a reference
    implementation" and a reauthored model "checked for output parity
    against the original"; the flag is "the maximum size of the
    generated tokens".  Each prompt is run through both models, one
    generated token per step for at most [max_new_tokens] steps, and
    the outputs of the steps are compared. *)
Fixpoint generate (m : model_wrapper) (steps : nat) (ids : list token)
  : list logits :=
  match steps with
  | O => []
  | S steps =>
      let out := forward m ids in
      let next := argmax out in
      out :: (if is_eos next then [] else generate m steps (ids ++ [next]))
  end.

Fixpoint all_close (xs ys : list logits) : bool :=
  match xs, ys with
  | [], [] => true
  | x :: xs, y :: ys => allclose x y && all_close xs ys
  | _, _ => false
  end.

Definition outputs_in_parity
           (original_model reauthored_model : model_wrapper)
           (tokenizer : tokenizer_wrapper)
           (generate_prompts : list string) (max_new_tokens : Z) : bool :=
  let 'TokenizerWrapper t := tokenizer in
  forallb (fun prompt =>
             let ids := encode t prompt in
             all_close
               (generate original_model (Z.to_nat max_new_tokens) ids)
               (generate reauthored_model (Z.to_nat max_new_tokens) ids))
          generate_prompts.

(** Modelled from the spec: the scripts use no value of the verifier,
    so what it compared and what it found is kept with the checks made
    so far. *)
Record check := {
  checked_original_model : model_wrapper;
  checked_reauthored_model : model_wrapper;
  checked_tokenizer : tokenizer_wrapper;
  checked_prompts : list string;
  checked_max_new_tokens : Z;
  check_passed : bool }.

(** The scripts log through [logging.info(format, argument)]; the log
    and the checks made are kept next to the world. *)
Record state := {
  the_world : world;
  the_log : list (string * string);
  the_checks : list check }.

(** Modelled from the spec: one call of the verifier makes one check. *)
Definition verify_reauthored_model
           (original_model reauthored_model : model_wrapper)
           (tokenizer : tokenizer_wrapper)
           (generate_prompts : list string) (max_new_tokens : Z)
  : Py.M state unit :=
  fun s =>
    (Py.Ok tt,
     {| the_world := the_world s;
        the_log := the_log s;
        the_checks :=
          the_checks s
          ++ [{| checked_original_model := original_model;
                 checked_reauthored_model := reauthored_model;
                 checked_tokenizer := tokenizer;
                 checked_prompts := generate_prompts;
                 checked_max_new_tokens := max_new_tokens;
                 check_passed :=
                   outputs_in_parity original_model reauthored_model
                                     tokenizer generate_prompts
                                     max_new_tokens |}] |}).

Definition logging_info (format arg : string) : Py.M state unit :=
  fun s => (Py.Ok tt, {| the_world := the_world s;
                         the_log := the_log s ++ [(format, arg)];
                         the_checks := the_checks s |}).

Definition in_world {A} (m : Py.M world A) : Py.M state A :=
  fun s => let '(r, w) := m (the_world s) in
           (r, {| the_world := w; the_log := the_log s;
                  the_checks := the_checks s |}).

(** openelm/verify.py *)
Definition openelm_PROMPTS (fl : flag_values) : list string :=
  multi_string_value "What is the meaning of life?" (given_prompts fl).
Definition openelm_MAX_NEW_TOKENS (fl : flag_values) : Z :=
  integer_value 30 (given_max_new_tokens fl).

(** [main] ends with the call of the verifier, whose value it drops:
    it returns [None]. *)
Definition openelm_main (fl : flag_values) : Py.M state unit :=
  let checkpoint := "apple/OpenELM-3B" in
  logging_info "Loading the original model from: %s" checkpoint;;
  do original_model <-
    in_world (AutoModelForCausalLM_from_pretrained checkpoint true);
  do cached_config_file <- in_world (cached_file checkpoint CONFIG_NAME);
  let reauthored_checkpoint := parent (Path cached_config_file) in
  logging_info "Building the reauthored model from: %s"
               (str reauthored_checkpoint);;
  do reauthored_model <-
    in_world (openelm_build_model (str reauthored_checkpoint));
  let tokenizer_checkpoint := "meta-llama/Llama-2-7b-hf" in
  logging_info "Loading the tokenizer from: %s" tokenizer_checkpoint;;
  do tokenizer <-
    in_world (AutoTokenizer_from_pretrained tokenizer_checkpoint);
  verify_reauthored_model
    (TransformersModelWrapper original_model)
    (ReauthoredModelWrapper reauthored_model)
    (TokenizerWrapper tokenizer)
    (openelm_PROMPTS fl)
    (openelm_MAX_NEW_TOKENS fl);;
  Py.ret tt.

(** phi/verify_phi4.py *)
Definition phi4_PROMPTS (fl : flag_values) : list string :=
  multi_string_value "Instruct: Write an email about the weather Output:"
                     (given_prompts fl).
Definition phi4_MAX_NEW_TOKENS (fl : flag_values) : Z :=
  integer_value 30 (given_max_new_tokens fl).

Definition phi4_main (fl : flag_values) : Py.M state unit :=
  let checkpoint := "microsoft/Phi-4-mini-instruct" in
  logging_info "Loading the original model from: %s" checkpoint;;
  do original_model <-
    in_world (AutoModelForCausalLM_from_pretrained checkpoint false);
  do cached_config_file <- in_world (cached_file checkpoint CONFIG_NAME);
  let reauthored_checkpoint := parent (Path cached_config_file) in
  logging_info "Building the reauthored model from: %s"
               (str reauthored_checkpoint);;
  do reauthored_model <-
    in_world (phi4_build_model reauthored_checkpoint);
  logging_info "Loading the tokenizer from: %s" checkpoint;;
  do tokenizer <- in_world (AutoTokenizer_from_pretrained checkpoint);
  verify_reauthored_model
    (TransformersModelWrapper original_model)
    (ReauthoredModelWrapper reauthored_model)
    (TokenizerWrapper tokenizer)
    (phi4_PROMPTS fl)
    (phi4_MAX_NEW_TOKENS fl);;
  Py.ret tt.

End Scripts.

End Verify.

(** ** _convert/fx_passes: BuildAtenCompositePass and its tests *)

Module BuildAtenComposite.

(** *** The calls that test_build_aten_composite_pass.py exports *)

Inductive interpolation_mode :=
| bilinear
| nearest
| other_mode (name : string).

(** Arguments of [upsample] and [interpolate]; an argument left out is
    [None]. *)
Record resize_args := {
  size : option (list Z);
  scale_factor : option Q;
  mode : interpolation_mode;
  align_corners : option bool }.

Record pool_args := {
  kernel_size : list Z;
  stride : list Z;
  padding : list Z;
  ceil_mode : bool;
  count_include_pad : bool;
  divisor_override : option Z }.

Inductive torch_call :=
| nn_Hardswish
| aten_hardswish_default
| nn_AvgPool2d (p : pool_args)
| F_avg_pool2d (p : pool_args)
| nn_GELU (approximate : string)
| nn_Embedding (num_embeddings embedding_dim : Z)
| aten_embedding_default
| F_embedding
| F_upsample (a : resize_args)
| nn_Upsample (a : resize_args)
| F_interpolate (a : resize_args).

(** *** The exported graph *)

Inductive aten_op :=
| hardswish_op
| gelu_op (approximate : string)
| avg_pool2d_op (p : pool_args)
| embedding_op
| upsample_bilinear2d_op (output_size : list Z) (align_corners : bool)
| upsample_nearest2d_op (output_size : list Z)
| other_op (name : string).

(** A node: its operator and the shapes of its tensor operands. *)
Record node := {
  target : aten_op;
  tensor_args : list (list Z) }.

(** The output size of a resize of an NCHW input: the size argument, or
    each spatial dimension times the scale factor, rounded down. *)
Definition output_size_of (a : resize_args) (input : list Z)
  : option (list Z) :=
  match size a, scale_factor a, input with
  | Some sz, None, [_; _; _; _] => Some sz
  | None, Some s, [_; _; h; w] =>
      Some [Qfloor (s * inject_Z h); Qfloor (s * inject_Z w)]
  | _, _, _ => None
  end.

Definition resize_node (a : resize_args) (input : list Z) : option node :=
  match output_size_of a input with
  | Some sz =>
      Some {| target :=
                match mode a with
                | bilinear =>
                    upsample_bilinear2d_op
                      sz (from_option id false (align_corners a))
                | nearest => upsample_nearest2d_op sz
                | other_mode m => other_op m
                end;
              tensor_args := [input] |}
  | None => None
  end.

(** Modelled from the spec: [torch.export.export] followed by
    [fx_infra.safe_run_decompositions] is outside the sources verified here.
    Each call of the tests becomes the one node of the operator the spec
    names for it ("activation functions, pooling, embedding lookups,
    resize/interpolation"). *)
Definition export (call : torch_call) (export_args : list (list Z))
  : option node :=
  match call, export_args with
  | nn_Hardswish, [x] | aten_hardswish_default, [x] =>
      Some {| target := hardswish_op; tensor_args := [x] |}
  | nn_AvgPool2d p, [x] | F_avg_pool2d p, [x] =>
      Some {| target := avg_pool2d_op p; tensor_args := [x] |}
  | nn_GELU approximate, [x] =>
      Some {| target := gelu_op approximate; tensor_args := [x] |}
  | nn_Embedding n d, [indices] =>
      Some {| target := embedding_op; tensor_args := [[n; d]; indices] |}
  | aten_embedding_default, [weight; indices] =>
      Some {| target := embedding_op; tensor_args := [weight; indices] |}
  | F_embedding, [indices; weight] =>
      Some {| target := embedding_op; tensor_args := [weight; indices] |}
  | F_upsample a, [x] | nn_Upsample a, [x] | F_interpolate a, [x] =>
      resize_node a x
  | _, _ => None
  end.

(** *** The pass *)

Inductive pattern :=
| hardswish
| avg_pool2d
| gelu
| embedding_lookup
| upsample_bilinear2d
| resize_nearest_neighbor.

Inductive attr :=
| attr_bool (b : bool)
| attr_ints (l : list Z).

(** What the pass leaves for a node: a composite delimited by
    [mark_tensor] calls, or the node as it was. *)
Inductive emitted :=
| mark_tensor (composite : string) (pos : nat) (is_input : bool)
| composite_op (name : string) (attributes : list (string * attr))
               (inner : aten_op)
| plain_op (op : aten_op).

(** Modelled from the spec: [fx_passes.BuildAtenCompositePass] is not
    among the sources verified here, only its tests are.  The spec describes
    "a catalog of one-to-one operator-pattern-to-composite-name mappings
    and numeric attribute extraction (e.g., deriving align_corners, size,
    is_nchw_op from interpolation call arguments)", and a composite op
    as "a named, opaque operation boundary inserted into an exported
    graph"; the names are those the tests look for. *)
Definition pattern_of (op : aten_op) : option pattern :=
  match op with
  | hardswish_op => Some hardswish
  | gelu_op _ => Some gelu
  | avg_pool2d_op _ => Some avg_pool2d
  | embedding_op => Some embedding_lookup
  | upsample_bilinear2d_op _ _ => Some upsample_bilinear2d
  | upsample_nearest2d_op _ => Some resize_nearest_neighbor
  | other_op _ => None
  end.

Definition composite_name (p : pattern) : string :=
  match p with
  | hardswish => "aten.hardswish.default"
  | avg_pool2d => "aten.avg_pool2d.default"
  | gelu => "aten.gelu.default"
  | embedding_lookup => "odml.embedding_lookup"
  | upsample_bilinear2d => "odml.upsample_bilinear2d"
  | resize_nearest_neighbor => "tfl.resize_nearest_neighbor"
  end.

(** The attributes the spec names, for the resize composites. *)
Definition composite_attributes (op : aten_op) : list (string * attr) :=
  match op with
  | upsample_bilinear2d_op output_size align_corners =>
      [("size", attr_ints output_size);
       ("align_corners", attr_bool align_corners);
       ("is_nchw_op", attr_bool true)]
  | upsample_nearest2d_op output_size =>
      [("size", attr_ints output_size);
       ("is_nchw_op", attr_bool true)]
  | _ => []
  end.

Definition mark_inputs (composite : string) (args : list (list Z))
  : list emitted :=
  (fun pos => mark_tensor composite pos true) <$> seq 0 (List.length args).

Definition mark_outputs (composite : string) : list emitted :=
  [mark_tensor composite 0 false].

Definition build_composite (n : node) : list emitted :=
  match pattern_of (target n) with
  | Some p =>
      let name := composite_name p in
      mark_inputs name (tensor_args n)
      ++ [composite_op name (composite_attributes (target n)) (target n)]
      ++ mark_outputs name
  | None => [plain_op (target n)]
  end.

Definition BuildAtenCompositePass (graph : list node) : list emitted :=
  graph ≫= build_composite.

(** [_export_to_stablehlo_with_composite]: export, then the pass. *)
Definition export_to_stablehlo_with_composite
           (call : torch_call) (export_args : list (list Z))
  : option (list emitted) :=
  match export call export_args with
  | Some n => Some (BuildAtenCompositePass [n])
  | None => None
  end.

Definition is_composite (name : string) (e : emitted) : bool :=
  match e with
  | composite_op name' _ _ => String.eqb name name'
  | _ => false
  end.

Definition is_mark_tensor (e : emitted) : bool :=
  match e with
  | mark_tensor _ _ _ => true
  | _ => false
  end.

Fixpoint count_where (f : emitted -> bool) (out : list emitted) : nat :=
  match out with
  | [] => 0
  | e :: out => (if f e then 1 else 0) + count_where f out
  end.

Definition count_composites (name : string) (out : list emitted) : nat :=
  count_where (is_composite name) out.

Definition count_mark_tensors (out : list emitted) : nat :=
  count_where is_mark_tensor out.

Definition composites_of (out : list emitted)
  : list (string * list (string * attr)) :=
  omap (fun e => match e with
                 | composite_op name attrs _ => Some (name, attrs)
                 | _ => None
                 end) out.

End BuildAtenComposite.

(** ** test_build_aten_composite_pass.py *)

Module TestBuildAtenCompositePass.
Import BuildAtenComposite.

(** The test file writes its patterns in single quotes with double
    quotes inside; here the inner quotes are written as single quotes
    and turned into double quotes. *)
Fixpoint py (s : string) : string :=
  match s with
  | EmptyString => EmptyString
  | String c s' =>
      String (if Ascii.eqb c "'" then ascii_of_nat 34 else c) (py s')
  end.

Definition decimal (n : Z) : string := NilZero.string_of_int (Z.to_int n).

Definition render_bool (b : bool) : string :=
  if b then "true" else "false".

(** Modelled from the spec: [lowertools.exported_program_to_mlir_text]
    is not among the sources verified here.  The text pieces are those the
    tests look for: the composite with its name, its attributes in the
    MLIR dictionary form (keys in order, a list of equal numbers as one
    number) and in the JSON form (in the order the pass gives them), and
    the [mark_tensor] custom calls. *)
Definition render_json_attr (a : attr) : string :=
  match a with
  | attr_bool b => render_bool b
  | attr_ints l => "[" ++ String.concat ", " (decimal <$> l) ++ "]"
  end.

Definition render_json (attrs : list (string * attr)) : string :=
  "{" ++ String.concat ", "
           ((fun kv =>
               (py "'" ++ kv.1 ++ py "': " ++ render_json_attr kv.2)%string)
              <$> attrs)
      ++ "}".

Definition all_equal (l : list Z) : option Z :=
  match l with
  | x :: rest => if forallb (Z.eqb x) rest then Some x else None
  | [] => None
  end.

Definition render_mlir_attr (a : attr) : string :=
  match a with
  | attr_bool b => render_bool b
  | attr_ints l =>
      "dense<"
      ++ match all_equal l with
         | Some x => decimal x
         | None => "[" ++ String.concat ", " (decimal <$> l) ++ "]"
         end
      ++ "> : tensor<" ++ decimal (Z.of_nat (List.length l)) ++ "xi64>"
  end.

Fixpoint insert_by_key (kv : string * attr) (l : list (string * attr))
  : list (string * attr) :=
  match l with
  | [] => [kv]
  | kv' :: l' => if String.leb kv.1 kv'.1 then kv :: l
                 else kv' :: insert_by_key kv l'
  end.

Definition sort_by_key (l : list (string * attr)) : list (string * attr) :=
  foldr insert_by_key [] l.

Definition render_mlir (attrs : list (string * attr)) : string :=
  "composite_attributes = {"
  ++ String.concat ", "
       ((fun kv => (kv.1 ++ " = " ++ render_mlir_attr kv.2)%string)
          <$> sort_by_key attrs)
  ++ "}".

Definition text_pieces (e : emitted) : list string :=
  match e with
  | mark_tensor _ _ _ => ["stablehlo.custom_call @mark_tensor"]
  | composite_op name attrs _ =>
      py ("stablehlo.composite '" ++ name ++ "'")
      :: match attrs with
         | [] => []
         | _ => [render_mlir attrs; render_json attrs]
         end
  | plain_op _ => []
  end.

Definition exported_program_to_mlir_text (out : list emitted)
  : list string :=
  out ≫= text_pieces.

Definition string_count (text : list string) (pattern : string) : nat :=
  List.length (filter (fun piece => String.eqb pattern piece = true) text).

(** [lowertools.assert_string_count(self, stablehlo, ...)]: every
    pattern of the three counters occurs as often as it says. *)
Definition assert_string_count
           (stablehlo : list string)
           (torch_xla_pattern_counter odml_torch_pattern_counter
              odml_torch_attr_counter : list (string * nat)) : bool :=
  forallb (fun kv => (string_count stablehlo kv.1 =? kv.2)%nat)
          (torch_xla_pattern_counter ++ odml_torch_pattern_counter
           ++ odml_torch_attr_counter).

Record test_case := {
  test_name : string;
  func : torch_call;
  export_args : list (list Z);
  torch_xla_pattern_counter : list (string * nat);
  odml_torch_pattern_counter : list (string * nat);
  odml_torch_attr_counter : list (string * nat) }.

Definition run_test (t : test_case) : bool :=
  match export_to_stablehlo_with_composite (func t) (export_args t) with
  | Some out =>
      assert_string_count (exported_program_to_mlir_text out)
                          (torch_xla_pattern_counter t)
                          (odml_torch_pattern_counter t)
                          (odml_torch_attr_counter t)
  | None => false
  end.

Definition mark_tensors (n : nat) : list (string * nat) :=
  [("stablehlo.custom_call @mark_tensor", n)].

Definition pool (padding : list Z) (ceil_mode count_include_pad : bool)
  : pool_args :=
  {| kernel_size := [3; 3]; stride := [1; 1]; padding := padding;
     ceil_mode := ceil_mode; count_include_pad := count_include_pad;
     divisor_override := None |}.

Definition by_scale (m : interpolation_mode) (ac : option bool)
  : resize_args :=
  {| size := None; scale_factor := Some (3 # 1)%Q; mode := m;
     align_corners := ac |}.

Definition by_size (m : interpolation_mode) (ac : option bool)
  : resize_args :=
  {| size := Some [15; 20]; scale_factor := None; mode := m;
     align_corners := ac |}.

Definition simple_test (name : string) (f : torch_call)
           (args : list (list Z)) (composite : string) (marks : nat)
  : test_case :=
  {| test_name := name; func := f; export_args := args;
     torch_xla_pattern_counter :=
       [(py ("stablehlo.composite '" ++ composite ++ "'"), 1%nat)];
     odml_torch_pattern_counter := mark_tensors marks;
     odml_torch_attr_counter := [] |}.

Definition resize_test (name : string) (f : torch_call)
           (composite mlir_attrs json_attrs : string) : test_case :=
  {| test_name := name; func := f; export_args := [[1; 3; 10; 10]];
     torch_xla_pattern_counter :=
       [(py ("stablehlo.composite '" ++ composite ++ "'"), 1%nat);
        (mlir_attrs, 1%nat)];
     odml_torch_pattern_counter := mark_tensors 2;
     odml_torch_attr_counter := [(py json_attrs, 1%nat)] |}.

Definition tests : list test_case :=
  [ simple_test "test_hardswish_layer" nn_Hardswish [[10; 10]]
      "aten.hardswish.default" 2;
    simple_test "test_hardswish_op" aten_hardswish_default [[10; 10]]
      "aten.hardswish.default" 2;
    simple_test "test_avg_pool2d_layer"
      (nn_AvgPool2d (pool [0; 0] false true)) [[1; 3; 6; 6]]
      "aten.avg_pool2d.default" 2;
    simple_test "test_avg_pool2d_op"
      (F_avg_pool2d (pool [1; 1] false false)) [[1; 3; 6; 6]]
      "aten.avg_pool2d.default" 2;
    simple_test "test_avg_pool2d_ceil_mode"
      (F_avg_pool2d (pool [1; 1] true true)) [[1; 3; 6; 6]]
      "aten.avg_pool2d.default" 2;
    simple_test "test_gelu_layer" (nn_GELU "none") [[10; 10]]
      "aten.gelu.default" 2;
    simple_test "test_approximate_gelu_layer" (nn_GELU "tanh") [[10; 10]]
      "aten.gelu.default" 2;
    simple_test "test_embedding_lookup_layer" (nn_Embedding 10 10)
      [[1; 10]] "odml.embedding_lookup" 3;
    simple_test "test_embedding_lookup_op" aten_embedding_default
      [[10; 10]; [1; 10]] "odml.embedding_lookup" 3;
    simple_test "test_embedding_lookup_functional" F_embedding
      [[1; 10]; [10; 10]] "odml.embedding_lookup" 3;
    resize_test "test_nn_functional_upsample_bilinear"
      (F_upsample (by_scale bilinear None)) "odml.upsample_bilinear2d"
      "composite_attributes = {align_corners = false, is_nchw_op = true, size = dense<30> : tensor<2xi64>}"
      "{'size': [30, 30], 'align_corners': false, 'is_nchw_op': true}";
    resize_test "test_nn_functional_upsample_bilinear_align_corners"
      (F_upsample (by_scale bilinear (Some true))) "odml.upsample_bilinear2d"
      "composite_attributes = {align_corners = true, is_nchw_op = true, size = dense<30> : tensor<2xi64>}"
      "{'size': [30, 30], 'align_corners': true, 'is_nchw_op': true}";
    resize_test "test_nn_functional_upsample_bilinear_size"
      (F_upsample (by_size bilinear None)) "odml.upsample_bilinear2d"
      "composite_attributes = {align_corners = false, is_nchw_op = true, size = dense<[15, 20]> : tensor<2xi64>}"
      "{'size': [15, 20], 'align_corners': false, 'is_nchw_op': true}";
    resize_test "test_nn_functional_upsample_bilinear_size_align_corners"
      (F_upsample (by_size bilinear (Some true))) "odml.upsample_bilinear2d"
      "composite_attributes = {align_corners = true, is_nchw_op = true, size = dense<[15, 20]> : tensor<2xi64>}"
      "{'size': [15, 20], 'align_corners': true, 'is_nchw_op': true}";
    resize_test "test_nn_upsample_bilinear"
      (nn_Upsample (by_scale bilinear None)) "odml.upsample_bilinear2d"
      "composite_attributes = {align_corners = false, is_nchw_op = true, size = dense<30> : tensor<2xi64>}"
      "{'size': [30, 30], 'align_corners': false, 'is_nchw_op': true}";
    resize_test "test_nn_functional_interpolate_bilinear"
      (F_interpolate (by_scale bilinear None)) "odml.upsample_bilinear2d"
      "composite_attributes = {align_corners = false, is_nchw_op = true, size = dense<30> : tensor<2xi64>}"
      "{'size': [30, 30], 'align_corners': false, 'is_nchw_op': true}";
    resize_test "test_nn_functional_interpolate_bilinear_align_corners"
      (F_interpolate (by_scale bilinear (Some true)))
      "odml.upsample_bilinear2d"
      "composite_attributes = {align_corners = true, is_nchw_op = true, size = dense<30> : tensor<2xi64>}"
      "{'size': [30, 30], 'align_corners': true, 'is_nchw_op': true}";
    resize_test "test_nn_functional_interpolate_bilinear_size"
      (F_interpolate (by_size bilinear None)) "odml.upsample_bilinear2d"
      "composite_attributes = {align_corners = false, is_nchw_op = true, size = dense<[15, 20]> : tensor<2xi64>}"
      "{'size': [15, 20], 'align_corners': false, 'is_nchw_op': true}";
    resize_test "test_nn_functional_interpolate_bilinear_size_align_corners"
      (F_interpolate (by_size bilinear (Some true)))
      "odml.upsample_bilinear2d"
      "composite_attributes = {align_corners = true, is_nchw_op = true, size = dense<[15, 20]> : tensor<2xi64>}"
      "{'size': [15, 20], 'align_corners': true, 'is_nchw_op': true}";
    resize_test "test_nn_functional_interpolate_nearest"
      (F_interpolate (by_scale nearest None)) "tfl.resize_nearest_neighbor"
      "composite_attributes = {is_nchw_op = true, size = dense<30> : tensor<2xi64>}"
      "{'size': [30, 30], 'is_nchw_op': true}";
    resize_test "test_nn_functional_interpolate_nearest_size"
      (F_interpolate (by_size nearest None)) "tfl.resize_nearest_neighbor"
      "composite_attributes = {is_nchw_op = true, size = dense<[15, 20]> : tensor<2xi64>}"
      "{'size': [15, 20], 'is_nchw_op': true}" ].

End TestBuildAtenCompositePass.

(** * Properties *)

(** ** Hammer configs *)

Module ListFacts.

Lemma lookup_app_plus {A} (s l : list A) (k : nat) :
  (s ++ l) !! (List.length s + k)%nat = l !! k.
Proof.
  rewrite lookup_app_r by lia. f_equal. lia.
Qed.

End ListFacts.

Module HammerSpec.
Import Hammer ListFacts.

Lemma alloc_run (o : obj) (s0 l : list obj) :
  alloc o (s0 ++ l)
  = (Py.Ok (List.length s0 + List.length l)%nat, s0 ++ (l ++ [o])).
Proof.
  unfold alloc. rewrite length_app, app_assoc. reflexivity.
Qed.

(** The objects [get_1_5b_model_config] allocates, after the objects
    already in the store. *)
Definition objects_1_5b (base : nat) (kv : Z) : list obj :=
  [ OAttn {| num_heads := 12; head_dim := 128; num_query_groups := 2;
             rotary_base := 1000000; rotary_percentage := 1;
             qkv_use_bias := true |};
    OAct {| act_type := SILU |};
    OFF {| ff_type := GATED; activation := (base + 1)%nat;
           intermediate_size := 8960 |};
    ONorm {| norm_type := RMS_NORM; epsilon := 1 # 1000000;
             norm_enable_hlfb := true |};
    OBlock {| attn_config := (base + 0)%nat; ff_config := (base + 2)%nat;
              pre_attention_norm_config := (base + 3)%nat;
              post_attention_norm_config := (base + 3)%nat |};
    OModel {| vocab_size := 151665; num_layers := 28;
              max_seq_len := 32768; embedding_dim := 1536;
              kv_cache_max_len := kv;
              block_configs := (base + 4)%nat;
              final_norm_config := (base + 3)%nat;
              enable_hlfb := true |} ].

Lemma get_1_5b_model_config_run (kv : option Z) (s : store) :
  get_1_5b_model_config kv s
  = (Py.Ok (List.length s + 5)%nat,
     s ++ objects_1_5b (List.length s) (default kv_cache_max_len_default kv)).
Proof.
  unfold get_1_5b_model_config, Py.bind.
  rewrite <- (app_nil_r s) at 1.
  repeat (rewrite alloc_run; cbn [List.length app]).
  reflexivity.
Qed.

Ltac read_store := repeat (rewrite lookup_app_plus; cbn).
Ltac write_store := repeat (rewrite insert_app_r; cbn).

(** C8: [get_1_5b_model_config] returns, in any store, a config with
    vocab_size 151665, num_layers 28, max_seq_len 32768, embedding_dim
    1536, kv_cache_max_len the argument or 1024 when it is left out, and
    one block config: attention with 12 heads, head_dim 128, 2 query
    groups, rotary_base 1000000 and qkv bias; a gated SiLU feed-forward
    of intermediate size 8960; RMS normalization with epsilon 1e-06
    before and after attention and as the final norm. *)
Theorem get_1_5b_model_config_fields (kv : option Z) (s : store) :
  exists c,
    returned_config (get_1_5b_model_config kv) s = Some c /\
    v_vocab_size c = 151665 /\
    v_num_layers c = 28 /\
    v_max_seq_len c = 32768 /\
    v_embedding_dim c = 1536 /\
    v_kv_cache_max_len c = match kv with Some k => k | None => 1024 end /\
    num_heads (v_attn_config (v_block_config c)) = 12 /\
    head_dim (v_attn_config (v_block_config c)) = 128 /\
    num_query_groups (v_attn_config (v_block_config c)) = 2 /\
    rotary_base (v_attn_config (v_block_config c)) = 1000000 /\
    qkv_use_bias (v_attn_config (v_block_config c)) = true /\
    v_ff_type (v_ff_config (v_block_config c)) = GATED /\
    act_type (v_activation (v_ff_config (v_block_config c))) = SILU /\
    v_intermediate_size (v_ff_config (v_block_config c)) = 8960 /\
    (let rms := {| norm_type := RMS_NORM; epsilon := 1 # 1000000;
                   norm_enable_hlfb := true |} in
     v_pre_attention_norm_config (v_block_config c) = rms /\
     v_post_attention_norm_config (v_block_config c) = rms /\
     v_final_norm_config c = rms).
Proof.
  unfold returned_config. rewrite get_1_5b_model_config_run.
  unfold read_model, read_block, read_ff, read_attn, read_act, read_norm,
    objects_1_5b.
  read_store.
  eexists; split; [reflexivity|].
  destruct kv; cbn; repeat split; reflexivity.
Qed.

(** The store after [get_0_5b_model_config]: the objects of the 1.5B
    config with five fields assigned. *)
Definition objects_0_5b (base : nat) (kv : Z) : list obj :=
  [ OAttn {| num_heads := 14; head_dim := 64; num_query_groups := 2;
             rotary_base := 1000000; rotary_percentage := 1;
             qkv_use_bias := true |};
    OAct {| act_type := SILU |};
    OFF {| ff_type := GATED; activation := (base + 1)%nat;
           intermediate_size := 4864 |};
    ONorm {| norm_type := RMS_NORM; epsilon := 1 # 1000000;
             norm_enable_hlfb := true |};
    OBlock {| attn_config := (base + 0)%nat; ff_config := (base + 2)%nat;
              pre_attention_norm_config := (base + 3)%nat;
              post_attention_norm_config := (base + 3)%nat |};
    OModel {| vocab_size := 151665; num_layers := 24;
              max_seq_len := 32768; embedding_dim := 896;
              kv_cache_max_len := kv;
              block_configs := (base + 4)%nat;
              final_norm_config := (base + 3)%nat;
              enable_hlfb := true |} ].

Lemma get_0_5b_model_config_run (kv : option Z) (s : store) :
  get_0_5b_model_config kv s
  = (Py.Ok (List.length s + 5)%nat,
     s ++ objects_0_5b (List.length s) (default kv_cache_max_len_default kv)).
Proof.
  unfold get_0_5b_model_config, Py.bind at 1.
  rewrite get_1_5b_model_config_run.
  unfold block_config, get_model, get_block, set_attn, set_ff, set_model,
    Py.bind, Py.ret, objects_1_5b.
  repeat (progress (read_store; write_store)).
  reflexivity.
Qed.

(** C9: for every [kv_cache_max_len], the config of
    [get_0_5b_model_config] is the config of [get_1_5b_model_config] with
    num_layers 24, embedding_dim 896, the attention's num_heads 14 and
    head_dim 64, and the feed-forward's intermediate_size 4864; every
    other field is the same, and no object that was in the store before
    the call is touched. *)
Theorem get_0_5b_model_config_frame (kv : option Z) (s : store) :
  exists c15 c05,
    returned_config (get_1_5b_model_config kv) s = Some c15 /\
    returned_config (get_0_5b_model_config kv) s = Some c05 /\
    c05 =
      {| v_vocab_size := v_vocab_size c15;
         v_num_layers := 24;
         v_max_seq_len := v_max_seq_len c15;
         v_embedding_dim := 896;
         v_kv_cache_max_len := v_kv_cache_max_len c15;
         v_block_config :=
           let b := v_block_config c15 in
           {| v_attn_config :=
                let a := v_attn_config b in
                {| num_heads := 14;
                   head_dim := 64;
                   num_query_groups := num_query_groups a;
                   rotary_base := rotary_base a;
                   rotary_percentage := rotary_percentage a;
                   qkv_use_bias := qkv_use_bias a |};
              v_ff_config :=
                let f := v_ff_config b in
                {| v_ff_type := v_ff_type f;
                   v_activation := v_activation f;
                   v_intermediate_size := 4864 |};
              v_pre_attention_norm_config :=
                v_pre_attention_norm_config b;
              v_post_attention_norm_config :=
                v_post_attention_norm_config b |};
         v_final_norm_config := v_final_norm_config c15;
         v_enable_hlfb := v_enable_hlfb c15 |} /\
    v_kv_cache_max_len c05 = match kv with Some k => k | None => 1024 end /\
    (forall l o, s !! l = Some o ->
       (get_0_5b_model_config kv s).2 !! l = Some o).
Proof.
  unfold returned_config.
  rewrite get_1_5b_model_config_run, get_0_5b_model_config_run.
  unfold read_model, read_block, read_ff, read_attn, read_act, read_norm,
    objects_1_5b, objects_0_5b.
  read_store.
  do 2 eexists. split; [reflexivity|]. split; [reflexivity|].
  split; [reflexivity|]. split; [destruct kv; reflexivity|].
  intros l o Hl. apply lookup_app_l_Some. exact Hl.
Qed.

(** The store after [get_fake_model_config]. *)
Definition objects_fake (base : nat) (kv : Z) : list obj :=
  [ OAttn {| num_heads := 12; head_dim := 128; num_query_groups := 2;
             rotary_base := 1000000; rotary_percentage := 1;
             qkv_use_bias := true |};
    OAct {| act_type := SILU |};
    OFF {| ff_type := GATED; activation := (base + 1)%nat;
           intermediate_size := 64 |};
    ONorm {| norm_type := RMS_NORM; epsilon := 1 # 1000000;
             norm_enable_hlfb := true |};
    OBlock {| attn_config := (base + 0)%nat; ff_config := (base + 2)%nat;
              pre_attention_norm_config := (base + 3)%nat;
              post_attention_norm_config := (base + 3)%nat |};
    OModel {| vocab_size := 128; num_layers := 2;
              max_seq_len := 32768; embedding_dim := 16;
              kv_cache_max_len := kv;
              block_configs := (base + 4)%nat;
              final_norm_config := (base + 3)%nat;
              enable_hlfb := true |} ].

Lemma get_fake_model_config_run (kv : option Z) (s : store) :
  get_fake_model_config kv s
  = (Py.Ok (List.length s + 5)%nat,
     s ++ objects_fake (List.length s) (default kv_cache_max_len_default kv)).
Proof.
  unfold get_fake_model_config, Py.bind at 1.
  rewrite get_1_5b_model_config_run.
  unfold block_config, get_model, get_block, set_attn, set_ff, set_model,
    Py.bind, Py.ret, objects_1_5b.
  repeat (progress (read_store; write_store)).
  reflexivity.
Qed.

(** X1: the config of [get_fake_model_config] is the 1.5B config with
    vocab_size 128, num_layers 2, embedding_dim 16 and a feed-forward
    intermediate_size of 64; the attention, the normalizations, the
    sequence and cache lengths are those of the 1.5B config, and no
    object that was in the store before the call is touched. *)
Theorem get_fake_model_config_frame (kv : option Z) (s : store) :
  exists c15 cf,
    returned_config (get_1_5b_model_config kv) s = Some c15 /\
    returned_config (get_fake_model_config kv) s = Some cf /\
    cf =
      {| v_vocab_size := 128;
         v_num_layers := 2;
         v_max_seq_len := v_max_seq_len c15;
         v_embedding_dim := 16;
         v_kv_cache_max_len := v_kv_cache_max_len c15;
         v_block_config :=
           let b := v_block_config c15 in
           {| v_attn_config := v_attn_config b;
              v_ff_config :=
                let f := v_ff_config b in
                {| v_ff_type := v_ff_type f;
                   v_activation := v_activation f;
                   v_intermediate_size := 64 |};
              v_pre_attention_norm_config := v_pre_attention_norm_config b;
              v_post_attention_norm_config :=
                v_post_attention_norm_config b |};
         v_final_norm_config := v_final_norm_config c15;
         v_enable_hlfb := v_enable_hlfb c15 |} /\
    (forall l o, s !! l = Some o ->
       (get_fake_model_config kv s).2 !! l = Some o).
Proof.
  unfold returned_config.
  rewrite get_1_5b_model_config_run, get_fake_model_config_run.
  unfold read_model, read_block, read_ff, read_attn, read_act, read_norm,
    objects_1_5b, objects_fake.
  read_store.
  do 2 eexists. split; [reflexivity|]. split; [reflexivity|].
  split; [reflexivity|].
  intros l o Hl. apply lookup_app_l_Some. exact Hl.
Qed.

(** X2: [get_1_5b_model_config] passes one [norm_config] object as the
    normalization before attention, after attention and at the end: the
    three fields hold the same location, so whatever is stored there
    afterwards is what all three read. *)
Theorem get_1_5b_model_config_shares_norm (kv : option Z) (s : store)
        (n : NormalizationConfig) :
  exists config s' m b,
    get_1_5b_model_config kv s = (Py.Ok config, s') /\
    s' !! config = Some (OModel m) /\
    s' !! block_configs m = Some (OBlock b) /\
    pre_attention_norm_config b = final_norm_config m /\
    post_attention_norm_config b = final_norm_config m /\
    final_norm_config m <> attn_config b /\
    final_norm_config m <> ff_config b /\
    exists c,
      read_model (<[final_norm_config m := ONorm n]> s') config = Some c /\
      v_final_norm_config c = n /\
      v_pre_attention_norm_config (v_block_config c) = n /\
      v_post_attention_norm_config (v_block_config c) = n.
Proof.
  rewrite get_1_5b_model_config_run. unfold objects_1_5b.
  do 4 eexists. split; [reflexivity|].
  split; [read_store; reflexivity|]. cbn [block_configs].
  split; [read_store; reflexivity|].
  cbn [pre_attention_norm_config post_attention_norm_config
         final_norm_config attn_config ff_config].
  split; [reflexivity|]. split; [reflexivity|].
  split; [lia|]. split; [lia|].
  unfold read_model, read_block, read_ff, read_attn, read_act, read_norm.
  write_store. read_store.
  eexists. split; [reflexivity|]. repeat split.
Qed.

(** X3: configs of separate calls share no object: building a 0.5B or a
    fake config, with the in-place assignments that takes, leaves a 1.5B
    config built before it reading as it did. *)
Theorem later_config_leaves_earlier (kv1 kv2 : option Z) (s : store) :
  exists first s1 c15,
    get_1_5b_model_config kv1 s = (Py.Ok first, s1) /\
    read_model s1 first = Some c15 /\
    read_model (get_0_5b_model_config kv2 s1).2 first = Some c15 /\
    read_model (get_fake_model_config kv2 s1).2 first = Some c15 /\
    read_model (get_1_5b_model_config kv2 s1).2 first = Some c15.
Proof.
  rewrite get_1_5b_model_config_run.
  do 3 eexists. split; [reflexivity|].
  rewrite get_0_5b_model_config_run, get_fake_model_config_run,
    get_1_5b_model_config_run.
  cbn [snd]. rewrite <- !app_assoc.
  unfold read_model, read_block, read_ff, read_attn, read_act, read_norm,
    objects_1_5b.
  read_store. repeat split.
Qed.

End HammerSpec.

(** ** Strided views *)

Module TorchSpec.
Import Torch.

Lemma in_bounds_cons i idx d sh :
  in_bounds (i :: idx) (d :: sh) = true
  <-> 0 <= i < d /\ in_bounds idx sh = true.
Proof.
  cbn. rewrite !andb_true_iff, Z.leb_le, Z.ltb_lt. tauto.
Qed.

Lemma in_bounds_length idx sh :
  in_bounds idx sh = true -> List.length idx = List.length sh.
Proof.
  revert sh; induction idx as [|i idx IH]; intros [|d sh] H;
    try discriminate; [reflexivity|].
  apply in_bounds_cons in H as [_ H]. cbn. f_equal. auto.
Qed.

(** [all_indices] lists the multi-indices within the shape, and only
    those. *)
Lemma elem_of_all_indices idx sh :
  idx ∈ all_indices sh <-> in_bounds idx sh = true.
Proof.
  revert idx; induction sh as [|d sh IH]; intros idx; cbn [all_indices].
  - rewrite list_elem_of_singleton. destruct idx; cbn; split; congruence.
  - rewrite list_elem_of_bind. split.
    + intros (i & Hidx & Hi).
      apply list_elem_of_fmap in Hidx as (tl & -> & Htl).
      apply elem_of_seqZ in Hi. apply in_bounds_cons.
      split; [lia|]. apply IH, Htl.
    + destruct idx as [|i tl]; [discriminate|].
      intros [Hi Htl]%in_bounds_cons.
      exists i. split.
      * apply list_elem_of_fmap. exists tl. split; [reflexivity|].
        apply IH, Htl.
      * apply elem_of_seqZ. lia.
Qed.

Lemma lookup_bind_blocks {A B} (f : A -> list B) (l : list A)
      (n i k : nat) (x : A) :
  (forall y, List.length (f y) = n) ->
  l !! i = Some x -> (k < n)%nat ->
  (l ≫= f) !! (i * n + k)%nat = f x !! k.
Proof.
  intros Hlen. revert i; induction l as [|y l IH]; intros i Hi Hk.
  - discriminate.
  - rewrite bind_cons. destruct i as [|i]; cbn in Hi.
    + injection Hi as ->. rewrite lookup_app_l by (rewrite Hlen; lia).
      reflexivity.
    + rewrite lookup_app_r by (rewrite Hlen; lia).
      rewrite Hlen. replace (S i * n + k - n)%nat with (i * n + k)%nat by lia.
      apply IH; assumption.
Qed.

Lemma numel_pos_in_bounds idx sh :
  in_bounds idx sh = true -> 0 < numel sh.
Proof.
  revert sh; induction idx as [|i idx IH]; intros [|d sh] H;
    try discriminate; [reflexivity|].
  apply in_bounds_cons in H as [Hi H]. specialize (IH _ H).
  change (0 < d * numel sh). nia.
Qed.

Lemma length_all_indices idx sh :
  in_bounds idx sh = true ->
  List.length (all_indices sh) = Z.to_nat (numel sh).
Proof.
  revert sh; induction idx as [|i idx IH]; intros [|d sh] H;
    try discriminate; [reflexivity|].
  apply in_bounds_cons in H as [Hi H].
  cbn [all_indices numel fold_right].
  pose proof (numel_pos_in_bounds _ _ H) as Hpos.
  specialize (IH _ H). fold (numel sh).
  assert (Hgen : forall l : list Z,
             List.length (l ≫= fun i => (fun idx => i :: idx) <$> all_indices sh)
             = (List.length l * Z.to_nat (numel sh))%nat).
  { induction l as [|a l IHl]; [reflexivity|].
    rewrite bind_cons, length_app, length_fmap, IHl, IH. cbn. lia. }
  rewrite Hgen, length_seqZ. rewrite Z2Nat.inj_mul by lia. reflexivity.
Qed.

(** The position of a multi-index in row-major order is its dot product
    with the contiguous strides. *)
Lemma row_major_position idx sh :
  in_bounds idx sh = true ->
  0 <= dot idx (contiguous_strides sh) < numel sh /\
  all_indices sh !! Z.to_nat (dot idx (contiguous_strides sh)) = Some idx.
Proof.
  revert sh; induction idx as [|i idx IH]; intros [|d sh] H;
    try discriminate.
  - cbn. split; [lia|reflexivity].
  - apply in_bounds_cons in H as [Hi H].
    destruct (IH _ H) as [Hdot Hlook].
    pose proof (length_all_indices _ _ H) as Hlen.
    cbn [dot contiguous_strides numel fold_right all_indices].
    fold (numel sh). split; [nia|].
    rewrite Z2Nat.inj_add, Z2Nat.inj_mul by nia.
    rewrite <- Hlen.
    rewrite (lookup_bind_blocks _ _ _ _ _ i).
    + rewrite list_lookup_fmap, Hlook. reflexivity.
    + intros y. apply length_fmap.
    + rewrite lookup_seqZ_lt by lia. f_equal. lia.
    + rewrite Hlen. lia.
Qed.

(** A slice range [begin, begin + size) of each dimension that lies
    within the dimension. *)
Definition range_within (b s d : Z) : Prop := 0 <= b /\ 0 <= s /\ b + s <= d.

Lemma clip_bound_id i n : 0 <= i <= n -> clip_bound i n = i.
Proof.
  intros H. unfold clip_bound.
  destruct (Z.ltb_spec i 0); lia.
Qed.

Lemma getitem_slices_within begin size sh st :
  Forall3 range_within begin size sh ->
  List.length st = List.length sh ->
  getitem_slices (zip_with (fun i l => (i, i + l)) begin size) sh st
  = Py.Ok (dot begin st, size).
Proof.
  intros H; revert st.
  induction H as [|b s d begin size sh (Hb & Hs & Hd) H IH];
    intros st Hlen.
  - reflexivity.
  - destruct st as [|k st]; [discriminate|].
    cbn [zip_with getitem_slices dot].
    rewrite IH by (cbn in Hlen; lia).
    rewrite !clip_bound_id by lia.
    do 3 f_equal. lia.
Qed.

Lemma dot_shift begin idx st :
  List.length begin = List.length idx ->
  dot (zip_with Z.add begin idx) st = dot begin st + dot idx st.
Proof.
  revert idx st; induction begin as [|b begin IH];
    intros [|i idx] [|k st] Hlen; try discriminate; try reflexivity.
  cbn [zip_with dot]. rewrite IH by (cbn in Hlen; lia). lia.
Qed.

Lemma in_bounds_shift begin size sh idx :
  Forall3 range_within begin size sh ->
  in_bounds idx size = true ->
  in_bounds (zip_with Z.add begin idx) sh = true.
Proof.
  intros H; revert idx.
  induction H as [|b s d begin size sh (Hb & Hs & Hd) H IH];
    intros [|i idx] Hin; try discriminate; [reflexivity|].
  apply in_bounds_cons in Hin as [Hi Hin].
  cbn [zip_with]. apply in_bounds_cons. split; [lia|]. auto.
Qed.

Lemma Forall3_lengths {A B C} (P : A -> B -> C -> Prop) l k m :
  Forall3 P l k m ->
  List.length l = List.length k /\ List.length k = List.length m.
Proof.
  induction 1 as [|? ? ? ? ? ? ? ? [IH1 IH2]]; cbn; split; congruence.
Qed.

Section Elem.
Context {elem : Type}.
Implicit Types (h : list (list elem)) (t : tensor).

Lemma tensor_get_in_bounds h t idx :
  is_Some (tensor_get h t idx) -> in_bounds idx (shape t) = true.
Proof.
  unfold tensor_get. destruct (in_bounds idx (shape t)); [reflexivity|].
  intros [? ?]; discriminate.
Qed.

(** Allocating more storages does not change what a view reads. *)
Lemma tensor_get_alloc h t idx more :
  is_Some (tensor_get h t idx) ->
  tensor_get (h ++ more) t idx = tensor_get h t idx.
Proof.
  unfold tensor_get.
  destruct (in_bounds idx (shape t)); [|intros [? ?]; discriminate].
  destruct (0 <=? offset t + dot idx (strides t));
    [|intros [? ?]; discriminate].
  destruct (h !! storage t) as [data|] eqn:Hs;
    [|intros [? ?]; discriminate].
  intros _. rewrite (lookup_app_l_Some _ _ _ _ Hs). reflexivity.
Qed.

(** The tensor [clone] returns when the heap holds [n] storages. *)
Definition cloned (t : tensor) (n : nat) : tensor :=
  {| storage := n; offset := 0; shape := shape t;
     strides := contiguous_strides (shape t); dtype_of := dtype_of t |}.

Lemma clone_spec h t :
  tensor_ok h t ->
  exists data,
    clone t h = (Py.Ok (cloned t (List.length h)), h ++ [data]) /\
    forall idx,
      tensor_get (h ++ [data]) (cloned t (List.length h)) idx
      = tensor_get h t idx.
Proof.
  intros [_ Hok].
  destruct (mapM_is_Some_2 (tensor_get h t) (all_indices (shape t)))
    as [data Hdata].
  { eapply Forall_impl; [exact Hok|]. intros idx H. exact H. }
  exists data. split.
  { unfold clone. rewrite Hdata. reflexivity. }
  intros idx. apply mapM_Some in Hdata.
  unfold tensor_get at 1. cbn [shape cloned offset strides storage].
  destruct (in_bounds idx (shape t)) eqn:Hin.
  - destruct (row_major_position _ _ Hin) as [Hpos Hlook].
    destruct (Forall2_lookup_l _ _ _ _ _ Hdata Hlook) as (x & Hx & Hget).
    rewrite Z.add_0_l.
    destruct (Z.leb_spec 0 (dot idx (contiguous_strides (shape t))));
      [|lia].
    rewrite list_lookup_middle by reflexivity. cbn.
    rewrite Hx, Hget. reflexivity.
  - unfold tensor_get. rewrite Hin. reflexivity.
Qed.

(** The view [input[begin : begin + size]] for ranges within the
    input. *)
Definition sliced (input : tensor) (begin size : list Z) : tensor :=
  {| storage := storage input;
     offset := offset input + dot begin (strides input);
     shape := size;
     strides := strides input;
     dtype_of := dtype_of input |}.

Lemma sliced_get h input begin size idx :
  Forall3 range_within begin size (shape input) ->
  in_bounds idx size = true ->
  tensor_get h (sliced input begin size) idx
  = tensor_get h input (zip_with Z.add begin idx).
Proof.
  intros H Hin. unfold tensor_get. cbn [sliced shape offset strides storage].
  rewrite Hin, (in_bounds_shift _ _ _ _ H Hin).
  rewrite dot_shift, Z.add_assoc; [reflexivity|].
  apply Forall3_lengths in H as [-> _].
  symmetry. apply in_bounds_length, Hin.
Qed.

Lemma sliced_ok h input begin size :
  tensor_ok h input ->
  Forall3 range_within begin size (shape input) ->
  tensor_ok h (sliced input begin size).
Proof.
  intros [Hlen Hok] H. split.
  - cbn. rewrite Hlen. apply Forall3_lengths in H as [_ H]. congruence.
  - cbn [sliced shape]. apply Forall_forall. intros idx Hidx.
    apply elem_of_all_indices in Hidx.
    rewrite (sliced_get _ _ _ _ _ H Hidx).
    rewrite Forall_forall in Hok. apply Hok.
    apply elem_of_all_indices. eapply in_bounds_shift; eassumption.
Qed.

End Elem.

(** *** Transposing the last two dimensions *)

Lemma split_last_two {A} (l : list A) :
  (2 <= List.length l)%nat -> exists pre a b, l = pre ++ [a; b].
Proof.
  induction l as [|x l IH]; cbn; [lia|]. intros Hlen.
  destruct l as [|y [|z l]].
  - cbn in Hlen. lia.
  - exists [], x, y. reflexivity.
  - destruct IH as (pre & a & b & Hl); [cbn; lia|].
    exists (x :: pre), a, b. rewrite Hl. reflexivity.
Qed.

Lemma swap_last_two {A} (pre : list A) (a b : A) :
  swap (List.length pre + 1) (List.length pre + 0) (pre ++ [a; b])
  = pre ++ [b; a].
Proof.
  unfold swap.
  rewrite !(ListFacts.lookup_app_plus pre [a; b]). cbn [lookup list_lookup].
  rewrite insert_app_r. cbn [insert list_insert].
  rewrite insert_app_r. reflexivity.
Qed.

Lemma wrap_dim_last n :
  (2 <= n)%nat -> wrap_dim (-1) (Z.of_nat n) = Py.Ok (n - 2 + 1)%nat.
Proof.
  intros Hn. unfold wrap_dim.
  rewrite Z.max_l by lia.
  destruct (Z.leb_spec (- Z.of_nat n) (-1)); [|lia].
  destruct (Z.ltb_spec (-1) (Z.of_nat n)); [|lia].
  cbn [andb]. destruct (Z.ltb_spec (-1) 0); [|lia].
  f_equal. lia.
Qed.

Lemma wrap_dim_last_but_one n :
  (2 <= n)%nat -> wrap_dim (-2) (Z.of_nat n) = Py.Ok (n - 2 + 0)%nat.
Proof.
  intros Hn. unfold wrap_dim.
  rewrite Z.max_l by lia.
  destruct (Z.leb_spec (- Z.of_nat n) (-2)); [|lia].
  destruct (Z.ltb_spec (-2) (Z.of_nat n)); [|lia].
  cbn [andb]. destruct (Z.ltb_spec (-2) 0); [|lia].
  f_equal. lia.
Qed.

Lemma transpose_last_two t pre a b ps sa sb :
  shape t = pre ++ [a; b] ->
  strides t = ps ++ [sa; sb] ->
  List.length ps = List.length pre ->
  transpose t (-1) (-2)
  = Py.Ok {| storage := storage t; offset := offset t;
             shape := pre ++ [b; a]; strides := ps ++ [sb; sa];
             dtype_of := dtype_of t |}.
Proof.
  intros Hsh Hst Hlen. unfold transpose, ndim.
  assert (Hn : (2 <= List.length (shape t))%nat).
  { rewrite Hsh, length_app. cbn. lia. }
  rewrite (wrap_dim_last _ Hn), (wrap_dim_last_but_one _ Hn).
  assert (Hpre : (List.length (shape t) - 2 = List.length pre)%nat).
  { rewrite Hsh, length_app. cbn. lia. }
  rewrite Hpre, Hsh, swap_last_two.
  rewrite <- Hlen, Hst, swap_last_two. reflexivity.
Qed.

Lemma in_bounds_app p q pre r :
  List.length p = List.length pre ->
  in_bounds (p ++ q) (pre ++ r) = in_bounds p pre && in_bounds q r.
Proof.
  revert pre; induction p as [|i p IH]; intros [|d pre] Hlen;
    try discriminate; [reflexivity|].
  cbn [app in_bounds]. rewrite IH by (cbn in Hlen; lia).
  rewrite !andb_assoc. reflexivity.
Qed.

Lemma dot_app p q ps r :
  List.length p = List.length ps ->
  dot (p ++ q) (ps ++ r) = dot p ps + dot q r.
Proof.
  revert ps; induction p as [|i p IH]; intros [|k ps] Hlen;
    try discriminate; [reflexivity|].
  cbn [app dot]. rewrite IH by (cbn in Hlen; lia). lia.
Qed.

(** [t'] is [t] seen with its last two dimensions exchanged: a view of
    the same storage whose element at [..., i, j] is the element of [t]
    at [..., j, i]. *)
Definition last_two_swapped {elem} (t t' : tensor) : Prop :=
  storage t' = storage t /\
  dtype_of t' = dtype_of t /\
  (exists pre a b, shape t = pre ++ [a; b] /\ shape t' = pre ++ [b; a]) /\
  (forall (h : list (list elem)) p i j,
     tensor_get h t' (p ++ [i; j]) = tensor_get h t (p ++ [j; i])).

Lemma transpose_swaps_last_two {elem} (t : tensor) :
  List.length (strides t) = List.length (shape t) ->
  2 <= ndim t ->
  exists t', transpose t (-1) (-2) = Py.Ok t' /\
             last_two_swapped (elem := elem) t t'.
Proof.
  intros Hlen Hn. unfold ndim in Hn.
  destruct (split_last_two (shape t)) as (pre & a & b & Hsh); [lia|].
  destruct (split_last_two (strides t)) as (ps & sa & sb & Hst); [lia|].
  assert (Hps : List.length ps = List.length pre).
  { rewrite Hsh, Hst, !length_app in Hlen. cbn in Hlen. lia. }
  eexists. split; [eapply transpose_last_two; eassumption|].
  split; [reflexivity|]. split; [reflexivity|]. split.
  { exists pre, a, b. split; [assumption|reflexivity]. }
  intros h p i j. unfold tensor_get. cbn [shape strides offset storage].
  rewrite Hsh, Hst.
  destruct (decide (List.length p = List.length pre)) as [Hp|Hp].
  - rewrite !in_bounds_app, !dot_app by congruence. cbn [in_bounds dot].
    replace (i * sb + (j * sa + 0)) with (j * sa + (i * sb + 0)) by lia.
    replace ((0 <=? i) && (i <? b) && ((0 <=? j) && (j <? a) && true))
      with ((0 <=? j) && (j <? a) && ((0 <=? i) && (i <? b) && true));
      [reflexivity|].
    destruct (0 <=? j), (j <? a), (0 <=? i), (i <? b); reflexivity.
  - assert (Hno : forall q r, in_bounds (p ++ q) (pre ++ r) = true ->
                              List.length q <> List.length r).
    { intros q r H%in_bounds_length. rewrite !length_app in H. lia. }
    destruct (in_bounds (p ++ [i; j]) (pre ++ [b; a])) eqn:H1;
      [exfalso; eapply Hno; [exact H1|reflexivity]|].
    destruct (in_bounds (p ++ [j; i]) (pre ++ [a; b])) eqn:H2;
      [exfalso; eapply Hno; [exact H2|reflexivity]|].
    reflexivity.
Qed.

End TorchSpec.

(** ** Python string functions *)

Module PyStrSpec.
Import PyStr.

Section Unicode.
Variable unicode_class : N -> char_class.
Local Abbreviation decimal := (decimal unicode_class).
Local Abbreviation is_digit := (is_digit unicode_class).
Local Abbreviation to_ascii := (to_ascii unicode_class).
Local Abbreviation re_match_digits := (re_match_digits unicode_class).
Local Abbreviation int := (int unicode_class).

(** A token made of decimal digits only, and the number it denotes. *)
Definition all_digits (s : list N) : bool :=
  match s with
  | [] => false
  | _ => forallb is_digit s
  end.

Definition decimal_value (s : list N) : Z :=
  fold_left (fun acc c => 10 * acc + default 0 (decimal c)) s 0.

Definition starts_with_digit (s : list N) : bool :=
  match s with
  | c :: _ => is_digit c
  | [] => false
  end.

Lemma re_match_digits_None s :
  re_match_digits s = None <-> starts_with_digit s = false.
Proof.
  unfold PyStr.re_match_digits. destruct s as [|c s]; cbn; [tauto|].
  destruct (is_digit c); split; intros H; congruence.
Qed.

Lemma all_digits_starts s : all_digits s = true -> starts_with_digit s = true.
Proof.
  unfold all_digits. destruct s as [|c s]; cbn; [congruence|].
  intros H. apply andb_true_iff in H. tauto.
Qed.

Lemma decimal_range c d : decimal c = Some d -> 0 <= d <= 9.
Proof.
  unfold PyStr.decimal. destruct (c <? 128)%N.
  - destruct ((48 <=? c)%N && (c <=? 57)%N) eqn:H; [|discriminate].
    intros [= <-]. apply andb_true_iff in H as [H1 H2].
    apply N.leb_le in H1, H2. lia.
  - destruct (unicode_class c) as [|d'|]; try discriminate.
    destruct ((0 <=? d') && (d' <=? 9)) eqn:H; [|discriminate].
    intros [= <-]. apply andb_true_iff in H as [H1 H2].
    apply Z.leb_le in H1, H2. lia.
Qed.

Lemma to_ascii_decimal c d :
  decimal c = Some d -> to_ascii c = Z.to_N (48 + d).
Proof.
  intros H. unfold PyStr.to_ascii. rewrite H.
  unfold PyStr.decimal in H. destruct (c <? 128)%N.
  - destruct ((48 <=? c)%N && (c <=? 57)%N); [|discriminate].
    injection H as <-. lia.
  - destruct (unicode_class c); try discriminate. reflexivity.
Qed.

Lemma is_digit_decimal c :
  is_digit c = true -> exists d, decimal c = Some d.
Proof.
  unfold PyStr.is_digit. destruct (decimal c); [eauto|discriminate].
Qed.

(** A decimal digit of any script is rewritten as the ASCII digit of
    its value. *)
Lemma to_ascii_digit c :
  is_digit c = true ->
  is_ascii_digit (to_ascii c) = true /\
  digit_value (to_ascii c) = default 0 (decimal c).
Proof.
  intros H. destruct (is_digit_decimal _ H) as [d Hd].
  rewrite (to_ascii_decimal _ _ Hd), Hd. cbn [default from_option id].
  pose proof (decimal_range _ _ Hd). unfold is_ascii_digit, digit_value.
  split; [|lia]. apply andb_true_iff. split; apply N.leb_le; lia.
Qed.

Lemma ascii_digit_not_space c : is_ascii_digit c = true -> is_space c = false.
Proof.
  unfold is_ascii_digit, is_space. intros H.
  apply andb_true_iff in H as [H1 H2]. apply N.leb_le in H1, H2.
  apply orb_false_iff. split.
  - apply andb_false_iff. right. apply N.leb_gt. lia.
  - apply N.eqb_neq. lia.
Qed.

Lemma ascii_digit_no_sign c :
  is_ascii_digit c = true -> (c =? 43)%N = false /\ (c =? 45)%N = false.
Proof.
  unfold is_ascii_digit. intros H.
  apply andb_true_iff in H as [H1 H2]. apply N.leb_le in H1, H2.
  split; apply N.eqb_neq; lia.
Qed.

Lemma literal_prefix_digits l :
  forallb is_ascii_digit l = true -> literal_prefix l = l.
Proof.
  induction l as [|c l IH]; [reflexivity|]. cbn.
  intros H. apply andb_true_iff in H as [Hc H].
  rewrite Hc, (IH H). reflexivity.
Qed.

Lemma filter_digits l :
  forallb is_ascii_digit l = true -> List.filter is_ascii_digit l = l.
Proof.
  induction l as [|c l IH]; [reflexivity|]. cbn.
  intros H. apply andb_true_iff in H as [Hc H].
  rewrite Hc, (IH H). reflexivity.
Qed.

Lemma int_digits_all l acc b :
  forallb is_ascii_digit l = true ->
  l <> [] \/ b = true ->
  int_digits acc b l
  = Some (fold_left (fun acc c => 10 * acc + digit_value c) l acc).
Proof.
  revert acc b; induction l as [|c l IH]; intros acc b H Hne.
  - destruct Hne as [Hne| ->]; [congruence|reflexivity].
  - cbn in H. apply andb_true_iff in H as [Hc H].
    cbn [int_digits fold_left]. rewrite Hc. apply IH; auto.
Qed.

Lemma to_ascii_digits s :
  forallb is_digit s = true ->
  forallb is_ascii_digit (to_ascii <$> s) = true /\
  forall acc,
    fold_left (fun acc c => 10 * acc + digit_value c) (to_ascii <$> s) acc
    = fold_left (fun acc c => 10 * acc + default 0 (decimal c)) s acc.
Proof.
  induction s as [|c s IH]; [split; reflexivity|]. cbn [forallb].
  intros H. apply andb_true_iff in H as [Hc H].
  destruct (to_ascii_digit _ Hc) as [Hd Hv]. destruct (IH H) as [IH1 IH2].
  cbn [fmap list_fmap forallb fold_left]. fold (fmap to_ascii s).
  rewrite Hd, IH1, Hv. split; [reflexivity|]. intros acc. apply IH2.
Qed.

(** [int] reads a token of at most 4300 digits as the number it
    denotes. *)
Lemma int_all_digits s :
  all_digits s = true ->
  Z.of_nat (List.length s) <= int_max_str_digits ->
  int s = Py.Ok (decimal_value s).
Proof.
  unfold all_digits, decimal_value. intros H Hlen.
  assert (Hs : s <> []) by (destruct s; [discriminate|congruence]).
  assert (Hall : forallb is_digit s = true) by (destruct s; [congruence|exact H]).
  destruct (to_ascii_digits _ Hall) as [Hd Hv].
  unfold PyStr.int.
  destruct (to_ascii <$> s) as [|c l] eqn:Hl.
  { destruct s; [congruence|discriminate]. }
  assert (Hc : is_ascii_digit c = true).
  { cbn in Hd. apply andb_true_iff in Hd. tauto. }
  cbn [lstrip]. rewrite (ascii_digit_not_space _ Hc).
  destruct (ascii_digit_no_sign _ Hc) as [-> ->].
  rewrite (literal_prefix_digits _ Hd), (filter_digits _ Hd), drop_all.
  rewrite int_digits_all by (auto; left; discriminate).
  rewrite Hv, <- Hl, length_fmap.
  destruct (Z.ltb_spec int_max_str_digits (Z.of_nat (List.length s)));
    [lia|].
  reflexivity.
Qed.

End Unicode.

Lemma length_split sep s : List.length (split sep s) = S (count sep s).
Proof.
  induction s as [|c s IH]; [reflexivity|]. cbn [split count].
  destruct (c =? sep)%N; cbn [List.length].
  - rewrite IH. reflexivity.
  - destruct (split sep s); cbn in *; lia.
Qed.

Lemma split_join_question n :
  split (chr ",") (join (of_string ",") (replicate (S n) (of_string "?")))
  = replicate (S n) (of_string "?").
Proof.
  induction n as [|n IH]; [reflexivity|].
  change (replicate (S (S n)) (of_string "?"))
    with (of_string "?" :: replicate (S n) (of_string "?")).
  change (join (of_string ",")
               (of_string "?" :: replicate (S n) (of_string "?")))
    with (63%N :: 44%N
            :: join (of_string ",") (replicate (S n) (of_string "?"))).
  change (chr ",") with 44%N in *.
  cbn [split]. change (63 =? 44)%N with false.
  change (44 =? 44)%N with true. cbn iota.
  rewrite IH. reflexivity.
Qed.

End PyStrSpec.

(** ** torch_tfl operators *)

Module TorchTflSpec.
Import Torch TorchTfl TorchSpec.

(** A 2x3 tensor over the storage [10; 11; 12; 13; 14; 15]. *)
Definition example_heap : list (list Z) := [[10; 11; 12; 13; 14; 15]].
Definition example_2x3 : tensor :=
  {| storage := 0; offset := 0; shape := [2; 3]; strides := [3; 1];
     dtype_of := int64 |}.

Lemma example_2x3_ok : tensor_ok example_heap example_2x3.
Proof.
  split; [reflexivity|].
  apply Forall_forall. intros idx Hidx.
  apply elem_of_all_indices in Hidx.
  pose proof (in_bounds_length _ _ Hidx) as Hlen.
  destruct idx as [|i [|j [|? ?]]]; try discriminate Hlen.
  apply in_bounds_cons in Hidx as [Hi Hidx].
  apply in_bounds_cons in Hidx as [Hj _].
  assert (i = 0 \/ i = 1) as [-> | ->] by lia;
    assert (j = 0 \/ j = 1 \/ j = 2) as [-> | [-> | ->]] by lia;
    eexists; reflexivity.
Qed.

(** C7: when [begin], [size] and the input's shape have the same length
    and each range [begin[i], begin[i] + size[i]) lies within dimension
    [i] (0 <= begin[i] <= begin[i] + size[i] <= shape[i]), [tfl_slice]
    returns a tensor in a storage of its own, of shape [size], whose
    element at [j] is the input's element at [begin + j], and leaves the
    input as it was; when the lengths differ, the assertion fails. *)
Theorem tfl_slice_spec {elem} (h : list (list elem)) (input : tensor)
        (begin size : list Z) :
  (tensor_ok h input ->
   List.length begin = List.length size ->
   List.length size = List.length (shape input) ->
   Forall3 range_within begin size (shape input) ->
   exists out data,
     tfl_slice input begin size h = (Py.Ok out, h ++ [data]) /\
     storage out = List.length h /\
     h !! storage out = None /\
     shape out = size /\
     dtype_of out = dtype_of input /\
     (forall j, in_bounds j size = true ->
        is_Some (tensor_get (h ++ [data]) out j) /\
        tensor_get (h ++ [data]) out j
        = tensor_get h input (zip_with Z.add begin j)) /\
     (forall idx,
        tensor_get (h ++ [data]) input idx = tensor_get h input idx)) /\
  (~ (List.length begin = List.length size /\
      List.length size = List.length (shape input)) ->
   tfl_slice (elem := elem) input begin size h
   = (Py.Raise Py.AssertionError, h)).
Proof.
  split.
  - intros Hok Hbs Hsi Hin. unfold tfl_slice.
    rewrite Hbs, Hsi, !Nat.eqb_refl. cbn [andb negb].
    unfold Py.bind, lift, getitem.
    rewrite getitem_slices_within by (assumption || apply Hok).
    fold (sliced input begin size).
    pose proof (sliced_ok _ _ _ _ Hok Hin) as Hview.
    destruct (clone_spec _ _ Hview) as (data & -> & Hget).
    exists (cloned (sliced input begin size) (List.length h)), data.
    split; [reflexivity|]. split; [reflexivity|].
    split; [apply lookup_ge_None_2; cbn; lia|].
    split; [reflexivity|]. split; [reflexivity|]. split.
    + intros j Hj. rewrite Hget, (sliced_get _ _ _ _ _ Hin Hj).
      split; [|reflexivity].
      destruct Hok as [_ Hok]. rewrite Forall_forall in Hok. apply Hok.
      apply elem_of_all_indices. eapply in_bounds_shift; eassumption.
    + intros idx. destruct (in_bounds idx (shape input)) eqn:Hidx.
      * apply tensor_get_alloc.
        destruct Hok as [_ Hok]. rewrite Forall_forall in Hok. apply Hok.
        apply elem_of_all_indices, Hidx.
      * unfold tensor_get. rewrite Hidx. reflexivity.
  - intros Hlen. unfold tfl_slice.
    destruct (Nat.eqb_spec (List.length begin) (List.length size));
      destruct (Nat.eqb_spec (List.length size) (List.length (shape input)));
      cbn [andb negb]; try reflexivity.
    exfalso. apply Hlen. split; assumption.
Qed.

(** [tfl_slice(t, [0, 1], [2, 2])] on the 2x3 example: columns 1 and 2. *)
Lemma tfl_slice_spec_witness :
  exists out data,
    tfl_slice example_2x3 [0; 1] [2; 2] example_heap
    = (Py.Ok out, example_heap ++ [data]) /\
    storage out = 1%nat /\
    example_heap !! storage out = None /\
    shape out = [2; 2] /\
    dtype_of out = int64 /\
    (forall j, in_bounds j [2; 2] = true ->
       is_Some (tensor_get (example_heap ++ [data]) out j) /\
       tensor_get (example_heap ++ [data]) out j
       = tensor_get example_heap example_2x3 (zip_with Z.add [0; 1] j)) /\
    (forall idx,
       tensor_get (example_heap ++ [data]) example_2x3 idx
       = tensor_get example_heap example_2x3 idx).
Proof.
  apply (proj1 (tfl_slice_spec example_heap example_2x3 [0; 1] [2; 2])).
  - exact example_2x3_ok.
  - reflexivity.
  - reflexivity.
  - repeat first [ apply Forall3_nil
                 | apply Forall3_cons; [unfold range_within; lia|] ].
Defined.

(** What [tfl_batch_matmul] hands to [torch.matmul] for an argument [t]
    with adjoint flag [adj]. *)
Definition passed {elem} (adj : bool) (t t' : tensor) : Prop :=
  if adj then last_two_swapped (elem := elem) t t' else t' = t.

(** C5: [tfl_batch_matmul] raises ValueError exactly when [x] or [y] has
    fewer than 2 dimensions, and then leaves every storage as it was;
    otherwise its result is that of [torch.matmul] on [x] and [y], each
    with its last two dimensions exchanged exactly when its adjoint flag
    is set.  [torch.matmul] itself raises no ValueError (it reports
    unsuitable operands by RuntimeError). *)
Theorem tfl_batch_matmul_spec {elem}
        (torch_matmul : tensor -> tensor -> Py.M (list (list elem)) tensor)
        (x y : tensor) (adj_x adj_y : bool) (h : list (list elem)) :
  (forall a b h0 msg,
      (torch_matmul a b h0).1 <> Py.Raise (Py.ValueError msg)) ->
  List.length (strides x) = List.length (shape x) ->
  List.length (strides y) = List.length (shape y) ->
  let r := tfl_batch_matmul torch_matmul x y adj_x adj_y h in
  ((exists msg, r.1 = Py.Raise (Py.ValueError msg))
   <-> ndim x < 2 \/ ndim y < 2) /\
  (ndim x < 2 \/ ndim y < 2 -> r.2 = h) /\
  (2 <= ndim x -> 2 <= ndim y ->
   exists x' y',
     r = torch_matmul x' y' h /\
     passed (elem := elem) adj_x x x' /\
     passed (elem := elem) adj_y y y').
Proof.
  intros Hmm Hx Hy r.
  assert (Herr : ndim x < 2 \/ ndim y < 2 ->
                 r = (Py.Raise (Py.ValueError
                        "Input tensors must have at least 2 dimensions."), h)).
  { intros Hsmall. subst r. unfold tfl_batch_matmul.
    destruct (Z.ltb_spec (ndim x) 2), (Z.ltb_spec (ndim y) 2);
      try reflexivity. lia. }
  assert (Hgo : 2 <= ndim x -> 2 <= ndim y ->
                exists x' y',
                  r = torch_matmul x' y' h /\
                  passed (elem := elem) adj_x x x' /\
                  passed (elem := elem) adj_y y y').
  { intros Hnx Hny. subst r. unfold tfl_batch_matmul.
    destruct (Z.ltb_spec (ndim x) 2); [lia|].
    destruct (Z.ltb_spec (ndim y) 2); [lia|]. cbn [orb].
    destruct (transpose_swaps_last_two (elem := elem) x Hx Hnx)
      as (xt & Hxt & Hxs).
    destruct (transpose_swaps_last_two (elem := elem) y Hy Hny)
      as (yt & Hyt & Hys).
    exists (if adj_x then xt else x), (if adj_y then yt else y).
    unfold Py.bind, lift, Py.ret, passed.
    destruct adj_x, adj_y; rewrite ?Hxt, ?Hyt; auto. }
  split; [split|split].
  - intros [msg Hmsg].
    destruct (Z.ltb_spec (ndim x) 2); [auto|].
    destruct (Z.ltb_spec (ndim y) 2); [auto|].
    destruct Hgo as (x' & y' & Hr & _); [assumption..|].
    rewrite Hr in Hmsg. exfalso. exact (Hmm _ _ _ _ Hmsg).
  - intros Hsmall. rewrite (Herr Hsmall). eexists. reflexivity.
  - intros Hsmall. rewrite (Herr Hsmall). reflexivity.
  - exact Hgo.
Qed.

(** A stand-in for [torch.matmul] on integer matrices, to run the
    operator on an example: the product of two 2-D tensors, and a
    RuntimeError for anything else. *)
Definition matmul_2d (x y : tensor) : Py.M (list (list Z)) tensor :=
  fun h =>
    match shape x, shape y with
    | [m; k], [k'; n] =>
        let entry (idx : list Z) : option Z :=
          match idx with
          | [i; j] =>
              foldr (fun l acc =>
                       a ← tensor_get h x [i; l];
                       b ← tensor_get h y [l; j];
                       c ← acc;
                       Some (a * b + c))
                    (Some 0) (seqZ 0 k)
          | _ => None
          end in
        match (if k =? k' then mapM entry (all_indices [m; n]) else None) with
        | Some data =>
            (Py.Ok {| storage := List.length h; offset := 0;
                      shape := [m; n]; strides := [n; 1];
                      dtype_of := dtype_of x |},
             h ++ [data])
        | None =>
            (Py.Raise (Py.RuntimeError
                         "mat1 and mat2 shapes cannot be multiplied"), h)
        end
    | _, _ => (Py.Raise (Py.RuntimeError "expected 2-D tensors"), h)
    end.

Lemma matmul_2d_no_value_error a b h0 msg :
  (matmul_2d a b h0).1 <> Py.Raise (Py.ValueError msg).
Proof.
  unfold matmul_2d. repeat case_match; cbn; congruence.
Qed.

(** The 2x3 example times itself transposed. *)
Lemma tfl_batch_matmul_spec_witness :
  let r := tfl_batch_matmul matmul_2d example_2x3 example_2x3 false true
                            example_heap in
  r.1 = Py.Ok {| storage := 1; offset := 0; shape := [2; 2];
                 strides := [2; 1]; dtype_of := int64 |} /\
  r.2 = example_heap ++ [[365; 464; 464; 590]] /\
  ((exists msg, r.1 = Py.Raise (Py.ValueError msg))
   <-> ndim example_2x3 < 2 \/ ndim example_2x3 < 2) /\
  (ndim example_2x3 < 2 \/ ndim example_2x3 < 2 -> r.2 = example_heap) /\
  (2 <= ndim example_2x3 -> 2 <= ndim example_2x3 ->
   exists x' y',
     r = matmul_2d x' y' example_heap /\
     passed (elem := Z) false example_2x3 x' /\
     passed (elem := Z) true example_2x3 y').
Proof.
  split; [reflexivity|]. split; [reflexivity|].
  apply (tfl_batch_matmul_spec matmul_2d example_2x3 example_2x3 false true
                               example_heap).
  - exact matmul_2d_no_value_error.
  - reflexivity.
  - reflexivity.
Defined.

(** *** Fake implementations *)

Import PyStrSpec.

(** The symbols among the sizes of a shape, in order, and the
    integers among them. *)
Definition sym_ids (dims : list size) : list nat :=
  omap (fun d => match d with SymInt id => Some id | Int _ => None end) dims.

Definition int_sizes (dims : list size) : list Z :=
  omap (fun d => match d with Int n => Some n | SymInt _ => None end) dims.

(** Sizes that [torch.empty] and [Tensor.new_empty] are taken to
    accept: no integer size is negative, and the integer sizes, each
    counted as one at least, multiply to less than 2^59, so that at 16
    bytes an element the tensor stays below 2^63 bytes.  Of other sizes
    nothing is assumed. *)
Definition modest (dims : list size) : Prop :=
  Forall (fun n => 0 <= n) (int_sizes dims) /\
  numel (Z.max 1 <$> int_sizes dims) < 2 ^ 59.

Definition empty_as_torch
           (torch_empty : list size -> dtype -> Py.result fake_tensor)
  : Prop :=
  forall dims dt,
    modest dims ->
    torch_empty dims dt = Py.Ok {| fake_shape := dims; fake_dtype := dt |}.

Lemma int_sizes_Int (l : list Z) : int_sizes (Int <$> l) = l.
Proof.
  induction l as [|n l IH]; [reflexivity|].
  change (int_sizes (Int <$> n :: l)) with (n :: int_sizes (Int <$> l)).
  rewrite IH. reflexivity.
Qed.

(** The symbols [tfl_slice_tensor_fake] loops over when the input has
    at least one dimension or the shape string is not empty. *)
Definition shape_symbols (input : tensor) (shape : list N)
  : list (list N) :=
  match shape with
  | [] => replicate (List.length (Torch.shape input)) (PyStr.of_string "?")
  | _ => PyStr.split (PyStr.chr ",") shape
  end.

Lemma fake_symbols input shape :
  (shape = [] -> (1 <= List.length (Torch.shape input))%nat) ->
  PyStr.split (PyStr.chr ",")
    match shape with
    | [] => PyStr.join (PyStr.of_string ",")
                       (replicate (List.length (Torch.shape input))
                                  (PyStr.of_string "?"))
    | _ => shape
    end
  = shape_symbols input shape.
Proof.
  intros Hempty. unfold shape_symbols.
  destruct shape as [|c shape]; [|reflexivity].
  specialize (Hempty eq_refl).
  destruct (List.length (Torch.shape input)) as [|n]; [lia|].
  apply split_join_question.
Qed.

Section Fake.
Variable torch_empty : list size -> dtype -> Py.result fake_tensor.
Variable unicode_class : N -> PyStr.char_class.
Local Abbreviation all_digits := (all_digits unicode_class).
Local Abbreviation decimal_value := (decimal_value unicode_class).
Local Abbreviation starts_with_digit := (starts_with_digit unicode_class).
Local Abbreviation shape_of_symbols := (shape_of_symbols unicode_class).
Local Abbreviation tfl_reshape_fake := (tfl_reshape_fake torch_empty).
Local Abbreviation tfl_slice_tensor_fake :=
  (tfl_slice_tensor_fake torch_empty unicode_class).

(** The tokens the property below covers: decimal digits only, 4300
    of them at most, or not starting with a decimal digit. *)
Definition token_ok (sym : list N) : Prop :=
  (all_digits sym = true /\
   Z.of_nat (List.length sym) <= 4300) \/
  starts_with_digit sym = false.

(** How a token is read: digits as the size they denote, a token not
    starting with a digit as a symbol. *)
Definition token_read (sym : list N) (d : size) : Prop :=
  (all_digits sym = true -> d = Int (decimal_value sym)) /\
  (starts_with_digit sym = false -> exists id, d = SymInt id).

(** The sizes the tokens of digits denote, in order. *)
Definition token_sizes (symbols : list (list N)) : list Z :=
  omap (fun sym => if all_digits sym then Some (decimal_value sym) else None)
       symbols.

Lemma digits_fold_nonneg l acc :
  0 <= acc ->
  0 <= fold_left
         (fun acc c => 10 * acc + default 0 (PyStr.decimal unicode_class c))
         l acc.
Proof.
  revert acc; induction l as [|c l IH]; intros acc Hacc; [assumption|].
  cbn [fold_left]. apply IH.
  destruct (PyStr.decimal unicode_class c) as [d|] eqn:Hd; cbn; [|lia].
  pose proof (decimal_range _ _ _ Hd). lia.
Qed.

Lemma decimal_value_nonneg sym : 0 <= decimal_value sym.
Proof. apply digits_fold_nonneg. lia. Qed.

Lemma shape_of_symbols_ok symbols ctx :
  Forall token_ok symbols ->
  exists dims,
    shape_of_symbols symbols ctx
    = (Py.Ok dims, (ctx + List.length (sym_ids dims))%nat) /\
    Forall2 token_read symbols dims /\
    sym_ids dims = seq ctx (List.length (sym_ids dims)) /\
    int_sizes dims = token_sizes symbols.
Proof.
  intros H; revert ctx; induction H as [|sym symbols Hsym H IH]; intros ctx.
  - exists []. cbn. rewrite Nat.add_0_r. repeat split; constructor.
  - cbn [TorchTfl.shape_of_symbols]. unfold Py.bind at 1.
    destruct Hsym as [[Hd Hlen]|Hs].
    + pose proof (all_digits_starts _ _ Hd) as Hst.
      destruct (PyStr.re_match_digits unicode_class sym) eqn:Hre;
        [|apply re_match_digits_None in Hre; congruence].
      rewrite (int_all_digits _ _ Hd Hlen). cbn [Py.rmap].
      destruct (IH ctx) as (dims & Hrun & Hread & Hids & Hints).
      exists (Int (decimal_value sym) :: dims).
      unfold Py.bind. rewrite Hrun. unfold Py.ret.
      change (sym_ids (Int (decimal_value sym) :: dims)) with (sym_ids dims).
      repeat split; try assumption.
      * constructor; [|assumption]. split; [reflexivity|]. congruence.
      * change (int_sizes (Int (decimal_value sym) :: dims))
          with (decimal_value sym :: int_sizes dims).
        unfold token_sizes. cbn [omap list_omap]. rewrite Hd.
        fold (token_sizes symbols). rewrite Hints. reflexivity.
    + apply re_match_digits_None in Hs as Hre. rewrite Hre.
      unfold new_dynamic_size.
      destruct (IH (S ctx)) as (dims & Hrun & Hread & Hids & Hints).
      exists (SymInt ctx :: dims).
      unfold Py.bind. rewrite Hrun. unfold Py.ret.
      change (sym_ids (SymInt ctx :: dims)) with (ctx :: sym_ids dims).
      cbn [List.length seq].
      assert (Hnd : all_digits sym = false).
      { destruct (all_digits sym) eqn:Hd; [|reflexivity].
        apply all_digits_starts in Hd. congruence. }
      repeat split; try assumption.
      * f_equal. lia.
      * constructor; [|assumption]. split; [|eauto]. congruence.
      * f_equal. exact Hids.
      * change (int_sizes (SymInt ctx :: dims)) with (int_sizes dims).
        unfold token_sizes. cbn [omap list_omap]. rewrite Hnd.
        fold (token_sizes symbols). exact Hints.
Qed.

Lemma token_sizes_nonneg symbols : Forall (fun n => 0 <= n) (token_sizes symbols).
Proof.
  induction symbols as [|sym symbols IH]; [constructor|].
  unfold token_sizes. cbn [omap list_omap]. fold (token_sizes symbols).
  destruct (all_digits sym); [|exact IH].
  constructor; [apply decimal_value_nonneg|exact IH].
Qed.

Lemma all_symbols dims n :
  Forall2 token_read (replicate n (PyStr.of_string "?")) dims ->
  dims = SymInt <$> sym_ids dims /\ List.length dims = n.
Proof.
  revert dims; induction n as [|n IH]; intros dims H; cbn in H.
  - apply Forall2_nil_inv_l in H as ->. split; reflexivity.
  - apply Forall2_cons_inv_l in H as (d & dims' & [_ Hd] & H & ->).
    destruct Hd as [id ->]; [reflexivity|].
    destruct (IH _ H) as [Heq Hlen].
    change (sym_ids (SymInt id :: dims')) with (id :: sym_ids dims').
    cbn [fmap list_fmap List.length].
    split; [f_equal; exact Heq | f_equal; exact Hlen].
Qed.

(** What [tfl_slice_tensor_fake] does on tokens it can read. *)
Lemma tfl_slice_tensor_fake_run input begin size shape ctx :
  empty_as_torch torch_empty ->
  Forall token_ok (shape_symbols input shape) ->
  numel (Z.max 1 <$> token_sizes (shape_symbols input shape)) < 2 ^ 59 ->
  (shape = [] -> (1 <= List.length (Torch.shape input))%nat) ->
  exists dims,
    tfl_slice_tensor_fake input begin size shape ctx
    = (Py.Ok {| fake_shape := dims; fake_dtype := dtype_of input |},
       (ctx + List.length (sym_ids dims))%nat) /\
    Forall2 token_read (shape_symbols input shape) dims /\
    sym_ids dims = seq ctx (List.length (sym_ids dims)).
Proof.
  intros Hempty Htok Hsmall Hne.
  destruct (shape_of_symbols_ok _ ctx Htok)
    as (dims & Hrun & Hread & Hids & Hints).
  exists dims. split; [|split; assumption].
  unfold TorchTfl.tfl_slice_tensor_fake. rewrite (fake_symbols _ _ Hne).
  unfold Py.bind. rewrite Hrun. rewrite Hempty; [reflexivity|].
  split; rewrite Hints; [apply token_sizes_nonneg|exact Hsmall].
Qed.

(** C4, with the preconditions it needs.  The fake implementations
    compute from shapes and dtypes alone.  [torch.empty] and
    [Tensor.new_empty] are taken to return a tensor of the sizes and
    dtype asked for when no size is negative and the sizes multiply to
    less than 2^59.  Then [tfl_reshape_fake], for a requested shape with
    no negative entry and of less than 2^59 elements, returns exactly
    that shape with the input's dtype.  [tfl_slice_tensor_fake], for a
    shape string each of whose comma-separated tokens either consists of
    decimal digits (4300 at most) or does not start with a decimal
    digit, the sizes so written multiplying to less than 2^59, and for an
    input of at least one dimension when the string is empty, returns
    one dimension per token, which is [input.ndim] dimensions when the
    string passes the operator's own assertion (input.ndim - 1 commas);
    a token of decimal digits becomes that size, a token that does not
    start with a digit becomes a new symbol, and the new symbols are the
    next unused ones, each taken once; an empty string gives
    [input.ndim] symbols; the dtype is the input's.  Neither result
    depends on anything of the input but its dtype and number of
    dimensions. *)
Theorem fake_implementations_spec (input begin size : tensor)
        (requested : list Z) (shape : list N) (ctx : nat) :
  empty_as_torch torch_empty ->
  Forall (fun d => 0 <= d) requested ->
  numel (Z.max 1 <$> requested) < 2 ^ 59 ->
  Forall token_ok (shape_symbols input shape) ->
  numel (Z.max 1 <$> token_sizes (shape_symbols input shape)) < 2 ^ 59 ->
  (shape = [] -> (1 <= List.length (Torch.shape input))%nat) ->
  tfl_reshape_fake input requested
  = Py.Ok {| fake_shape := Int <$> requested;
             fake_dtype := dtype_of input |} /\
  (forall other,
      dtype_of other = dtype_of input ->
      tfl_reshape_fake other requested = tfl_reshape_fake input requested) /\
  exists dims,
    tfl_slice_tensor_fake input begin size shape ctx
    = (Py.Ok {| fake_shape := dims; fake_dtype := dtype_of input |},
       (ctx + List.length (sym_ids dims))%nat) /\
    Forall2 token_read (shape_symbols input shape) dims /\
    sym_ids dims = seq ctx (List.length (sym_ids dims)) /\
    (tfl_slice_tensor_shape_assert input shape = true ->
     List.length dims = List.length (Torch.shape input)) /\
    (shape = [] ->
     dims = SymInt <$> seq ctx (List.length (Torch.shape input))) /\
    (forall other begin' size',
        dtype_of other = dtype_of input ->
        List.length (Torch.shape other) = List.length (Torch.shape input) ->
        tfl_slice_tensor_fake other begin' size' shape ctx
        = tfl_slice_tensor_fake input begin size shape ctx).
Proof.
  intros Hempty Hreq Hsmall Htok Htsmall Hne. split; [|split].
  - unfold TorchTfl.tfl_reshape_fake. apply Hempty.
    split; rewrite int_sizes_Int; assumption.
  - intros other Hdt. unfold TorchTfl.tfl_reshape_fake. rewrite Hdt.
    reflexivity.
  - destruct (tfl_slice_tensor_fake_run input begin size shape ctx
                Hempty Htok Htsmall Hne) as (dims & Hfake & Hread & Hids).
    exists dims.
    split; [exact Hfake|]. split; [exact Hread|]. split; [exact Hids|].
    split; [|split].
    + intros Hassert. rewrite <- (Forall2_length _ _ _ Hread).
      unfold shape_symbols, tfl_slice_tensor_shape_assert, ndim in *.
      destruct shape as [|c shape]; [apply length_replicate|].
      rewrite bool_decide_eq_false_2 in Hassert by discriminate.
      cbn [orb] in Hassert. apply Z.eqb_eq in Hassert.
      rewrite length_split. lia.
    + intros He. unfold shape_symbols in Hread. subst shape.
      apply all_symbols in Hread as [Hdims Hlen].
      rewrite Hdims at 1. rewrite Hids. f_equal. f_equal.
      rewrite Hdims, length_fmap in Hlen. exact Hlen.
    + intros other begin' size' Hdt Hnd.
      unfold TorchTfl.tfl_slice_tensor_fake. rewrite Hnd, Hdt. reflexivity.
Qed.

End Fake.

(** An excerpt of the character database: next line and no-break space
    are whitespace, U+0660 to U+0669 are the Arabic-Indic digits. *)
Definition example_class (c : N) : PyStr.char_class :=
  if (c =? 133)%N || (c =? 160)%N then PyStr.Space
  else if (1632 <=? c)%N && (c <=? 1641)%N
       then PyStr.Decimal (Z.of_N c - 1632)
       else PyStr.Other.

(** A [torch.empty] for the examples: it refuses a negative size and
    2^59 elements or more. *)
Definition example_empty (dims : list size) (dt : dtype)
  : Py.result fake_tensor :=
  if existsb (fun n => n <? 0) (int_sizes dims)
  then Py.Raise (Py.RuntimeError
                   "Trying to create tensor with negative dimension")
  else if 2 ^ 59 <=? numel (Z.max 1 <$> int_sizes dims)
  then Py.Raise (Py.RuntimeError "Storage size calculation overflowed")
  else Py.Ok {| fake_shape := dims; fake_dtype := dt |}.

Lemma example_empty_as_torch : empty_as_torch example_empty.
Proof.
  intros dims dt [Hnonneg Hsmall]. unfold example_empty.
  replace (existsb (fun n => n <? 0) (int_sizes dims)) with false.
  - destruct (Z.leb_spec (2 ^ 59) (numel (Z.max 1 <$> int_sizes dims)));
      [lia|reflexivity].
  - symmetry. clear Hsmall.
    induction Hnonneg as [|n l Hn _ IH]; [reflexivity|].
    cbn [existsb]. rewrite IH, orb_false_r. apply Z.ltb_ge, Hn.
Qed.

(** The 2x3 example reshaped to [3; 2] and sliced with shape string
    "3,?" while symbol 5 is the next unused one. *)
Lemma fake_implementations_spec_witness :
  tfl_reshape_fake example_empty example_2x3 [3; 2]
  = Py.Ok {| fake_shape := [Int 3; Int 2]; fake_dtype := int64 |} /\
  (forall other,
      dtype_of other = int64 ->
      tfl_reshape_fake example_empty other [3; 2]
      = tfl_reshape_fake example_empty example_2x3 [3; 2]) /\
  exists dims,
    tfl_slice_tensor_fake example_empty example_class
                          example_2x3 example_2x3 example_2x3
                          (PyStr.of_string "3,?") 5%nat
    = (Py.Ok {| fake_shape := dims; fake_dtype := int64 |},
       (5 + List.length (sym_ids dims))%nat) /\
    Forall2 (token_read example_class)
            [PyStr.of_string "3"; PyStr.of_string "?"] dims /\
    sym_ids dims = seq 5%nat (List.length (sym_ids dims)) /\
    (tfl_slice_tensor_shape_assert example_2x3 (PyStr.of_string "3,?") = true ->
     List.length dims = 2%nat) /\
    (PyStr.of_string "3,?" = [] -> dims = SymInt <$> seq 5%nat 2%nat) /\
    (forall other begin' size',
        dtype_of other = int64 ->
        List.length (Torch.shape other) = 2%nat ->
        tfl_slice_tensor_fake example_empty example_class
                              other begin' size' (PyStr.of_string "3,?") 5%nat
        = tfl_slice_tensor_fake example_empty example_class
                                example_2x3 example_2x3 example_2x3
                                (PyStr.of_string "3,?") 5%nat).
Proof.
  apply (fake_implementations_spec example_empty example_class
           example_2x3 example_2x3 example_2x3
           [3; 2] (PyStr.of_string "3,?") 5%nat).
  - exact example_empty_as_torch.
  - repeat constructor; discriminate.
  - reflexivity.
  - change (Forall (token_ok example_class)
                   [PyStr.of_string "3"; PyStr.of_string "?"]).
    constructor; [left; split; [reflexivity|discriminate]|].
    constructor; [right; reflexivity|]. constructor.
  - reflexivity.
  - discriminate.
Defined.

(** C4 as stated fails: for a 2-dimensional input and the shape string
    "3", the fake implementation returns a 1-dimensional tensor, not one
    of [input.ndim] dimensions, whatever the character database and
    whenever torch creates a tensor of three elements.  (The operator
    itself refuses this shape string by its assertion; the fake
    implementation does not check.) *)
Lemma tfl_slice_tensor_fake_ndim_counterexample :
  (forall torch_empty unicode_class,
      empty_as_torch torch_empty ->
      tfl_slice_tensor_fake torch_empty unicode_class
                            example_2x3 example_2x3 example_2x3
                            (PyStr.of_string "3") 0%nat
      = (Py.Ok {| fake_shape := [Int 3]; fake_dtype := int64 |}, 0%nat)) /\
  List.length [Int 3] <> List.length (Torch.shape example_2x3) /\
  tfl_slice_tensor_shape_assert example_2x3 (PyStr.of_string "3") = false.
Proof.
  split; [|split; [discriminate|reflexivity]].
  intros torch_empty unicode_class Hempty.
  change (tfl_slice_tensor_fake torch_empty unicode_class
            example_2x3 example_2x3 example_2x3 (PyStr.of_string "3") 0%nat)
    with (torch_empty [Int 3] int64, 0%nat).
  rewrite Hempty; [reflexivity|].
  split; [repeat constructor; discriminate|reflexivity].
Qed.

(** Outside C4's preconditions: a token that starts with digits and goes
    on with something else passes [re.match] and then fails in [int]. *)
Example tfl_slice_tensor_fake_digit_prefix torch_empty unicode_class :
  tfl_slice_tensor_fake torch_empty unicode_class
                        example_2x3 example_2x3 example_2x3
                        (PyStr.of_string "3,12abc") 0%nat
  = (Py.Raise PyStr.invalid_literal, 0%nat).
Proof. reflexivity. Qed.

(** Outside C4's preconditions: for a 0-dimensional input the empty shape
    string is joined from no symbol and split into one empty token, so
    one dynamic dimension is asked for. *)
Example tfl_slice_tensor_fake_scalar torch_empty unicode_class :
  let scalar := {| storage := 0; offset := 0; shape := [];
                   strides := []; dtype_of := int64 |} in
  tfl_slice_tensor_fake torch_empty unicode_class
                        scalar example_2x3 example_2x3 [] 0%nat
  = (torch_empty [SymInt 0] int64, 1%nat).
Proof. reflexivity. Qed.

(** [int] on characters above ASCII: "12" before a no-break space is
    12, and the Arabic-Indic digit three is 3, which the pattern [\d]
    matches as well. *)
Example int_above_ascii :
  PyStr.int example_class [49; 50; 160]%N = Py.Ok 12 /\
  PyStr.int example_class [1635]%N = Py.Ok 3 /\
  PyStr.re_match_digits example_class [1635]%N = Some [1635]%N.
Proof. repeat split. Qed.

(** [int] on 4301 digits. *)
Example int_exceeds_the_limit :
  PyStr.int example_class (replicate 4301 49%N)
  = Py.Raise PyStr.exceeds_the_limit.
Proof. vm_compute. reflexivity. Qed.

End TorchTflSpec.

(** ** Reauthoring verification scripts *)

Module VerifySpec.
Import Verify.

Section Scripts.
Context {world hf_model hf_tokenizer path : Type}.
Variable AutoModelForCausalLM_from_pretrained :
  string -> bool -> Py.M world hf_model.
Variable AutoTokenizer_from_pretrained : string -> Py.M world hf_tokenizer.
Variable cached_file : string -> string -> Py.M world string.
Variable CONFIG_NAME : string.
Variable Path : string -> path.
Variable parent : path -> path.
Variable str : path -> string.
Context {model : Type}.
Variable openelm_build_model : string -> Py.M world model.
Variable phi4_build_model : path -> Py.M world model.
Context {token logits : Type}.
Variable encode : hf_tokenizer -> string -> list token.
Variable hf_forward : hf_model -> list token -> logits.
Variable reauthored_forward : model -> list token -> logits.
Variable argmax : logits -> token.
Variable is_eos : token -> bool.
Variable allclose : logits -> logits -> bool.

Local Abbreviation generate :=
  (generate hf_forward reauthored_forward argmax is_eos).
Local Abbreviation outputs_in_parity :=
  (outputs_in_parity encode hf_forward reauthored_forward argmax
                     is_eos allclose).




(** The hub cache: the directory a checkpoint was downloaded to, when
    it was.  Loading a model downloads its checkpoint, and the cached
    config file lies in the checkpoint's directory. *)
Variable snapshot_dir : world -> string -> option path.
Hypothesis from_pretrained_downloads :
  forall id trust w m w',
    AutoModelForCausalLM_from_pretrained id trust w = (Py.Ok m, w') ->
    is_Some (snapshot_dir w' id).
Hypothesis config_in_snapshot :
  forall id w f w' d,
    cached_file id CONFIG_NAME w = (Py.Ok f, w') ->
    snapshot_dir w id = Some d ->
    parent (Path f) = d.


Local Abbreviation openelm_main :=
  (openelm_main AutoModelForCausalLM_from_pretrained
                AutoTokenizer_from_pretrained cached_file CONFIG_NAME
                Path parent str openelm_build_model encode hf_forward
                reauthored_forward argmax is_eos allclose).
Local Abbreviation phi4_main :=
  (phi4_main AutoModelForCausalLM_from_pretrained
             AutoTokenizer_from_pretrained cached_file CONFIG_NAME
             Path parent str phi4_build_model encode hf_forward
             reauthored_forward argmax is_eos allclose).



End Scripts.

(** *** An example hub

    A world is the list of checkpoints downloaded so far; checkpoint
    [id] is kept under "/hub/" ++ [id], and a path is its string. *)
Module ExampleHub.

Definition downloaded (id : string) (w : list string) : bool :=
  existsb (String.eqb id) w.

Definition from_pretrained (id : string) (trust_remote_code : bool)
  : Py.M (list string) string :=
  fun w => (Py.Ok ("/hub/" ++ id)%string, id :: w).


Definition cached_file (id name : string) : Py.M (list string) string :=
  fun w => if downloaded id w
           then (Py.Ok ("/hub/" ++ id ++ "/" ++ name)%string, w)
           else (Py.Raise (Py.RuntimeError "not in the cache"), w).


(** The part of a path before its last "/". *)
Fixpoint dirname_opt (s : string) : option string :=
  match s with
  | EmptyString => None
  | String c s' =>
      match dirname_opt s' with
      | Some d => Some (String c d)
      | None => if Ascii.eqb c "/" then Some EmptyString else None
      end
  end.

Definition dirname (s : string) : string :=
  from_option id s (dirname_opt s).

Definition build_model (dir : string) : Py.M (list string) string :=
  fun w => (Py.Ok dir, w).

(** Models that answer with the length of their input, and stop at 3. *)
Definition encode (t prompt : string) : list nat := [String.length prompt].
Definition forward_length (m : string) (ids : list nat) : nat :=
  List.length ids.
Definition is_eos (t : nat) : bool := (3 <=? t)%nat.




End ExampleHub.


End VerifySpec.

(** ** The aten composite pass *)

Module BuildAtenCompositeSpec.
Import BuildAtenComposite TestBuildAtenCompositePass.

(** The pattern the spec's catalog has for a call of the tests. *)
Definition expected_pattern (call : torch_call) : option pattern :=
  match call with
  | nn_Hardswish | aten_hardswish_default => Some hardswish
  | nn_AvgPool2d _ | F_avg_pool2d _ => Some avg_pool2d
  | nn_GELU _ => Some gelu
  | nn_Embedding _ _ | aten_embedding_default | F_embedding =>
      Some embedding_lookup
  | F_upsample a | nn_Upsample a | F_interpolate a =>
      match mode a with
      | bilinear => Some upsample_bilinear2d
      | nearest => Some resize_nearest_neighbor
      | other_mode _ => None
      end
  end.

Lemma count_where_app f out1 out2 :
  count_where f (out1 ++ out2) = (count_where f out1 + count_where f out2)%nat.
Proof.
  induction out1 as [|e out1 IH]; [reflexivity|].
  cbn [app count_where]. rewrite IH. lia.
Qed.

Lemma count_where_fmap_const (f : emitted -> bool) (g : nat -> emitted)
      (l : list nat) (b : bool) :
  (forall x, f (g x) = b) ->
  count_where f (g <$> l) = if b then List.length l else 0%nat.
Proof.
  intros Hf. induction l as [|x l IH].
  - destruct b; reflexivity.
  - cbn [fmap list_fmap count_where]. fold (g <$> l). rewrite Hf, IH.
    destruct b; reflexivity.
Qed.

(** The composites a node contributes under a given name, and its
    [mark_tensor] calls. *)
Definition node_composites (name : string) (n : node) : nat :=
  match pattern_of (target n) with
  | Some p => if String.eqb name (composite_name p) then 1 else 0
  | None => 0
  end.

Definition node_mark_tensors (n : node) : nat :=
  match pattern_of (target n) with
  | Some _ => List.length (tensor_args n) + 1
  | None => 0
  end.

Lemma count_composites_build name n :
  count_composites name (build_composite n) = node_composites name n.
Proof.
  unfold count_composites, build_composite, node_composites.
  destruct (pattern_of (target n)) as [p|]; [|reflexivity].
  rewrite !count_where_app.
  unfold mark_inputs.
  rewrite (count_where_fmap_const _ _ _ false) by reflexivity.
  cbn. destruct (String.eqb name (composite_name p)); reflexivity.
Qed.

Lemma count_mark_tensors_build n :
  count_mark_tensors (build_composite n) = node_mark_tensors n.
Proof.
  unfold count_mark_tensors, build_composite, node_mark_tensors.
  destruct (pattern_of (target n)) as [p|]; [|reflexivity].
  rewrite !count_where_app.
  unfold mark_inputs.
  rewrite (count_where_fmap_const _ _ _ true) by reflexivity.
  rewrite length_seq. reflexivity.
Qed.

Lemma count_composites_pass name graph :
  count_composites name (BuildAtenCompositePass graph)
  = sum_list_with (node_composites name) graph.
Proof.
  unfold BuildAtenCompositePass.
  induction graph as [|n graph IH]; [reflexivity|].
  rewrite bind_cons. unfold count_composites in *.
  rewrite count_where_app. fold (count_composites name (build_composite n)).
  rewrite count_composites_build, IH. reflexivity.
Qed.

Lemma count_mark_tensors_pass graph :
  count_mark_tensors (BuildAtenCompositePass graph)
  = sum_list_with node_mark_tensors graph.
Proof.
  unfold BuildAtenCompositePass.
  induction graph as [|n graph IH]; [reflexivity|].
  rewrite bind_cons. unfold count_mark_tensors in *.
  rewrite count_where_app. fold (count_mark_tensors (build_composite n)).
  rewrite count_mark_tensors_build, IH. reflexivity.
Qed.

Lemma composite_name_inj p q : composite_name p = composite_name q -> p = q.
Proof. destruct p, q; cbn; intros H; try reflexivity; discriminate H. Qed.

(** The node a call of the tests exports has the pattern the catalog
    gives the call. *)
Lemma export_pattern call args n :
  export call args = Some n ->
  pattern_of (target n) = expected_pattern call.
Proof.
  unfold export, resize_node.
  destruct call; cbn;
    repeat (case_match; try discriminate);
    intros [= <-]; cbn; try reflexivity.
Qed.

Lemma export_operands call args n p :
  export call args = Some n ->
  expected_pattern call = Some p ->
  List.length (tensor_args n)
  = match p with embedding_lookup => 2%nat | _ => 1%nat end.
Proof.
  unfold export, resize_node.
  destruct call; cbn;
    repeat (case_match; try discriminate);
    intros [= <-] Hp;
    first [ discriminate Hp | reflexivity | injection Hp as <-; reflexivity ].
Qed.

(** What the pass leaves for the one node of a call with a pattern. *)
Lemma export_to_stablehlo_with_composite_pattern call args n p :
  export call args = Some n ->
  expected_pattern call = Some p ->
  export_to_stablehlo_with_composite call args
  = Some (mark_inputs (composite_name p) (tensor_args n)
          ++ [composite_op (composite_name p)
                           (composite_attributes (target n)) (target n)]
          ++ mark_outputs (composite_name p)).
Proof.
  intros Hn Hp. unfold export_to_stablehlo_with_composite.
  rewrite Hn. unfold BuildAtenCompositePass.
  rewrite bind_cons, app_nil_r. unfold build_composite.
  rewrite (export_pattern _ _ _ Hn), Hp. reflexivity.
Qed.

Ltac run_tests counter :=
  unfold tests;
  repeat (apply List.Forall_cons;
          [ eexists; split;
            [ reflexivity
            | cbn [counter simple_test resize_test mark_tensors];
              repeat (apply List.Forall_cons; [vm_compute; reflexivity|]);
              apply List.Forall_nil ]
          | ]);
  apply List.Forall_nil.

(** C1: the catalog gives each pattern its designated composite name,
    distinct patterns get distinct names, and the pass puts exactly one
    composite, under that name, for every node with a pattern: so for
    every call of the tests that exports, hardswish, avg_pool2d, GELU
    (exact or tanh), embedding lookup, bilinear upsample/interpolate and
    nearest-neighbour interpolate alike.  The counts the tests expect of
    the composite patterns are the ones the pass gives. *)
Theorem composite_names_one_to_one :
  (composite_name hardswish = "aten.hardswish.default" /\
   composite_name avg_pool2d = "aten.avg_pool2d.default" /\
   composite_name gelu = "aten.gelu.default" /\
   composite_name embedding_lookup = "odml.embedding_lookup" /\
   composite_name upsample_bilinear2d = "odml.upsample_bilinear2d" /\
   composite_name resize_nearest_neighbor = "tfl.resize_nearest_neighbor") /\
  (forall p q, composite_name p = composite_name q -> p = q) /\
  (forall graph name,
      count_composites name (BuildAtenCompositePass graph)
      = sum_list_with (node_composites name) graph) /\
  (forall call args p,
      expected_pattern call = Some p ->
      is_Some (export call args) ->
      exists out,
        export_to_stablehlo_with_composite call args = Some out /\
        forall name,
          count_composites name out
          = if String.eqb name (composite_name p) then 1%nat else 0%nat) /\
  (forall approximate x,
      exists out,
        export_to_stablehlo_with_composite (nn_GELU approximate) [x]
        = Some out /\
        count_composites "aten.gelu.default" out = 1%nat) /\
  Forall (fun t =>
            exists out,
              export_to_stablehlo_with_composite (func t) (export_args t)
              = Some out /\
              Forall (fun kv =>
                        string_count (exported_program_to_mlir_text out) kv.1
                        = kv.2)
                     (torch_xla_pattern_counter t))
         tests.
Proof.
  split; [repeat split|]. split; [exact composite_name_inj|].
  split; [intros; apply count_composites_pass|]. split; [|split].
  - intros call args p Hp [n Hn].
    eexists. split.
    { eapply export_to_stablehlo_with_composite_pattern; eassumption. }
    intros name. unfold count_composites. rewrite !count_where_app.
    unfold mark_inputs.
    rewrite (count_where_fmap_const _ _ _ false) by reflexivity.
    cbn. destruct (String.eqb name (composite_name p)); reflexivity.
  - intros approximate x. eexists. split; reflexivity.
  - run_tests torch_xla_pattern_counter.
Qed.

(** The hardswish layer of the first test. *)
Lemma composite_names_one_to_one_witness :
  exists out,
    export_to_stablehlo_with_composite nn_Hardswish [[10; 10]] = Some out /\
    forall name,
      count_composites name out
      = if String.eqb name "aten.hardswish.default" then 1%nat else 0%nat.
Proof.
  apply (proj1 (proj2 (proj2 (proj2 composite_names_one_to_one)))
               nn_Hardswish [[10; 10]] hardswish).
  - reflexivity.
  - eexists. reflexivity.
Defined.

(** C6: a composite is delimited by [mark_tensor] calls, one for each of
    its operands and one for its result: the pass leaves, for a node with
    a pattern, the marks of its operands, the composite, and the mark of
    its result.  A call of the tests with one tensor input is thus
    accompanied by 2 [mark_tensor] calls and an embedding lookup, with its
    two operands, by 3; these are the counts the tests expect. *)
Theorem composites_delimited_by_mark_tensors :
  (forall n p,
      pattern_of (target n) = Some p ->
      build_composite n
      = mark_inputs (composite_name p) (tensor_args n)
        ++ [composite_op (composite_name p)
                         (composite_attributes (target n)) (target n)]
        ++ mark_outputs (composite_name p) /\
      List.length (mark_inputs (composite_name p) (tensor_args n))
      = List.length (tensor_args n) /\
      List.length (mark_outputs (composite_name p)) = 1%nat /\
      count_mark_tensors (build_composite n)
      = (List.length (tensor_args n) + 1)%nat) /\
  (forall graph,
      count_mark_tensors (BuildAtenCompositePass graph)
      = sum_list_with node_mark_tensors graph) /\
  (forall call args p,
      expected_pattern call = Some p ->
      is_Some (export call args) ->
      exists out,
        export_to_stablehlo_with_composite call args = Some out /\
        count_composites (composite_name p) out = 1%nat /\
        count_mark_tensors out
        = match p with embedding_lookup => 3%nat | _ => 2%nat end) /\
  Forall (fun t =>
            exists out,
              export_to_stablehlo_with_composite (func t) (export_args t)
              = Some out /\
              Forall (fun kv =>
                        string_count (exported_program_to_mlir_text out) kv.1
                        = kv.2)
                     (odml_torch_pattern_counter t))
         tests.
Proof.
  split; [|split; [exact count_mark_tensors_pass|split]].
  - intros n p Hp. split; [unfold build_composite; rewrite Hp; reflexivity|].
    split; [unfold mark_inputs; rewrite length_fmap, length_seq; reflexivity|].
    split; [reflexivity|].
    rewrite count_mark_tensors_build. unfold node_mark_tensors.
    rewrite Hp. reflexivity.
  - intros call args p Hp [n Hn].
    eexists. split.
    { eapply export_to_stablehlo_with_composite_pattern; eassumption. }
    unfold count_composites, count_mark_tensors.
    rewrite !count_where_app. unfold mark_inputs.
    rewrite (count_where_fmap_const _ _ _ false) by reflexivity.
    rewrite (count_where_fmap_const _ _ _ true) by reflexivity.
    rewrite length_seq, (export_operands _ _ _ _ Hn Hp).
    cbn. rewrite String.eqb_refl. split; [reflexivity|].
    destruct p; reflexivity.
  - run_tests odml_torch_pattern_counter.
Qed.

(** The embedding layer of the tests: one composite between 3 marks. *)
Lemma composites_delimited_by_mark_tensors_witness :
  exists out,
    export_to_stablehlo_with_composite (nn_Embedding 10 10) [[1; 10]]
    = Some out /\
    count_composites "odml.embedding_lookup" out = 1%nat /\
    count_mark_tensors out = 3%nat.
Proof.
  apply (proj1 (proj2 (proj2 composites_delimited_by_mark_tensors))
               (nn_Embedding 10 10) [[1; 10]] embedding_lookup).
  - reflexivity.
  - eexists. reflexivity.
Defined.

(** The calls that resize: [upsample], [Upsample] and [interpolate]. *)
Definition is_resize_call (call : torch_call) (a : resize_args) : Prop :=
  call = F_upsample a \/ call = nn_Upsample a \/ call = F_interpolate a.

Lemma Qfloor_whole (q : Q) (m : Z) : (q == inject_Z m)%Q -> Qfloor q = m.
Proof.
  intros H. rewrite (Qfloor_comp _ _ H). apply Qfloor_Z.
Qed.

(** C2: for a bilinear or nearest resize of an NCHW input given either a
    size or a scale factor, the pass leaves one composite whose [size] is
    the size argument when given, and otherwise each spatial dimension
    times the scale factor (rounded down to a whole number when the
    product is not one: scale_factor 3.0 on 10x10 gives [30, 30]); a
    bilinear composite has [align_corners] as the call gives it, false
    when left out, and [is_nchw_op] true; a nearest composite has [size]
    and [is_nchw_op] true and no [align_corners].  The attribute strings
    the tests expect are the ones these attributes print as. *)
Theorem resize_composite_attributes :
  (forall call a n c h w,
      is_resize_call call a ->
      mode a = bilinear \/ mode a = nearest ->
      (is_Some (size a) /\ scale_factor a = None) \/
      (size a = None /\ is_Some (scale_factor a)) ->
      exists out name sz attrs,
        export_to_stablehlo_with_composite call [[n; c; h; w]] = Some out /\
        composites_of out = [(name, attrs)] /\
        (forall s, size a = Some s -> sz = s) /\
        (forall k, size a = None -> scale_factor a = Some k ->
                   sz = [Qfloor (k * inject_Z h); Qfloor (k * inject_Z w)]) /\
        (forall k mh mw,
            size a = None -> scale_factor a = Some k ->
            (k * inject_Z h == inject_Z mh)%Q ->
            (k * inject_Z w == inject_Z mw)%Q ->
            sz = [mh; mw]) /\
        (mode a = bilinear ->
         name = "odml.upsample_bilinear2d" /\
         attrs = [("size", attr_ints sz);
                  ("align_corners",
                   attr_bool (match align_corners a with
                              | Some b => b
                              | None => false
                              end));
                  ("is_nchw_op", attr_bool true)]) /\
        (mode a = nearest ->
         name = "tfl.resize_nearest_neighbor" /\
         attrs = [("size", attr_ints sz); ("is_nchw_op", attr_bool true)] /\
         forall v, ~ In ("align_corners", v) attrs)) /\
  Forall (fun t =>
            exists out,
              export_to_stablehlo_with_composite (func t) (export_args t)
              = Some out /\
              Forall (fun kv =>
                        string_count (exported_program_to_mlir_text out) kv.1
                        = kv.2)
                     (torch_xla_pattern_counter t
                      ++ odml_torch_attr_counter t))
         tests.
Proof.
  split.
  - intros call [sz sc m ac] n c h w Hcall Hmode Hgiven. cbn in *.
    assert (Hexp : export call [[n; c; h; w]]
                   = resize_node {| size := sz; scale_factor := sc;
                                    mode := m; align_corners := ac |}
                                 [n; c; h; w])
      by (destruct Hcall as [-> | [-> | ->]]; reflexivity).
    unfold export_to_stablehlo_with_composite. rewrite Hexp. clear Hexp Hcall.
    destruct Hgiven as [[[s ->] ->] | [-> [k ->]]].
    + exists (BuildAtenCompositePass
                [match m with
                 | bilinear =>
                     {| target := upsample_bilinear2d_op
                                    s (from_option id false ac);
                        tensor_args := [[n; c; h; w]] |}
                 | nearest =>
                     {| target := upsample_nearest2d_op s;
                        tensor_args := [[n; c; h; w]] |}
                 | other_mode name =>
                     {| target := other_op name;
                        tensor_args := [[n; c; h; w]] |}
                 end]).
      exists (match m with
              | bilinear => "odml.upsample_bilinear2d"
              | _ => "tfl.resize_nearest_neighbor"
              end), s.
      destruct Hmode as [-> | ->]; eexists;
        (split; [reflexivity|]); (split; [reflexivity|]);
        (split; [intros ? [= <-]; reflexivity|]);
        (split; [intros ? [=]|]); (split; [intros ? ? ? [=]|]);
        split; try (intros [=]; fail).
      * intros _. split; reflexivity.
      * intros _. split; [reflexivity|]. split; [reflexivity|].
        intros v [[=] | [[=] | []]].
    + set (sz := [Qfloor (k * inject_Z h); Qfloor (k * inject_Z w)]).
      exists (BuildAtenCompositePass
                [match m with
                 | bilinear =>
                     {| target := upsample_bilinear2d_op
                                    sz (from_option id false ac);
                        tensor_args := [[n; c; h; w]] |}
                 | nearest =>
                     {| target := upsample_nearest2d_op sz;
                        tensor_args := [[n; c; h; w]] |}
                 | other_mode name =>
                     {| target := other_op name;
                        tensor_args := [[n; c; h; w]] |}
                 end]).
      exists (match m with
              | bilinear => "odml.upsample_bilinear2d"
              | _ => "tfl.resize_nearest_neighbor"
              end), sz.
      destruct Hmode as [-> | ->]; eexists;
        (split; [reflexivity|]); (split; [reflexivity|]);
        (split; [intros ? [=]|]);
        (split; [intros ? _ [= <-]; reflexivity|]);
        (split; [intros ? ? ? _ [= <-] Hh Hw; subst sz;
                 rewrite (Qfloor_whole _ _ Hh), (Qfloor_whole _ _ Hw);
                 reflexivity|]);
        split; try (intros [=]; fail).
      * intros _. split; reflexivity.
      * intros _. split; [reflexivity|]. split; [reflexivity|].
        intros v [[=] | [[=] | []]].
  - run_tests torch_xla_pattern_counter.
Qed.

(** [upsample(x, scale_factor=3.0, mode='bilinear')] on a 1x3x10x10
    input. *)
Lemma resize_composite_attributes_witness :
  exists out,
    export_to_stablehlo_with_composite
      (F_upsample (by_scale bilinear None)) [[1; 3; 10; 10]] = Some out /\
    composites_of out
    = [("odml.upsample_bilinear2d",
        [("size", attr_ints [30; 30]);
         ("align_corners", attr_bool false);
         ("is_nchw_op", attr_bool true)])].
Proof.
  destruct (proj1 resize_composite_attributes
                  (F_upsample (by_scale bilinear None))
                  (by_scale bilinear None) 1 3 10 10
                  (or_introl eq_refl) (or_introl eq_refl)
                  (or_intror (conj eq_refl (ex_intro _ _ eq_refl))))
    as (out & name & sz & attrs & Hout & Hc & _ & _ & Hsz & Hbi & _).
  exists out. split; [exact Hout|].
  destruct (Hbi eq_refl) as [-> ->].
  rewrite (Hsz (3 # 1)%Q 30 30 eq_refl eq_refl eq_refl eq_refl) in Hc.
  exact Hc.
Defined.

End BuildAtenCompositeSpec.

(** ** More on [tfl_slice]: clipping, copies and nested slices *)

Module TflSliceSpec.
Import Torch TorchTfl TorchSpec TorchTflSpec.

(** Where a slice starts and how long it is once Python has clipped its
    bounds to the dimension. *)
Definition clipped_starts (begin sh : list Z) : list Z :=
  zip_with clip_bound begin sh.

Fixpoint clipped_shape (begin size sh : list Z) : list Z :=
  match begin, size, sh with
  | b :: begin, s :: size, d :: sh =>
      Z.max (clip_bound (b + s) d - clip_bound b d) 0
      :: clipped_shape begin size sh
  | _, _, _ => []
  end.

Lemma clip_bound_range i n : 0 <= n -> 0 <= clip_bound i n <= n.
Proof.
  intros Hn. unfold clip_bound. destruct (Z.ltb_spec i 0); lia.
Qed.

Lemma getitem_slices_clipped begin size sh st :
  List.length begin = List.length size ->
  List.length size = List.length sh ->
  List.length st = List.length sh ->
  getitem_slices (zip_with (fun i l => (i, i + l)) begin size) sh st
  = Py.Ok (dot (clipped_starts begin sh) st, clipped_shape begin size sh).
Proof.
  revert size sh st; induction begin as [|b begin IH];
    intros [|s size] [|d sh] [|k st] H1 H2 H3; try discriminate;
    try reflexivity.
  cbn [zip_with getitem_slices clipped_starts clipped_shape dot].
  rewrite IH by (cbn in *; lia). reflexivity.
Qed.

Lemma clipped_within begin size sh :
  Forall (fun d => 0 <= d) sh ->
  List.length begin = List.length size ->
  List.length size = List.length sh ->
  Forall3 range_within (clipped_starts begin sh)
          (clipped_shape begin size sh) sh.
Proof.
  intros Hsh; revert begin size;
    induction Hsh as [|d sh Hd Hsh IH]; intros [|b begin] [|s size] H1 H2;
    try discriminate; [constructor|].
  cbn [clipped_starts clipped_shape zip_with]. constructor.
  - pose proof (clip_bound_range b d Hd).
    pose proof (clip_bound_range (b + s) d Hd).
    unfold range_within. lia.
  - apply IH; cbn in *; lia.
Qed.

Lemma clipped_id begin size sh :
  Forall3 range_within begin size sh ->
  clipped_starts begin sh = begin /\ clipped_shape begin size sh = size.
Proof.
  induction 1 as [|b s d begin size sh (Hb & Hs & Hd) H [IH1 IH2]];
    [split; reflexivity|].
  cbn [clipped_starts clipped_shape zip_with]. fold (clipped_starts begin sh).
  rewrite IH1, IH2, !clip_bound_id by lia.
  split; f_equal. lia.
Qed.

Lemma length_contiguous_strides sh :
  List.length (contiguous_strides sh) = List.length sh.
Proof. induction sh as [|d sh IH]; cbn; congruence. Qed.

Section Elem.
Context {elem : Type}.
Implicit Types (h : list (list elem)) (t : tensor).

(** A clone is a well-formed tensor of the extended heap. *)
Lemma cloned_ok h t data :
  tensor_ok h t ->
  (forall idx, tensor_get (h ++ [data]) (cloned t (List.length h)) idx
               = tensor_get h t idx) ->
  tensor_ok (h ++ [data]) (cloned t (List.length h)).
Proof.
  intros [_ Hok] Hget. split; [apply length_contiguous_strides|].
  cbn [cloned shape]. eapply Forall_impl; [exact Hok|].
  intros idx Hidx. cbn beta. rewrite Hget. exact Hidx.
Qed.

(** What [tfl_slice] does for any bounds, once the lengths agree. *)
Lemma tfl_slice_run h input begin size :
  tensor_ok h input ->
  Forall (fun d => 0 <= d) (shape input) ->
  List.length begin = List.length size ->
  List.length size = List.length (shape input) ->
  let view := sliced input (clipped_starts begin (shape input))
                     (clipped_shape begin size (shape input)) in
  exists data,
    tfl_slice input begin size h
    = (Py.Ok (cloned view (List.length h)), h ++ [data]) /\
    (forall idx, tensor_get (h ++ [data]) (cloned view (List.length h)) idx
                 = tensor_get h view idx) /\
    tensor_ok (h ++ [data]) (cloned view (List.length h)).
Proof.
  intros Hok Hsh Hbs Hsi view. unfold tfl_slice.
  rewrite Hbs, Hsi, !Nat.eqb_refl. cbn [andb negb].
  unfold Py.bind, lift, getitem.
  rewrite getitem_slices_clipped by (assumption || apply Hok).
  fold view.
  assert (Hview : tensor_ok h view)
    by (apply sliced_ok; [assumption|apply clipped_within; assumption]).
  destruct (clone_spec _ _ Hview) as (data & Hrun & Hget).
  exists data. split; [exact Hrun|]. split; [exact Hget|].
  apply cloned_ok; assumption.
Qed.

Lemma range_within_sizes begin size sh :
  Forall3 range_within begin size sh ->
  Forall2 (fun n d => 0 <= n <= d) size sh.
Proof.
  induction 1 as [|b s d ? ? ? (Hb & Hs & Hd) ? IH]; constructor;
    [lia|exact IH].
Qed.

Lemma lookup_clipped_shape begin size sh i b s d :
  begin !! i = Some b -> size !! i = Some s -> sh !! i = Some d ->
  clipped_shape begin size sh !! i
  = Some (Z.max (clip_bound (b + s) d - clip_bound b d) 0).
Proof.
  revert size sh i; induction begin as [|b0 begin IH];
    intros [|s0 size] [|d0 sh] [|i] Hb Hs Hd; try discriminate.
  - cbn in *. congruence.
  - cbn in *. eapply IH; eassumption.
Qed.

(** X4: with lists of the right length, [tfl_slice] never fails on
    bounds: a range that leaves the dimension is clipped to it, the way
    Python clips a slice.  Every dimension of the result lies between 0
    and the input's; for [begin[i] >= 0] and [size[i] >= 0] it is
    [min(size[i], shape[i] - begin[i])], or 0 when [begin[i]] is past the
    end; and the element at [j] is the input's element at the clipped
    start plus [j]. *)
Theorem tfl_slice_clips h input begin size :
  tensor_ok h input ->
  Forall (fun d => 0 <= d) (shape input) ->
  List.length begin = List.length size ->
  List.length size = List.length (shape input) ->
  exists out data,
    tfl_slice input begin size h = (Py.Ok out, h ++ [data]) /\
    Forall2 (fun n d => 0 <= n <= d) (shape out) (shape input) /\
    (forall i b s d,
        begin !! i = Some b -> size !! i = Some s ->
        shape input !! i = Some d ->
        shape out !! i
        = Some (Z.max (clip_bound (b + s) d - clip_bound b d) 0) /\
        (0 <= b -> 0 <= s ->
         shape out !! i = Some (Z.max 0 (Z.min s (d - b))))) /\
    (forall j,
        in_bounds j (shape out) = true ->
        is_Some (tensor_get (h ++ [data]) out j) /\
        tensor_get (h ++ [data]) out j
        = tensor_get h input
            (zip_with Z.add (clipped_starts begin (shape input)) j)).
Proof.
  intros Hok Hsh Hbs Hsi.
  destruct (tfl_slice_run h input begin size Hok Hsh Hbs Hsi)
    as (data & Hrun & Hget & Hout).
  pose proof (clipped_within begin size (shape input) Hsh Hbs Hsi) as Hin.
  eexists _, data. split; [exact Hrun|].
  cbn [cloned sliced shape]. split; [|split].
  - eapply range_within_sizes, Hin.
  - intros i b s d Hb Hs Hd.
    rewrite (lookup_clipped_shape _ _ _ _ _ _ _ Hb Hs Hd).
    split; [reflexivity|]. intros Hb0 Hs0. f_equal.
    assert (Hd0 : 0 <= d).
    { rewrite Forall_forall in Hsh. apply Hsh.
      eapply list_elem_of_lookup_2; exact Hd. }
    unfold clip_bound.
    destruct (Z.ltb_spec b 0); [lia|].
    destruct (Z.ltb_spec (b + s) 0); lia.
  - intros j Hj. rewrite Hget, (sliced_get _ _ _ _ _ Hin Hj).
    split; [|reflexivity].
    destruct Hok as [_ Hok]. rewrite Forall_forall in Hok. apply Hok.
    apply elem_of_all_indices. eapply in_bounds_shift; eassumption.
Qed.

Lemma range_within_nonneg begin size sh :
  Forall3 range_within begin size sh -> Forall (fun d => 0 <= d) sh.
Proof.
  induction 1 as [|b s d ? ? ? (Hb & Hs & Hd) ? IH]; constructor;
    [lia|exact IH].
Qed.

Lemma tfl_slice_within_run h input begin size :
  tensor_ok h input ->
  Forall3 range_within begin size (shape input) ->
  exists data,
    tfl_slice input begin size h
    = (Py.Ok (cloned (sliced input begin size) (List.length h)),
       h ++ [data]) /\
    (forall idx,
        tensor_get (h ++ [data])
                   (cloned (sliced input begin size) (List.length h)) idx
        = tensor_get h (sliced input begin size) idx) /\
    tensor_ok (h ++ [data]) (cloned (sliced input begin size) (List.length h)).
Proof.
  intros Hok Hin.
  destruct (Forall3_lengths _ _ _ _ Hin) as [Hbs Hsi].
  pose proof (tfl_slice_run h input begin size Hok
                (range_within_nonneg _ _ _ Hin) Hbs Hsi) as Hrun.
  cbn zeta in Hrun. destruct (clipped_id _ _ _ Hin) as [Hb Hs].
  rewrite Hb, Hs in Hrun. exact Hrun.
Qed.

Lemma sliced_get_outside h input begin size idx :
  in_bounds idx size = false ->
  tensor_get h (sliced input begin size) idx = None.
Proof.
  intros Hidx. unfold tensor_get. cbn [sliced shape]. rewrite Hidx.
  reflexivity.
Qed.

Lemma range_within_zero sh :
  Forall (fun d => 0 <= d) sh ->
  Forall3 range_within (replicate (List.length sh) 0) sh sh.
Proof.
  induction 1 as [|d sh Hd H IH]; cbn; constructor;
    [unfold range_within; lia|exact IH].
Qed.

Lemma zip_add_zero idx n :
  List.length idx = n -> zip_with Z.add (replicate n 0) idx = idx.
Proof.
  revert n; induction idx as [|i idx IH]; intros [|n] Hn; try discriminate;
    [reflexivity|].
  cbn. f_equal. apply IH. cbn in Hn. lia.
Qed.

(** X5: slicing a tensor from 0 over its whole shape copies it: the
    result has the input's shape, dtype and elements, in a storage of
    its own. *)
Theorem tfl_slice_whole_is_copy h input :
  tensor_ok h input ->
  Forall (fun d => 0 <= d) (shape input) ->
  exists out data,
    tfl_slice input (replicate (List.length (shape input)) 0) (shape input) h
    = (Py.Ok out, h ++ [data]) /\
    shape out = shape input /\
    dtype_of out = dtype_of input /\
    storage out = List.length h /\
    h !! storage out = None /\
    forall idx,
      tensor_get (h ++ [data]) out idx = tensor_get h input idx.
Proof.
  intros Hok Hsh. pose proof (range_within_zero _ Hsh) as Hin.
  destruct (tfl_slice_within_run h input _ _ Hok Hin)
    as (data & Hrun & Hget & _).
  eexists _, data. split; [exact Hrun|].
  split; [reflexivity|]. split; [reflexivity|]. split; [reflexivity|].
  split; [apply lookup_ge_None_2; cbn; lia|].
  intros idx. rewrite Hget.
  destruct (in_bounds idx (shape input)) eqn:Hidx.
  - rewrite (sliced_get _ _ _ _ _ Hin Hidx).
    rewrite zip_add_zero; [reflexivity|].
    apply in_bounds_length, Hidx.
  - rewrite (sliced_get_outside _ _ _ _ _ Hidx).
    unfold tensor_get. rewrite Hidx. reflexivity.
Qed.

Lemma range_within_nested b1 s1 sh b2 s2 :
  Forall3 range_within b1 s1 sh ->
  Forall3 range_within b2 s2 s1 ->
  Forall3 range_within (zip_with Z.add b1 b2) s2 sh.
Proof.
  intros H; revert b2 s2.
  induction H as [|b s d b1 s1 sh (Hb & Hs & Hd) H IH];
    intros b2 s2 H2; inversion H2 as [|b' s' ? ? ? ? (Hb' & Hs' & Hd')];
    subst; cbn [zip_with]; constructor.
  - unfold range_within. lia.
  - apply IH. assumption.
Qed.

Lemma zip_add_assoc (a b c : list Z) :
  zip_with Z.add (zip_with Z.add a b) c
  = zip_with Z.add a (zip_with Z.add b c).
Proof.
  revert b c; induction a as [|x a IH]; intros [|y b] [|z c];
    try reflexivity.
  cbn [zip_with]. rewrite IH. f_equal. lia.
Qed.

(** X6: a slice of a slice is a slice: for ranges within their
    dimensions, taking [begin2, size2] out of the result of
    [tfl_slice(x, begin1, size1)] gives a tensor with the shape and the
    elements of [tfl_slice(x, begin1 + begin2, size2)]. *)
Theorem tfl_slice_nested h x begin1 size1 begin2 size2 :
  tensor_ok h x ->
  Forall3 range_within begin1 size1 (shape x) ->
  Forall3 range_within begin2 size2 size1 ->
  exists out1 h1 out2 h2 out3 h3,
    tfl_slice x begin1 size1 h = (Py.Ok out1, h1) /\
    tfl_slice out1 begin2 size2 h1 = (Py.Ok out2, h2) /\
    tfl_slice x (zip_with Z.add begin1 begin2) size2 h = (Py.Ok out3, h3) /\
    shape out2 = size2 /\
    shape out3 = size2 /\
    forall j, tensor_get h2 out2 j = tensor_get h3 out3 j.
Proof.
  intros Hok H1 H2.
  destruct (tfl_slice_within_run h x _ _ Hok H1)
    as (data1 & Hrun1 & Hget1 & Hok1).
  set (out1 := cloned (sliced x begin1 size1) (List.length h)) in *.
  assert (H2' : Forall3 range_within begin2 size2 (shape out1)) by exact H2.
  destruct (tfl_slice_within_run (h ++ [data1]) out1 _ _ Hok1 H2')
    as (data2 & Hrun2 & Hget2 & _).
  pose proof (range_within_nested _ _ _ _ _ H1 H2) as H3.
  destruct (tfl_slice_within_run h x _ _ Hok H3)
    as (data3 & Hrun3 & Hget3 & _).
  do 6 eexists.
  split; [exact Hrun1|]. split; [exact Hrun2|]. split; [exact Hrun3|].
  split; [reflexivity|]. split; [reflexivity|].
  intros j. rewrite Hget2, Hget3.
  destruct (in_bounds j size2) eqn:Hj.
  - rewrite (sliced_get _ _ _ _ _ H2' Hj), (sliced_get _ _ _ _ _ H3 Hj).
    rewrite Hget1.
    rewrite (sliced_get _ _ _ _ _ H1 (in_bounds_shift _ _ _ _ H2 Hj)).
    rewrite zip_add_assoc. reflexivity.
  - rewrite !sliced_get_outside by exact Hj. reflexivity.
Qed.

End Elem.

Lemma example_2x3_nonneg : Forall (fun d => 0 <= d) (shape example_2x3).
Proof. repeat constructor; discriminate. Qed.

(** [tfl_slice(t, [1, -1], [5, 7])] on the 2x3 example: both ranges leave
    the tensor and are clipped to its last row and column. *)
Lemma tfl_slice_clips_witness :
  exists out data,
    tfl_slice example_2x3 [1; -1] [5; 7] example_heap
    = (Py.Ok out, example_heap ++ [data]) /\
    shape out = [1; 1] /\
    tensor_get (example_heap ++ [data]) out [0; 0] = Some 15.
Proof.
  destruct (tfl_slice_clips example_heap example_2x3 [1; -1] [5; 7]
              example_2x3_ok example_2x3_nonneg eq_refl eq_refl)
    as (out & data & Hrun & _ & _ & _).
  exists out, data. split; [exact Hrun|].
  injection Hrun as <- <-. split; reflexivity.
Defined.

Lemma tfl_slice_whole_is_copy_witness :
  exists out data,
    tfl_slice example_2x3 [0; 0] [2; 3] example_heap
    = (Py.Ok out, example_heap ++ [data]) /\
    shape out = [2; 3] /\
    forall idx,
      tensor_get (example_heap ++ [data]) out idx
      = tensor_get example_heap example_2x3 idx.
Proof.
  destruct (tfl_slice_whole_is_copy example_heap example_2x3
              example_2x3_ok example_2x3_nonneg)
    as (out & data & Hrun & Hshape & _ & _ & _ & Hget).
  exists out, data. split; [exact Hrun|]. split; [exact Hshape|exact Hget].
Defined.

(** Columns 1 and 2 of the 2x3 example, then row 1 and the second of
    those columns: the element at row 1, column 2. *)
Lemma tfl_slice_nested_witness :
  exists out1 h1 out2 h2 out3 h3,
    tfl_slice example_2x3 [0; 1] [2; 2] example_heap = (Py.Ok out1, h1) /\
    tfl_slice out1 [1; 1] [1; 1] h1 = (Py.Ok out2, h2) /\
    tfl_slice example_2x3 [1; 2] [1; 1] example_heap = (Py.Ok out3, h3) /\
    shape out2 = [1; 1] /\
    shape out3 = [1; 1] /\
    forall j, tensor_get h2 out2 j = tensor_get h3 out3 j.
Proof.
  apply (tfl_slice_nested example_heap example_2x3 [0; 1] [2; 2]
                          [1; 1] [1; 1] example_2x3_ok).
  - repeat first [ apply Forall3_nil
                 | apply Forall3_cons; [unfold range_within; lia|] ].
  - repeat first [ apply Forall3_nil
                 | apply Forall3_cons; [unfold range_within; lia|] ].
Defined.

End TflSliceSpec.

(** ** [tfl_transpose]: permuting the dimensions *)

Module TflTransposeSpec.
Import Torch TorchTfl TorchSpec TorchTflSpec TflSliceSpec.

(** Sums over positions. *)
Fixpoint zsum (f : nat -> Z) (l : list nat) : Z :=
  match l with
  | [] => 0
  | k :: l => f k + zsum f l
  end.

Lemma zsum_Permutation f l k : l ≡ₚ k -> zsum f l = zsum f k.
Proof.
  induction 1 as [|x l k _ IH|x y l|l k m _ IH1 _ IH2]; cbn; lia.
Qed.

Lemma zsum_fmap f (g : nat -> nat) l : zsum f (g <$> l) = zsum (f ∘ g) l.
Proof. induction l as [|k l IH]; cbn; [reflexivity|]. rewrite IH. reflexivity. Qed.

Lemma zsum_ext f g l : (forall k, f k = g k) -> zsum f l = zsum g l.
Proof. intros H. induction l as [|k l IH]; cbn; [reflexivity|]. rewrite IH, H. reflexivity. Qed.

Lemma dot_gather ds idx st :
  dot (gather ds idx) (gather ds st)
  = zsum (fun d => idx !!! d * st !!! d) ds.
Proof.
  induction ds as [|d ds IH]; [reflexivity|].
  cbn [gather fmap list_fmap dot zsum]. fold (gather ds idx) (gather ds st).
  rewrite IH. reflexivity.
Qed.

Lemma dot_positions idx st :
  List.length idx = List.length st ->
  dot idx st = zsum (fun k => idx !!! k * st !!! k) (seq 0 (List.length idx)).
Proof.
  revert st; induction idx as [|i idx IH]; intros [|s st] Hlen;
    try discriminate; [reflexivity|].
  cbn [List.length seq zsum dot]. rewrite <- fmap_S_seq, zsum_fmap.
  rewrite IH by (cbn in Hlen; lia). reflexivity.
Qed.

(** A permutation of the positions leaves the dot product as it is. *)
Lemma dot_permuted ds idx st :
  ds ≡ₚ seq 0 (List.length idx) ->
  List.length idx = List.length st ->
  dot (gather ds idx) (gather ds st) = dot idx st.
Proof.
  intros Hp Hlen. rewrite dot_gather, (dot_positions _ _ Hlen).
  apply zsum_Permutation, Hp.
Qed.

Lemma in_bounds_Forall2 idx sh :
  in_bounds idx sh = true <-> Forall2 (fun i d => 0 <= i < d) idx sh.
Proof.
  revert sh; induction idx as [|i idx IH]; intros [|d sh].
  - split; [constructor|reflexivity].
  - split; [discriminate|inversion 1].
  - split; [discriminate|inversion 1].
  - rewrite in_bounds_cons, IH. split.
    + intros [? ?]. constructor; assumption.
    + inversion 1; subst. split; assumption.
Qed.

Lemma lookup_gather ds (l : list Z) i d :
  ds !! i = Some d -> gather ds l !! i = Some (l !!! d).
Proof.
  intros Hd. unfold gather. rewrite list_lookup_fmap, Hd. reflexivity.
Qed.

Lemma length_gather ds (l : list Z) : List.length (gather ds l) = List.length ds.
Proof. apply length_fmap. Qed.

Lemma in_bounds_gather ds idx sh :
  (forall d, d ∈ ds -> (d < List.length sh)%nat) ->
  in_bounds idx sh = true ->
  in_bounds (gather ds idx) (gather ds sh) = true.
Proof.
  intros Hds Hin. apply in_bounds_Forall2.
  apply in_bounds_Forall2 in Hin.
  induction ds as [|d ds IH]; [constructor|].
  cbn [gather fmap list_fmap]. constructor.
  - assert (Hd : (d < List.length sh)%nat) by (apply Hds; left).
    pose proof (Forall2_length _ _ _ Hin) as Hlen.
    destruct (lookup_lt_is_Some_2 sh d Hd) as [x Hx].
    destruct (lookup_lt_is_Some_2 idx d) as [i Hi]; [lia|].
    rewrite (list_lookup_total_correct _ _ _ Hi),
      (list_lookup_total_correct _ _ _ Hx).
    exact (Forall2_lookup_lr _ _ _ _ _ _ Hin Hi Hx).
  - apply IH. intros d' Hd'. apply Hds. right. exact Hd'.
Qed.

(** The index whose entries at the positions [ds] are those of [j]. *)
Definition scatter (n : nat) (ds : list nat) (j : list Z) : list Z :=
  foldr (fun p acc => <[p.1 := p.2]> acc) (replicate n 0) (zip ds j).

Lemma length_scatter n ds j : List.length (scatter n ds j) = n.
Proof.
  unfold scatter. revert j; induction ds as [|d ds IH]; intros [|x j]; cbn;
    rewrite ?length_replicate; try reflexivity.
  rewrite length_insert. apply IH.
Qed.

Lemma lookup_scatter n ds j i d x :
  NoDup ds -> (forall d, d ∈ ds -> (d < n)%nat) ->
  ds !! i = Some d -> j !! i = Some x ->
  scatter n ds j !! d = Some x.
Proof.
  intros Hnd Hlt; revert j i; induction ds as [|d0 ds IH];
    intros [|x0 j] [|i] Hd Hx; try discriminate.
  - cbn in Hd, Hx. injection Hd as ->. injection Hx as ->.
    unfold scatter. cbn [zip zip_with foldr fst snd].
    apply list_lookup_insert_eq. fold (scatter n ds j).
    rewrite length_scatter. apply Hlt. left.
  - cbn in Hd, Hx. apply NoDup_cons in Hnd as [Hnotin Hnd].
    unfold scatter. cbn [zip zip_with foldr fst snd]. fold (scatter n ds j).
    rewrite list_lookup_insert_ne.
    + eapply IH; [exact Hnd| |exact Hd|exact Hx].
      intros d' Hd'. apply Hlt. right. exact Hd'.
    + intros ->. apply Hnotin. eapply list_elem_of_lookup_2, Hd.
Qed.

Lemma gather_scatter n ds j :
  NoDup ds -> (forall d, d ∈ ds -> (d < n)%nat) ->
  List.length j = List.length ds ->
  gather ds (scatter n ds j) = j.
Proof.
  intros Hnd Hlt Hlen. apply list_eq. intros i.
  destruct (ds !! i) as [d|] eqn:Hd.
  - destruct (lookup_lt_is_Some_2 j i) as [x Hx].
    { rewrite Hlen. eapply lookup_lt_Some, Hd. }
    rewrite (lookup_gather _ _ _ _ Hd), Hx. f_equal.
    apply list_lookup_total_correct. eapply lookup_scatter; eassumption.
  - rewrite !lookup_ge_None_2; [reflexivity| |].
    + rewrite Hlen. apply lookup_ge_None, Hd.
    + rewrite length_gather. apply lookup_ge_None, Hd.
Qed.

Lemma permutation_facts ds n :
  ds ≡ₚ seq 0 n ->
  NoDup ds /\ List.length ds = n /\
  (forall d, d ∈ ds <-> (d < n)%nat).
Proof.
  intros Hp. split; [|split].
  - rewrite Hp. apply NoDup_seq.
  - rewrite Hp. apply length_seq.
  - intros d. rewrite Hp, elem_of_seq. lia.
Qed.

Lemma in_bounds_scatter ds j sh :
  ds ≡ₚ seq 0 (List.length sh) ->
  in_bounds j (gather ds sh) = true ->
  in_bounds (scatter (List.length sh) ds j) sh = true.
Proof.
  intros Hp Hin. destruct (permutation_facts _ _ Hp) as (Hnd & Hlen & Hmem).
  apply in_bounds_Forall2. apply in_bounds_Forall2 in Hin.
  apply Forall2_same_length_lookup. split; [apply length_scatter|].
  intros k x d Hx Hd.
  assert (Hk : k ∈ ds) by (apply Hmem; eapply lookup_lt_Some, Hd).
  apply list_elem_of_lookup_1 in Hk as [i Hi].
  pose proof (Forall2_length _ _ _ Hin) as Hjlen.
  rewrite length_gather in Hjlen.
  destruct (lookup_lt_is_Some_2 j i) as [xj Hxj].
  { rewrite Hjlen. eapply lookup_lt_Some, Hi. }
  assert (Hs : scatter (List.length sh) ds j !! k = Some xj).
  { eapply lookup_scatter; [exact Hnd| |exact Hi|exact Hxj].
    intros d' Hd'. apply Hmem, Hd'. }
  assert (x = xj) as -> by congruence.
  pose proof (lookup_gather ds sh i k Hi) as Hg.
  rewrite (list_lookup_total_correct _ _ _ Hd) in Hg.
  exact (Forall2_lookup_lr _ _ _ _ _ _ Hin Hxj Hg).
Qed.

(** [perm] names every dimension once: its entries, counted from the end
    when negative, are the positions [ds], a permutation of 0 .. n-1. *)
Definition names_dims (perm : list Z) (ds : list nat) (n : nat) : Prop :=
  Forall2 (fun dim d => wrap_dim dim (Z.of_nat n) = Py.Ok d) perm ds /\
  ds ≡ₚ seq 0 n.

Lemma wrap_dim_lt dim n d :
  wrap_dim dim (Z.of_nat n) = Py.Ok d -> (d < Nat.max n 1)%nat.
Proof.
  unfold wrap_dim.
  destruct (Z.leb_spec (- Z.max (Z.of_nat n) 1) dim); [|discriminate].
  destruct (Z.ltb_spec dim (Z.max (Z.of_nat n) 1)); [|discriminate].
  cbn [andb]. intros [= <-]. destruct (Z.ltb_spec dim 0); lia.
Qed.

Lemma permute_dims_ok dims n ds seen :
  Forall2 (fun dim d => wrap_dim dim n = Py.Ok d) dims ds ->
  NoDup ds -> (forall d, d ∈ ds -> d ∉ seen) ->
  permute_dims dims n seen = Py.Ok ds.
Proof.
  intros H; revert seen; induction H as [|dim d dims ds Hw H IH];
    intros seen Hnd Hseen; [reflexivity|].
  cbn [permute_dims]. rewrite Hw.
  apply NoDup_cons in Hnd as [Hnotin Hnd].
  rewrite bool_decide_eq_false_2 by (apply Hseen; left).
  rewrite IH; [reflexivity|exact Hnd|].
  intros d' Hd' [->|Hin]%elem_of_cons; [contradiction|].
  eapply Hseen; [right; exact Hd'|exact Hin].
Qed.

Lemma permute_dims_inv dims n seen ds :
  permute_dims dims n seen = Py.Ok ds ->
  Forall2 (fun dim d => wrap_dim dim n = Py.Ok d) dims ds /\
  NoDup ds /\ (forall d, d ∈ ds -> d ∉ seen).
Proof.
  revert seen ds; induction dims as [|dim dims IH]; intros seen ds;
    cbn [permute_dims].
  - intros [= <-]. split; [constructor|]. split; [constructor|].
    intros d Hd. inversion Hd.
  - destruct (wrap_dim dim n) as [d|e] eqn:Hw; [|discriminate].
    destruct (bool_decide (d ∈ seen)) eqn:Hseen; [discriminate|].
    apply bool_decide_eq_false in Hseen.
    destruct (permute_dims dims n (d :: seen)) as [ds'|e] eqn:Hrec;
      [|discriminate].
    intros [= <-]. destruct (IH _ _ Hrec) as (Hf & Hnd & Hno).
    split; [constructor; assumption|]. split.
    + apply NoDup_cons. split; [|exact Hnd].
      intros Hd. apply (Hno d Hd). left.
    + intros d' [->|Hd']%elem_of_cons; [exact Hseen|].
      intros Hin. apply (Hno d' Hd'). right. exact Hin.
Qed.

(** The view [torch.permute] gives for the positions [ds]. *)
Definition permuted (t : tensor) (ds : list nat) : tensor :=
  {| storage := storage t; offset := offset t;
     shape := gather ds (shape t); strides := gather ds (strides t);
     dtype_of := dtype_of t |}.

Lemma permute_names t perm ds :
  names_dims perm ds (List.length (shape t)) ->
  permute t perm = Py.Ok (permuted t ds).
Proof.
  intros [Hw Hp]. destruct (permutation_facts _ _ Hp) as (Hnd & Hlen & _).
  unfold permute, ndim.
  rewrite (Forall2_length _ _ _ Hw), Hlen, Nat.eqb_refl. cbn [negb].
  rewrite (permute_dims_ok _ _ _ _ Hw Hnd); [reflexivity|].
  intros d _ Hd. inversion Hd.
Qed.

Section Elem.
Context {elem : Type}.
Implicit Types (h : list (list elem)) (t : tensor).

Lemma permuted_get h t ds idx :
  ds ≡ₚ seq 0 (List.length (shape t)) ->
  List.length (strides t) = List.length (shape t) ->
  in_bounds idx (shape t) = true ->
  tensor_get h (permuted t ds) (gather ds idx) = tensor_get h t idx.
Proof.
  intros Hp Hst Hin. destruct (permutation_facts _ _ Hp) as (_ & _ & Hmem).
  pose proof (in_bounds_length _ _ Hin) as Hlen.
  unfold tensor_get. cbn [permuted shape strides offset storage].
  rewrite Hin, in_bounds_gather; [|intros d Hd; apply Hmem, Hd|exact Hin].
  rewrite dot_permuted; [reflexivity| |congruence].
  rewrite Hlen. exact Hp.
Qed.

Lemma permuted_ok h t ds :
  tensor_ok h t ->
  ds ≡ₚ seq 0 (List.length (shape t)) ->
  tensor_ok h (permuted t ds).
Proof.
  intros [Hst Hok] Hp. destruct (permutation_facts _ _ Hp) as (Hnd & Hlen & Hmem).
  split; [cbn; rewrite !length_gather; reflexivity|].
  cbn [permuted shape]. apply Forall_forall. intros j Hj.
  apply elem_of_all_indices in Hj.
  pose proof (in_bounds_scatter _ _ _ Hp Hj) as Hidx.
  rewrite <- (gather_scatter (List.length (shape t)) ds j Hnd).
  - rewrite (permuted_get _ _ _ _ Hp Hst Hidx).
    rewrite Forall_forall in Hok. apply Hok.
    apply elem_of_all_indices, Hidx.
  - intros d Hd. apply Hmem, Hd.
  - rewrite (in_bounds_length _ _ Hj). apply length_gather.
Qed.

(** X7: when [perm] names every dimension of the input once (an entry
    below zero counting from the end), [tfl_transpose] returns a tensor
    in a storage of its own whose dimension [i] is the input's dimension
    [perm[i]]: the input's element at an index is the result's element
    at that index rearranged by [perm], and every element of the result
    is one of the input. *)
Theorem tfl_transpose_permutes h input perm ds :
  tensor_ok h input ->
  names_dims perm ds (List.length (shape input)) ->
  exists out data,
    tfl_transpose input perm h = (Py.Ok out, h ++ [data]) /\
    storage out = List.length h /\
    h !! storage out = None /\
    dtype_of out = dtype_of input /\
    shape out = gather ds (shape input) /\
    (forall idx,
        in_bounds idx (shape input) = true ->
        in_bounds (gather ds idx) (shape out) = true /\
        tensor_get (h ++ [data]) out (gather ds idx)
        = tensor_get h input idx) /\
    (forall j,
        in_bounds j (shape out) = true ->
        exists idx,
          in_bounds idx (shape input) = true /\ j = gather ds idx).
Proof.
  intros Hok Hnames. pose proof Hnames as [Hw Hp].
  destruct (permutation_facts _ _ Hp) as (Hnd & Hlen & Hmem).
  pose proof (permuted_ok _ _ _ Hok Hp) as Hview.
  destruct (clone_spec _ _ Hview) as (data & Hrun & Hget).
  exists (cloned (permuted input ds) (List.length h)), data. split.
  { unfold tfl_transpose.
    rewrite (Forall2_length _ _ _ Hw), Hlen, Nat.eqb_refl. cbn [negb].
    unfold Py.bind, lift. rewrite (permute_names _ _ _ Hnames). exact Hrun. }
  split; [reflexivity|].
  split; [apply lookup_ge_None_2; cbn; lia|].
  split; [reflexivity|]. split; [reflexivity|]. split.
  - intros idx Hidx. split.
    + apply in_bounds_gather; [intros d Hd; apply Hmem, Hd|exact Hidx].
    + rewrite Hget. apply permuted_get; [exact Hp|apply Hok|exact Hidx].
  - intros j Hj. cbn [cloned permuted shape] in Hj.
    exists (scatter (List.length (shape input)) ds j). split.
    + apply in_bounds_scatter; assumption.
    + symmetry. apply gather_scatter; [exact Hnd| |].
      * intros d Hd. apply Hmem, Hd.
      * rewrite (in_bounds_length _ _ Hj). apply length_gather.
Qed.

Lemma tfl_transpose_run h input perm ds :
  tensor_ok h input ->
  names_dims perm ds (List.length (shape input)) ->
  exists data,
    tfl_transpose input perm h
    = (Py.Ok (cloned (permuted input ds) (List.length h)), h ++ [data]) /\
    (forall idx,
        tensor_get (h ++ [data])
                   (cloned (permuted input ds) (List.length h)) idx
        = tensor_get h (permuted input ds) idx) /\
    tensor_ok (h ++ [data]) (cloned (permuted input ds) (List.length h)).
Proof.
  intros Hok Hnames. pose proof Hnames as [Hw Hp].
  destruct (permutation_facts _ _ Hp) as (_ & Hlen & _).
  pose proof (permuted_ok _ _ _ Hok Hp) as Hview.
  destruct (clone_spec _ _ Hview) as (data & Hrun & Hget).
  exists data. split; [|split; [exact Hget|apply cloned_ok; assumption]].
  unfold tfl_transpose.
  rewrite (Forall2_length _ _ _ Hw), Hlen, Nat.eqb_refl. cbn [negb].
  unfold Py.bind, lift. rewrite (permute_names _ _ _ Hnames). exact Hrun.
Qed.

Lemma gather_gather ds qs (l : list Z) :
  ds ≡ₚ seq 0 (List.length l) ->
  qs ≡ₚ seq 0 (List.length l) ->
  (fun q => ds !!! q) <$> qs = seq 0 (List.length l) ->
  gather qs (gather ds l) = l.
Proof.
  intros Hds Hqs Hinv.
  destruct (permutation_facts _ _ Hds) as (_ & Hdlen & _).
  destruct (permutation_facts _ _ Hqs) as (_ & Hqlen & Hqmem).
  apply list_eq. intros i.
  destruct (qs !! i) as [q|] eqn:Hq.
  - assert (Hi : (i < List.length l)%nat)
      by (rewrite <- Hqlen; eapply lookup_lt_Some, Hq).
    rewrite (lookup_gather _ _ _ _ Hq).
    assert (Hdq : ds !!! q = i).
    { assert (H : ((fun q => ds !!! q) <$> qs) !! i = Some (ds !!! q))
        by (rewrite list_lookup_fmap, Hq; reflexivity).
      rewrite Hinv, lookup_seq_lt in H by exact Hi.
      injection H as H. lia. }
    assert (Hqn : (q < List.length ds)%nat).
    { rewrite Hdlen. apply Hqmem. eapply list_elem_of_lookup_2, Hq. }
    destruct (lookup_lt_is_Some_2 ds q Hqn) as [d Hd].
    rewrite (list_lookup_total_correct _ _ _ Hd) in Hdq. subst d.
    destruct (lookup_lt_is_Some_2 l i Hi) as [x Hx].
    rewrite Hx. f_equal. apply list_lookup_total_correct.
    rewrite (lookup_gather _ _ _ _ Hd). f_equal.
    apply list_lookup_total_correct, Hx.
  - pose proof (lookup_ge_None_1 _ _ Hq) as Hge.
    rewrite !lookup_ge_None_2; [reflexivity|lia|].
    rewrite length_gather. lia.
Qed.

(** X8: transposing by [perm] and then by [back], where [back] undoes
    [perm] (dimension [i] of the second result is dimension
    [perm[back[i]] = i] of the input), gives back a tensor with the
    input's shape and elements. *)
Theorem tfl_transpose_round_trip h input perm ds back qs :
  tensor_ok h input ->
  names_dims perm ds (List.length (shape input)) ->
  names_dims back qs (List.length (shape input)) ->
  (fun q => ds !!! q) <$> qs = seq 0 (List.length (shape input)) ->
  exists out1 h1 out2 h2,
    tfl_transpose input perm h = (Py.Ok out1, h1) /\
    tfl_transpose out1 back h1 = (Py.Ok out2, h2) /\
    shape out2 = shape input /\
    forall idx, tensor_get h2 out2 idx = tensor_get h input idx.
Proof.
  intros Hok Hperm Hback Hinv.
  pose proof Hperm as [_ Hds]. pose proof Hback as [_ Hqs].
  destruct (permutation_facts _ _ Hds) as (_ & Hdlen & Hdmem).
  destruct (tfl_transpose_run h input perm ds Hok Hperm)
    as (data1 & Hrun1 & Hget1 & Hok1).
  set (out1 := cloned (permuted input ds) (List.length h)) in *.
  assert (Hn1 : List.length (shape out1) = List.length (shape input))
    by (cbn; rewrite length_gather; exact Hdlen).
  assert (Hback1 : names_dims back qs (List.length (shape out1)))
    by (rewrite Hn1; exact Hback).
  destruct (tfl_transpose_run (h ++ [data1]) out1 back qs Hok1 Hback1)
    as (data2 & Hrun2 & Hget2 & _).
  assert (Hshape : gather qs (gather ds (shape input)) = shape input)
    by (apply gather_gather; assumption).
  do 4 eexists. split; [exact Hrun1|]. split; [exact Hrun2|].
  split; [exact Hshape|].
  intros idx. rewrite Hget2.
  destruct (in_bounds idx (shape input)) eqn:Hidx.
  - pose proof (in_bounds_length _ _ Hidx) as Hlen.
    assert (Hrt : gather qs (gather ds idx) = idx)
      by (apply gather_gather; rewrite Hlen; assumption).
    assert (Hidx1 : in_bounds (gather ds idx) (shape out1) = true).
    { apply in_bounds_gather; [intros d Hd; apply Hdmem, Hd|exact Hidx]. }
    rewrite <- Hrt at 1.
    rewrite permuted_get;
      [|rewrite Hn1; exact Hqs|apply Hok1|exact Hidx1].
    rewrite Hget1. apply permuted_get; [exact Hds|apply Hok|exact Hidx].
  - subst out1. unfold tensor_get. cbn [permuted cloned shape].
    rewrite Hshape, Hidx. reflexivity.
Qed.

(** X9: [tfl_transpose] returns a tensor only for a [perm] that names
    every dimension of the input once; a [perm] of another length fails
    the assertion, and no failure allocates or changes a storage. *)
Theorem tfl_transpose_only_permutations h input perm :
  (forall out h',
      tfl_transpose input perm h = (Py.Ok out, h') ->
      exists ds,
        names_dims perm ds (List.length (shape input)) /\
        shape out = gather ds (shape input)) /\
  (forall e h',
      tfl_transpose input perm h = (Py.Raise e, h') ->
      h' = h /\
      (List.length perm <> List.length (shape input) ->
       e = Py.AssertionError)).
Proof.
  unfold tfl_transpose, Py.bind, lift, Py.raise, permute, clone.
  destruct (Nat.eqb_spec (List.length perm) (List.length (shape input)))
    as [Hlen|Hlen]; cbn [negb].
  2: { split; [discriminate|]. intros e h' [= <- <-]. auto. }
  split.
  - intros out h'.
    destruct (permute_dims perm (ndim input) []) as [ds|e] eqn:Hdims;
      [|discriminate].
    destruct (mapM _ _); [|discriminate].
    intros [= <- _]. exists ds. split; [|reflexivity].
    destruct (permute_dims_inv _ _ _ _ Hdims) as (Hw & Hnd & _).
    split; [exact Hw|].
    apply submseteq_length_Permutation.
    + apply NoDup_submseteq; [exact Hnd|].
      intros d Hd. apply elem_of_seq.
      apply list_elem_of_lookup_1 in Hd as [i Hi].
      destruct (Forall2_lookup_r _ _ _ _ _ Hw Hi) as (dim & Hdim & Hwd).
      apply wrap_dim_lt in Hwd.
      pose proof (lookup_lt_Some _ _ _ Hdim). lia.
    + rewrite length_seq, <- (Forall2_length _ _ _ Hw). lia.
  - intros e h'.
    destruct (permute_dims perm (ndim input) []) as [ds|e'];
      [|intros [= _ <-]; split; [reflexivity|contradiction]].
    destruct (mapM _ _); [discriminate|].
    intros [= _ <-]. split; [reflexivity|contradiction].
Qed.

End Elem.

(** [tfl_transpose(t, [-1, 0])] on the 2x3 example: the matrix
    transpose. *)
Lemma tfl_transpose_permutes_witness :
  exists out data,
    tfl_transpose example_2x3 [-1; 0] example_heap
    = (Py.Ok out, example_heap ++ [data]) /\
    shape out = [3; 2] /\
    data = [10; 13; 11; 14; 12; 15].
Proof.
  destruct (tfl_transpose_permutes example_heap example_2x3 [-1; 0]
              [1%nat; 0%nat] example_2x3_ok)
    as (out & data & Hrun & _ & _ & _ & Hshape & _).
  - split.
    + repeat constructor.
    + apply Permutation_swap.
  - exists out, data. split; [exact Hrun|]. split; [exact Hshape|].
    injection Hrun as _ Hdata. symmetry. exact Hdata.
Defined.

(** The matrix transpose of the 2x3 example, twice. *)
Lemma tfl_transpose_round_trip_witness :
  exists out1 h1 out2 h2,
    tfl_transpose example_2x3 [1; 0] example_heap = (Py.Ok out1, h1) /\
    tfl_transpose out1 [1; 0] h1 = (Py.Ok out2, h2) /\
    shape out2 = [2; 3] /\
    forall idx,
      tensor_get h2 out2 idx = tensor_get example_heap example_2x3 idx.
Proof.
  apply (tfl_transpose_round_trip example_heap example_2x3 [1; 0]
           [1%nat; 0%nat] [1; 0] [1%nat; 0%nat] example_2x3_ok).
  - split; [repeat constructor|apply Permutation_swap].
  - split; [repeat constructor|apply Permutation_swap].
  - reflexivity.
Defined.

End TflTransposeSpec.

(** ** [tfl_slice_tensor] and its fake implementation *)

Module TflSliceTensorSpec.
Import Torch TorchTfl TorchSpec PyStrSpec TorchTflSpec TflSliceSpec.

(** The four assertions of [tfl_slice_tensor]. *)
Definition slice_tensor_asserts (input begin size : tensor) (shape : list N)
  : Prop :=
  ndim begin = 1 /\ ndim size = 1 /\
  tensor_numel begin = ndim input /\ tensor_numel size = ndim input /\
  dtype_of begin = int32 /\ dtype_of size = int32 /\
  tfl_slice_tensor_shape_assert input shape = true.

Section Elem.
Context {elem : Type} (item : elem -> Z).
Implicit Types (h : list (list elem)) (t : tensor).

Lemma tolist_ok h t l h' :
  tolist item t h = (Py.Ok l, h') ->
  h' = h /\ exists n, shape t = [n] /\ List.length l = Z.to_nat n.
Proof.
  unfold tolist. destruct (shape t) as [|n [|? ?]]; try discriminate.
  destruct (mapM _ _) as [k|] eqn:Hk; [|discriminate].
  intros [= <- <-]. split; [reflexivity|]. exists n. split; [reflexivity|].
  rewrite length_fmap, <- (length_mapM _ _ _ Hk). apply length_seqZ.
Qed.

Lemma tfl_slice_tensor_run h input begin size shape bl sl :
  slice_tensor_asserts input begin size shape ->
  tolist item begin h = (Py.Ok bl, h) ->
  tolist item size h = (Py.Ok sl, h) ->
  tfl_slice_tensor item input begin size shape h = tfl_slice input bl sl h /\
  List.length bl = List.length (Torch.shape input) /\
  List.length sl = List.length (Torch.shape input).
Proof.
  intros (Hb1 & Hs1 & Hbn & Hsn & Hbd & Hsd & Hshape) Hbl Hsl.
  destruct (tolist_ok _ _ _ _ Hbl) as (_ & nb & Hbsh & Hblen).
  destruct (tolist_ok _ _ _ _ Hsl) as (_ & ns & Hssh & Hslen).
  assert (Hlb : List.length bl = List.length (Torch.shape input)).
  { unfold tensor_numel, ndim in Hbn. rewrite Hbsh in Hbn. cbn in Hbn. lia. }
  assert (Hls : List.length sl = List.length (Torch.shape input)).
  { unfold tensor_numel, ndim in Hsn. rewrite Hssh in Hsn. cbn in Hsn. lia. }
  split; [|split; assumption].
  unfold tfl_slice_tensor, tfl_slice.
  rewrite Hb1, Hs1, Hbn, Hsn, Hbd, Hsd, Hshape, !Z.eqb_refl.
  rewrite !bool_decide_eq_true_2 by reflexivity. cbn [andb negb].
  unfold Py.bind at 1. rewrite Hbl.
  unfold Py.bind at 1. rewrite Hsl.
  rewrite Hlb, Hls, !Nat.eqb_refl. reflexivity.
Qed.

(** X10: when its four assertions hold, [tfl_slice_tensor] is
    [tfl_slice] on [begin.tolist()] and [size.tolist()]: the [shape]
    keyword has no part in the result.  When one of them does not hold,
    it fails the assertion and the heap is as it was. *)
Theorem tfl_slice_tensor_as_tfl_slice h input begin size shape :
  (slice_tensor_asserts input begin size shape ->
   forall bl sl,
     tolist item begin h = (Py.Ok bl, h) ->
     tolist item size h = (Py.Ok sl, h) ->
     tfl_slice_tensor item input begin size shape h
     = tfl_slice input bl sl h) /\
  (~ slice_tensor_asserts input begin size shape ->
   tfl_slice_tensor item input begin size shape h
   = (Py.Raise Py.AssertionError, h)).
Proof.
  split.
  - intros Hassert bl sl Hbl Hsl.
    apply (tfl_slice_tensor_run h input begin size shape bl sl);
      assumption.
  - intros Hnot. unfold tfl_slice_tensor.
    destruct (Z.eqb_spec (ndim begin) (ndim size)); [|reflexivity].
    destruct (Z.eqb_spec (ndim size) 1); [|reflexivity].
    cbn [andb negb].
    destruct (Z.eqb_spec (tensor_numel begin) (tensor_numel size));
      [|reflexivity].
    destruct (Z.eqb_spec (tensor_numel size) (ndim input)); [|reflexivity].
    cbn [andb negb].
    destruct (bool_decide_reflect (dtype_of begin = int32)); [|reflexivity].
    destruct (bool_decide_reflect (dtype_of size = int32)); [|reflexivity].
    cbn [andb negb].
    destruct (tfl_slice_tensor_shape_assert input shape) eqn:Hs;
      [|reflexivity].
    exfalso. apply Hnot. unfold slice_tensor_asserts.
    repeat split; congruence.
Qed.

(** What the fake implementation says of a size of the result: an
    integer is the size, a symbol leaves it open. *)
Definition predicts (d : Torch.size) (n : Z) : Prop :=
  match d with
  | Int m => m = n
  | SymInt _ => True
  end.

Variable torch_empty : list Torch.size -> dtype -> Py.result fake_tensor.
Variable unicode_class : N -> PyStr.char_class.
Local Abbreviation all_digits := (all_digits unicode_class).
Local Abbreviation decimal_value := (decimal_value unicode_class).
Local Abbreviation starts_with_digit := (starts_with_digit unicode_class).

(** A token that agrees with a size of the slice: the decimal digits of
    the size, 4300 at most, or a token that does not start with a
    decimal digit. *)
Definition token_for (sym : list N) (n : Z) : Prop :=
  (all_digits sym = true /\
   Z.of_nat (List.length sym) <= 4300 /\
   decimal_value sym = n) \/
  starts_with_digit sym = false.

Lemma numel_max_pos l : 1 <= numel (Z.max 1 <$> l).
Proof.
  induction l as [|n l IH]; [cbv; discriminate|].
  change (numel (Z.max 1 <$> n :: l))
    with (Z.max 1 n * numel (Z.max 1 <$> l)).
  pose proof (Z.le_max_l 1 n). set (m := Z.max 1 n) in *. nia.
Qed.

Lemma token_sizes_within symbols sl :
  Forall2 token_for symbols sl ->
  numel (Z.max 1 <$> token_sizes unicode_class symbols)
  <= numel (Z.max 1 <$> sl).
Proof.
  induction 1 as [|sym n symbols sl Hsym _ IH]; [reflexivity|].
  unfold token_sizes. cbn [omap list_omap].
  fold (token_sizes unicode_class symbols).
  pose proof (numel_max_pos (token_sizes unicode_class symbols)) as Hpos.
  pose proof (numel_max_pos sl) as Hpos'.
  change (numel (Z.max 1 <$> n :: sl))
    with (Z.max 1 n * numel (Z.max 1 <$> sl)).
  pose proof (Z.le_max_l 1 n) as Hm. set (m := Z.max 1 n) in *.
  destruct Hsym as [(Hd & _ & Hval)|Hstart].
  - rewrite Hd, Hval.
    change (numel (Z.max 1 <$> n :: token_sizes unicode_class symbols))
      with (m * numel (Z.max 1 <$> token_sizes unicode_class symbols)).
    nia.
  - destruct (all_digits sym) eqn:Hd.
    + apply all_digits_starts in Hd. congruence.
    + nia.
Qed.

(** X11: the fake implementation predicts the operator.  [torch.empty]
    and [Tensor.new_empty] are taken to return a tensor of the sizes and
    dtype asked for when no size is negative and the sizes multiply to
    less than 2^59.  When [tfl_slice_tensor] runs on ranges within the
    input, the sizes of the slice, each counted as one at least,
    multiply to less than 2^59, the input has at least one dimension if
    the [shape] string is empty, and each token of the string is either
    the decimal size of its dimension, in 4300 digits at most, or does
    not start with a decimal digit, then [tfl_slice_tensor_fake] returns
    the dtype and the rank of the operator's result, and every size it
    gives as an integer is the result's size. *)
Theorem tfl_slice_tensor_fake_predicts h input begin size shape bl sl ctx :
  empty_as_torch torch_empty ->
  tensor_ok h input ->
  slice_tensor_asserts input begin size shape ->
  tolist item begin h = (Py.Ok bl, h) ->
  tolist item size h = (Py.Ok sl, h) ->
  Forall3 range_within bl sl (Torch.shape input) ->
  numel (Z.max 1 <$> sl) < 2 ^ 59 ->
  (shape = [] -> (1 <= List.length (Torch.shape input))%nat) ->
  Forall2 token_for (shape_symbols input shape) sl ->
  exists out h' fake ctx',
    tfl_slice_tensor item input begin size shape h = (Py.Ok out, h') /\
    tfl_slice_tensor_fake torch_empty unicode_class
                          input begin size shape ctx
    = (Py.Ok fake, ctx') /\
    fake_dtype fake = dtype_of out /\
    List.length (fake_shape fake) = List.length (Torch.shape out) /\
    Forall2 predicts (fake_shape fake) (Torch.shape out).
Proof.
  intros Hempty Hok Hassert Hbl Hsl Hin Hsmall Hne Htok.
  destruct (tfl_slice_tensor_run h input begin size shape bl sl
              Hassert Hbl Hsl) as (Hreal & _ & _).
  destruct (tfl_slice_within_run h input bl sl Hok Hin)
    as (data & Hrun & _ & _).
  assert (Hoks : Forall (token_ok unicode_class) (shape_symbols input shape)).
  { clear -Htok. induction Htok as [|sym n syms sl Hsym _ IH];
      constructor; [|exact IH].
    destruct Hsym as [(Hd & Hlen & _)|Hs]; [left|right]; auto. }
  pose proof (token_sizes_within _ _ Htok) as Hwithin.
  destruct (tfl_slice_tensor_fake_run torch_empty unicode_class
              input begin size shape ctx Hempty Hoks ltac:(lia) Hne)
    as (dims & Hfake & Hread & _).
  assert (Hpred : Forall2 predicts dims sl).
  { clear -Hread Htok. revert dims Hread.
    induction Htok as [|sym n syms sl Hsym _ IH]; intros dims Hread.
    - apply Forall2_nil_inv_l in Hread as ->. constructor.
    - apply Forall2_cons_inv_l in Hread as (d & dims' & [Hd Hs] & Hread & ->).
      constructor; [|apply IH, Hread].
      destruct Hsym as [(Hall & _ & Hval)|Hstart].
      + rewrite (Hd Hall). exact Hval.
      + destruct (Hs Hstart) as [id ->]. exact I. }
  do 4 eexists. split; [rewrite Hreal; exact Hrun|].
  split; [exact Hfake|].
  cbn [fake_dtype fake_shape cloned sliced dtype_of Torch.shape].
  split; [reflexivity|].
  split; [apply (Forall2_length _ _ _ Hpred)|exact Hpred].
Qed.

End Elem.

(** The 2x3 example with [begin = [0, 1]] and [size = [2, 2]] kept as
    int32 tensors in storages 1 and 2. *)
Definition slice_heap : list (list Z) :=
  [[10; 11; 12; 13; 14; 15]; [0; 1]; [2; 2]].
Definition begin_tensor : tensor :=
  {| storage := 1; offset := 0; shape := [2]; strides := [1];
     dtype_of := int32 |}.
Definition size_tensor : tensor :=
  {| storage := 2; offset := 0; shape := [2]; strides := [1];
     dtype_of := int32 |}.

Lemma example_2x3_ok_slice_heap : tensor_ok slice_heap example_2x3.
Proof.
  destruct example_2x3_ok as [Hlen Hok]. split; [exact Hlen|].
  eapply Forall_impl; [exact Hok|]. intros idx Hidx. cbn beta.
  change slice_heap with (example_heap ++ [[0; 1]; [2; 2]]).
  rewrite tensor_get_alloc; assumption.
Qed.

Lemma tfl_slice_tensor_fake_predicts_witness :
  exists out h' fake ctx',
    tfl_slice_tensor id example_2x3 begin_tensor size_tensor
                     (PyStr.of_string "2,?") slice_heap
    = (Py.Ok out, h') /\
    tfl_slice_tensor_fake example_empty example_class
                          example_2x3 begin_tensor size_tensor
                          (PyStr.of_string "2,?") 0%nat
    = (Py.Ok fake, ctx') /\
    fake_dtype fake = dtype_of out /\
    List.length (fake_shape fake) = List.length (shape out) /\
    Forall2 predicts (fake_shape fake) (shape out).
Proof.
  apply (tfl_slice_tensor_fake_predicts id example_empty example_class
           slice_heap example_2x3
           begin_tensor size_tensor (PyStr.of_string "2,?")
           [0; 1] [2; 2] 0%nat).
  - exact example_empty_as_torch.
  - exact example_2x3_ok_slice_heap.
  - repeat split.
  - reflexivity.
  - reflexivity.
  - repeat first [ apply Forall3_nil
                 | apply Forall3_cons; [unfold range_within; lia|] ].
  - reflexivity.
  - discriminate.
  - change (shape_symbols example_2x3 (PyStr.of_string "2,?"))
      with [PyStr.of_string "2"; PyStr.of_string "?"].
    constructor; [left; repeat split; discriminate|].
    constructor; [right; reflexivity|]. constructor.
Defined.

End TflSliceTensorSpec.

(** ** When the fake implementation of [tfl_slice_tensor] fails *)

Module TflSliceTensorFakeSpec.
Import Torch TorchTfl PyStrSpec TorchTflSpec.

Section Fake.
Variable torch_empty : list Torch.size -> dtype -> Py.result fake_tensor.
Variable unicode_class : N -> PyStr.char_class.
Local Abbreviation decimal := (PyStr.decimal unicode_class).
Local Abbreviation is_digit := (PyStr.is_digit unicode_class).
Local Abbreviation to_ascii := (PyStr.to_ascii unicode_class).
Local Abbreviation int := (PyStr.int unicode_class).
Local Abbreviation starts_with_digit := (starts_with_digit unicode_class).
Local Abbreviation decimal_value := (decimal_value unicode_class).

(** *** Integer literals, as Python's reference describes them

    An unsigned decimal literal is written with decimal digits in
    groups, one underscore between two groups; [int] takes it with
    whitespace after it, and with 4300 digits at most. *)

(** Whitespace: tab to carriage return and the space in ASCII, the
    whitespace of the character database above ASCII. *)
Definition is_whitespace (c : N) : bool :=
  if (c <? 128)%N then bool_decide (c ∈ [9; 10; 11; 12; 13; 32]%N)
  else match unicode_class c with PyStr.Space => true | _ => false end.

Definition literal_char (c : N) : bool := is_digit c || (c =? 95)%N.

(** The digits and underscores a symbol starts with. *)
Fixpoint literal_of (s : list N) : list N :=
  match s with
  | c :: s' => if literal_char c then c :: literal_of s' else []
  | [] => []
  end.

Definition nonempty (g : list N) : bool :=
  match g with [] => false | _ => true end.

Definition int_literal (sym : list N) : bool :=
  let body := literal_of sym in
  forallb nonempty (PyStr.split 95 body)
  && (Z.of_nat (List.length (List.filter is_digit body))
      <=? 4300)
  && forallb is_whitespace (drop (List.length body) sym).

(** The number a literal denotes: its digits without the underscores. *)
Definition literal_value (sym : list N) : Z :=
  decimal_value (List.filter is_digit (literal_of sym)).

(** A symbol that [re.match] takes for a number and that is no
    literal. *)
Definition bad_symbol (sym : list N) : bool :=
  starts_with_digit sym && negb (int_literal sym).

(** The symbols the loop runs over, as the function computes them. *)
Definition loop_symbols (input : tensor) (shape : list N)
  : list (list N) :=
  PyStr.split (PyStr.chr ",")
    match shape with
    | [] => PyStr.join (PyStr.of_string ",")
                       (replicate (List.length (Torch.shape input))
                                  (PyStr.of_string "?"))
    | _ => shape
    end.

(** *** How [int] sees the characters *)

Lemma to_ascii_is_digit c : PyStr.is_ascii_digit (to_ascii c) = is_digit c.
Proof.
  destruct (is_digit c) eqn:Hd.
  - apply (to_ascii_digit _ _ Hd).
  - unfold PyStr.is_digit in Hd. unfold PyStr.to_ascii.
    destruct (decimal c) as [d|] eqn:Hdec; [discriminate|].
    unfold PyStr.decimal in Hdec. destruct (c <? 128)%N.
    + unfold PyStr.is_ascii_digit.
      destruct ((48 <=? c)%N && (c <=? 57)%N); [discriminate|reflexivity].
    + destruct (unicode_class c); reflexivity.
Qed.

Lemma to_ascii_underscore c : (to_ascii c =? 95)%N = (c =? 95)%N.
Proof.
  unfold PyStr.to_ascii. destruct (N.ltb_spec c 128) as [Hc|Hc];
    [reflexivity|].
  transitivity false; [|symmetry; apply N.eqb_neq; lia].
  destruct (unicode_class c); try reflexivity;
    destruct (decimal c) as [v|] eqn:Hv; try reflexivity;
    pose proof (decimal_range _ _ _ Hv); apply N.eqb_neq; lia.
Qed.

Lemma to_ascii_is_space c : PyStr.is_space (to_ascii c) = is_whitespace c.
Proof.
  unfold PyStr.to_ascii, is_whitespace.
  destruct (N.ltb_spec c 128) as [Hc|Hc].
  { unfold PyStr.is_space.
    destruct (N.leb_spec 9 c); destruct (N.leb_spec c 13);
      destruct (N.eqb_spec c 32); cbn [andb orb]; symmetry;
      first [ apply bool_decide_eq_true_2; rewrite !elem_of_cons; lia
            | apply bool_decide_eq_false_2; rewrite !elem_of_cons;
              rewrite elem_of_nil; lia ]. }
  destruct (unicode_class c) eqn:Hclass; try reflexivity;
    destruct (decimal c) as [v|] eqn:Hv; try reflexivity;
    pose proof (decimal_range _ _ _ Hv); unfold PyStr.is_space;
    apply orb_false_iff;
    (split; [apply andb_false_iff; right; apply N.leb_gt; lia
            |apply N.eqb_neq; lia]).
Qed.

Lemma is_digit_not_underscore c : is_digit c = true -> (c =? 95)%N = false.
Proof.
  intros Hd. rewrite <- to_ascii_underscore.
  rewrite <- to_ascii_is_digit in Hd. unfold PyStr.is_ascii_digit in Hd.
  apply andb_true_iff in Hd as [H1 H2]. apply N.leb_le in H1, H2.
  apply N.eqb_neq. lia.
Qed.

Lemma literal_prefix_to_ascii s :
  PyStr.literal_prefix (to_ascii <$> s) = to_ascii <$> literal_of s.
Proof.
  induction s as [|c s IH]; [reflexivity|].
  cbn [fmap list_fmap PyStr.literal_prefix literal_of].
  fold (fmap to_ascii s). unfold literal_char.
  rewrite to_ascii_is_digit, to_ascii_underscore.
  destruct (is_digit c || (c =? 95)%N); [|reflexivity].
  cbn [fmap list_fmap]. f_equal. exact IH.
Qed.

Lemma literal_of_chars s : Forall (fun c => literal_char c = true) (literal_of s).
Proof.
  induction s as [|c s IH]; [constructor|]. cbn [literal_of].
  destruct (literal_char c) eqn:Hc; constructor; assumption.
Qed.

Lemma filter_to_ascii s :
  List.length (List.filter PyStr.is_ascii_digit (to_ascii <$> s))
  = List.length (List.filter is_digit s).
Proof.
  induction s as [|c s IH]; [reflexivity|].
  cbn [fmap list_fmap List.filter]. fold (fmap to_ascii s).
  rewrite to_ascii_is_digit. destruct (is_digit c); cbn [List.length];
    rewrite IH; reflexivity.
Qed.

Lemma forallb_to_ascii s :
  forallb PyStr.is_space (to_ascii <$> s) = forallb is_whitespace s.
Proof.
  induction s as [|c s IH]; [reflexivity|].
  cbn [fmap list_fmap forallb]. fold (fmap to_ascii s).
  rewrite to_ascii_is_space, IH. reflexivity.
Qed.

(** *** The digits of a literal *)

Lemma split_cons sep s : exists g gs, PyStr.split sep s = g :: gs.
Proof.
  destruct s as [|c s]; [cbn; eauto|]. cbn [PyStr.split].
  destruct (c =? sep)%N; [eauto|]. destruct (PyStr.split sep s); eauto.
Qed.

(** Groups that may follow a digit ([after_digit]) or not. *)
Definition groups_after (after_digit : bool) (body : list N) : bool :=
  match PyStr.split 95 body with
  | g :: gs => (after_digit || nonempty g) && forallb nonempty gs
  | [] => false
  end.

Lemma groups_after_false body :
  groups_after false body = forallb nonempty (PyStr.split 95 body).
Proof.
  unfold groups_after. destruct (split_cons 95 body) as (g & gs & ->).
  reflexivity.
Qed.

Lemma int_digits_groups body acc b :
  Forall (fun c => literal_char c = true) body ->
  if groups_after b body
  then PyStr.int_digits acc b (to_ascii <$> body)
       = Some (fold_left (fun acc c => 10 * acc + default 0 (decimal c))
                         (List.filter is_digit body) acc)
  else PyStr.int_digits acc b (to_ascii <$> body) = None.
Proof.
  intros H; revert acc b; induction H as [|c body Hc _ IH]; intros acc b.
  - unfold groups_after. cbn. destruct b; reflexivity.
  - cbn [fmap list_fmap PyStr.int_digits List.filter].
    fold (fmap to_ascii body).
    rewrite to_ascii_is_digit, to_ascii_underscore.
    unfold groups_after. cbn [PyStr.split].
    destruct (is_digit c) eqn:Hd.
    + rewrite (is_digit_not_underscore _ Hd).
      specialize (IH (10 * acc + PyStr.digit_value (to_ascii c)) true).
      unfold groups_after in IH.
      destruct (split_cons 95 body) as (g & gs & Hsplit).
      rewrite Hsplit in IH |- *. cbn [nonempty orb andb] in IH |- *.
      rewrite orb_true_r. cbn [andb fold_left].
      rewrite (proj2 (to_ascii_digit _ _ Hd)) in IH |- *. exact IH.
    + unfold literal_char in Hc. rewrite Hd in Hc. cbn [orb] in Hc.
      rewrite Hc. cbn [nonempty orb]. rewrite orb_false_r.
      destruct b; cbn [andb]; [|reflexivity].
      rewrite <- groups_after_false. apply IH.
Qed.

Lemma digits_fold_pos l acc :
  0 <= acc ->
  0 <= fold_left (fun acc c => 10 * acc + default 0 (decimal c)) l acc.
Proof. apply digits_fold_nonneg. Qed.

(** [int] on a symbol that starts with a decimal digit: a literal is
    read as the number it denotes, anything else is refused. *)
Lemma int_digit_start sym :
  starts_with_digit sym = true ->
  if int_literal sym
  then int sym = Py.Ok (literal_value sym)
  else exists msg, int sym = Py.Raise (Py.ValueError msg).
Proof.
  intros Hstart. unfold PyStr.int.
  assert (Hl : PyStr.lstrip (to_ascii <$> sym) = to_ascii <$> sym).
  { destruct sym as [|c s]; [reflexivity|]. cbn [starts_with_digit] in Hstart.
    cbn [fmap list_fmap PyStr.lstrip].
    rewrite (ascii_digit_not_space (to_ascii c)); [reflexivity|].
    rewrite to_ascii_is_digit. exact Hstart. }
  rewrite Hl.
  assert (Hbody : match to_ascii <$> sym with
                  | [] => (false, [])
                  | c :: l' =>
                      if (c =? 43)%N then (false, l')
                      else if (c =? 45)%N then (true, l')
                      else (false, to_ascii <$> sym)
                  end = (false, to_ascii <$> sym)).
  { destruct sym as [|c s]; [reflexivity|]. cbn [starts_with_digit] in Hstart.
    cbn [fmap list_fmap].
    destruct (ascii_digit_no_sign (to_ascii c)) as [-> ->]; [|reflexivity].
    rewrite to_ascii_is_digit. exact Hstart. }
  rewrite Hbody. clear Hl Hbody.
  rewrite literal_prefix_to_ascii, length_fmap, <- fmap_drop.
  rewrite filter_to_ascii, forallb_to_ascii.
  unfold PyStr.int_max_str_digits.
  pose proof (int_digits_groups (literal_of sym) 0 false
                                (literal_of_chars sym)) as Hdigits.
  rewrite groups_after_false in Hdigits.
  unfold int_literal, literal_value, PyStrSpec.decimal_value.
  destruct (forallb nonempty (PyStr.split 95 (literal_of sym)));
    rewrite Hdigits; cbn [andb]; [|eexists; reflexivity].
  destruct (Z.leb_spec
              (Z.of_nat (List.length (List.filter is_digit (literal_of sym))))
              4300) as [Hle|Hgt]; cbn [andb].
  - destruct (Z.ltb_spec 4300
                (Z.of_nat (List.length
                             (List.filter is_digit (literal_of sym)))));
      [lia|].
    destruct (forallb is_whitespace _); [reflexivity|eexists; reflexivity].
  - destruct (Z.ltb_spec 4300
                (Z.of_nat (List.length
                             (List.filter is_digit (literal_of sym)))));
      [eexists; reflexivity|lia].
Qed.

Lemma literal_value_nonneg sym : 0 <= literal_value sym.
Proof. apply decimal_value_nonneg. Qed.

(** *** The loop *)

(** The size the loop gives for a symbol: the number of a literal, or
    a symbol made during the call. *)
Definition size_of_symbol (ctx ctx' : nat) (sym : list N) (d : Torch.size)
  : Prop :=
  if starts_with_digit sym
  then d = Int (literal_value sym) /\ 0 <= literal_value sym
  else exists id, d = SymInt id /\ (ctx <= id < ctx')%nat.

Lemma size_of_symbol_weaken ctx0 ctx ctx' sym d :
  (ctx0 <= ctx)%nat ->
  size_of_symbol ctx ctx' sym d -> size_of_symbol ctx0 ctx' sym d.
Proof.
  unfold size_of_symbol. destruct (starts_with_digit sym); [auto|].
  intros Hle (id & -> & Hid). exists id. split; [reflexivity|lia].
Qed.

Lemma shape_of_symbols_outcome symbols ctx :
  if existsb bad_symbol symbols
  then exists msg ctx',
         shape_of_symbols unicode_class symbols ctx
         = (Py.Raise (Py.ValueError msg), ctx') /\
         (ctx <= ctx')%nat
  else exists dims ctx',
         shape_of_symbols unicode_class symbols ctx = (Py.Ok dims, ctx') /\
         (ctx <= ctx')%nat /\
         Forall2 (size_of_symbol ctx ctx') symbols dims.
Proof.
  revert ctx; induction symbols as [|sym symbols IH]; intros ctx.
  - cbn. exists [], ctx. repeat split; [lia|constructor].
  - cbn [existsb TorchTfl.shape_of_symbols].
    unfold bad_symbol at 1, Py.bind at 1.
    destruct (starts_with_digit sym) eqn:Hstart.
    + destruct (PyStr.re_match_digits unicode_class sym) eqn:Hre;
        [|apply re_match_digits_None in Hre; congruence].
      pose proof (int_digit_start sym Hstart) as Hint.
      destruct (int_literal sym); cbn [andb negb orb].
      * rewrite Hint. cbn [Py.rmap]. specialize (IH ctx). unfold Py.bind.
        destruct (existsb bad_symbol symbols).
        -- destruct IH as (msg & ctx' & -> & Hle). eauto.
        -- destruct IH as (dims & ctx' & -> & Hle & Hsizes).
           exists (Int (literal_value sym) :: dims), ctx'. unfold Py.ret.
           repeat split; [exact Hle|].
           constructor; [|exact Hsizes].
           unfold size_of_symbol. rewrite Hstart.
           split; [reflexivity|apply literal_value_nonneg].
      * destruct Hint as [msg ->]. cbn [Py.rmap].
        exists msg, ctx. split; [reflexivity|lia].
    + cbn [andb orb]. apply re_match_digits_None in Hstart as Hre.
      rewrite Hre. unfold new_dynamic_size. specialize (IH (S ctx)).
      unfold Py.bind.
      destruct (existsb bad_symbol symbols).
      * destruct IH as (msg & ctx' & -> & Hle).
        exists msg, ctx'. split; [reflexivity|lia].
      * destruct IH as (dims & ctx' & -> & Hle & Hsizes).
        exists (SymInt ctx :: dims), ctx'. unfold Py.ret.
        repeat split; [lia|].
        constructor.
        -- unfold size_of_symbol. rewrite Hstart.
           exists ctx. split; [reflexivity|lia].
        -- eapply Forall2_impl; [exact Hsizes|].
           intros s d. apply size_of_symbol_weaken. lia.
Qed.

(** X12: what [tfl_slice_tensor_fake] does with any shape string.
    When one of its comma-separated symbols starts with a decimal digit
    without being an integer literal (decimal digits in groups with one
    underscore between two groups, 4300 digits at most, whitespace
    after them), it raises the ValueError of [int].  Otherwise it
    returns what [new_empty] returns, with
    the input's dtype, for one size per symbol: the number of the
    literal, which is not negative, for a symbol that starts with a
    decimal digit, and a symbolic size made during the call for any
    other. *)
Theorem tfl_slice_tensor_fake_outcome (input begin size : tensor)
        (shape : list N) (ctx : nat) :
  if existsb bad_symbol (loop_symbols input shape)
  then exists msg ctx',
         tfl_slice_tensor_fake torch_empty unicode_class
                               input begin size shape ctx
         = (Py.Raise (Py.ValueError msg), ctx') /\
         (ctx <= ctx')%nat
  else exists dims ctx',
         tfl_slice_tensor_fake torch_empty unicode_class
                               input begin size shape ctx
         = (torch_empty dims (dtype_of input), ctx') /\
         (ctx <= ctx')%nat /\
         Forall2 (size_of_symbol ctx ctx') (loop_symbols input shape) dims.
Proof.
  unfold tfl_slice_tensor_fake. fold (loop_symbols input shape).
  pose proof (shape_of_symbols_outcome (loop_symbols input shape) ctx) as H.
  destruct (existsb bad_symbol (loop_symbols input shape)).
  - destruct H as (msg & ctx' & Hrun & Hle).
    exists msg, ctx'. unfold Py.bind. rewrite Hrun. auto.
  - destruct H as (dims & ctx' & Hrun & Hle & Hsizes).
    exists dims, ctx'. unfold Py.bind. rewrite Hrun. auto.
Qed.

End Fake.

(** Literals and what is none, with the example character database:
    "1_000" and "12" before a no-break space are literals, "12abc",
    "1__0" and "7_" are not. *)
Example int_literal_examples :
  int_literal example_class (PyStr.of_string "1_000") = true /\
  literal_value example_class (PyStr.of_string "1_000") = 1000 /\
  int_literal example_class [49; 50; 160]%N = true /\
  int_literal example_class (PyStr.of_string "12abc") = false /\
  int_literal example_class (PyStr.of_string "1__0") = false /\
  int_literal example_class (PyStr.of_string "7_") = false.
Proof. repeat split. Qed.

End TflSliceTensorFakeSpec.

(** ** Verification scripts: failing hub calls *)

Module VerifyErrorSpec.
Import Verify.

Section Scripts.
Context {world hf_model hf_tokenizer path : Type}.
Variable AutoModelForCausalLM_from_pretrained :
  string -> bool -> Py.M world hf_model.
Variable AutoTokenizer_from_pretrained : string -> Py.M world hf_tokenizer.
Variable cached_file : string -> string -> Py.M world string.
Variable CONFIG_NAME : string.
Variable Path : string -> path.
Variable parent : path -> path.
Variable str : path -> string.
Context {model : Type}.
Variable openelm_build_model : string -> Py.M world model.
Variable phi4_build_model : path -> Py.M world model.
Context {token logits : Type}.
Variable encode : hf_tokenizer -> string -> list token.
Variable hf_forward : hf_model -> list token -> logits.
Variable reauthored_forward : model -> list token -> logits.
Variable argmax : logits -> token.
Variable is_eos : token -> bool.
Variable allclose : logits -> logits -> bool.

Local Abbreviation openelm_main :=
  (openelm_main AutoModelForCausalLM_from_pretrained
                AutoTokenizer_from_pretrained cached_file CONFIG_NAME
                Path parent str openelm_build_model encode hf_forward
                reauthored_forward argmax is_eos allclose).
Local Abbreviation phi4_main :=
  (phi4_main AutoModelForCausalLM_from_pretrained
             AutoTokenizer_from_pretrained cached_file CONFIG_NAME
             Path parent str phi4_build_model encode hf_forward
             reauthored_forward argmax is_eos allclose).

Local Abbreviation state :=
  (state (world := world) (hf_model := hf_model)
         (hf_tokenizer := hf_tokenizer) (model := model)).

(** A script stops at its first failing call: it raises that call's
    error in the world that call left, having logged what it announced
    so far. *)
Definition script_stops
           (checkpoint : string) (trust_remote_code : bool)
           (tokenizer_checkpoint : string)
           (build_model : path -> Py.M world model)
           (main : flag_values -> Py.M state unit) : Prop :=
  forall fl w0 log0 checks0 e,
    let loading := ("Loading the original model from: %s", checkpoint) in
    let building f :=
      ("Building the reauthored model from: %s", str (parent (Path f))) in
    let tokenizing :=
      ("Loading the tokenizer from: %s", tokenizer_checkpoint) in
    let start :=
      {| the_world := w0; the_log := log0; the_checks := checks0 |} in
    (forall w1,
        AutoModelForCausalLM_from_pretrained checkpoint trust_remote_code w0
        = (Py.Raise e, w1) ->
        main fl start
        = (Py.Raise e,
           {| the_world := w1; the_log := log0 ++ [loading];
              the_checks := checks0 |})) /\
    (forall m w1 w2,
        AutoModelForCausalLM_from_pretrained checkpoint trust_remote_code w0
        = (Py.Ok m, w1) ->
        cached_file checkpoint CONFIG_NAME w1 = (Py.Raise e, w2) ->
        main fl start
        = (Py.Raise e,
           {| the_world := w2; the_log := log0 ++ [loading];
              the_checks := checks0 |})) /\
    (forall m w1 f w2 w3,
        AutoModelForCausalLM_from_pretrained checkpoint trust_remote_code w0
        = (Py.Ok m, w1) ->
        cached_file checkpoint CONFIG_NAME w1 = (Py.Ok f, w2) ->
        build_model (parent (Path f)) w2 = (Py.Raise e, w3) ->
        main fl start
        = (Py.Raise e,
           {| the_world := w3;
              the_log := (log0 ++ [loading]) ++ [building f];
              the_checks := checks0 |})) /\
    (forall m w1 f w2 r w3 w4,
        AutoModelForCausalLM_from_pretrained checkpoint trust_remote_code w0
        = (Py.Ok m, w1) ->
        cached_file checkpoint CONFIG_NAME w1 = (Py.Ok f, w2) ->
        build_model (parent (Path f)) w2 = (Py.Ok r, w3) ->
        AutoTokenizer_from_pretrained tokenizer_checkpoint w3
        = (Py.Raise e, w4) ->
        main fl start
        = (Py.Raise e,
           {| the_world := w4;
              the_log :=
                ((log0 ++ [loading]) ++ [building f]) ++ [tokenizing];
              the_checks := checks0 |})).

Ltac stop_script :=
  unfold Verify.openelm_main, Verify.phi4_main, Py.bind, logging_info,
    in_world, Py.ret;
  cbn [the_world the_log the_checks];
  repeat match goal with
         | H : _ = (_, _) |- _ =>
             rewrite H; clear H; cbn [the_world the_log the_checks]
         end;
  reflexivity.

(** X13: when loading the original model, finding the cached config,
    building the reauthored model or loading the tokenizer raises, either
    script ends with that error before any later step: no model is
    compared (the checks made are as they were), and the log ends with
    the step that failed. *)
Theorem scripts_stop_at_first_error :
  script_stops "apple/OpenELM-3B" true "meta-llama/Llama-2-7b-hf"
               (fun d => openelm_build_model (str d)) openelm_main /\
  script_stops "microsoft/Phi-4-mini-instruct" false
               "microsoft/Phi-4-mini-instruct" phi4_build_model phi4_main.
Proof.
  split; intros fl w0 log0 checks0 e; cbn zeta; repeat split; intros;
    stop_script.
Qed.

End Scripts.

(** The OpenELM script when the tokenizer cannot be loaded. *)
Lemma scripts_stop_at_first_error_witness :
  Verify.openelm_main
    VerifySpec.ExampleHub.from_pretrained
    (fun _ w => (Py.Raise (Py.RuntimeError "offline"), w))
    VerifySpec.ExampleHub.cached_file "config.json" id
    VerifySpec.ExampleHub.dirname id
    VerifySpec.ExampleHub.build_model VerifySpec.ExampleHub.encode
    VerifySpec.ExampleHub.forward_length VerifySpec.ExampleHub.forward_length
    id VerifySpec.ExampleHub.is_eos Nat.eqb
    {| given_prompts := []; given_max_new_tokens := None |}
    {| the_world := []; the_log := []; the_checks := [] |}
  = (Py.Raise (Py.RuntimeError "offline"),
     {| the_world := ["apple/OpenELM-3B"];
        the_log :=
          [("Loading the original model from: %s", "apple/OpenELM-3B");
           ("Building the reauthored model from: %s",
            "/hub/apple/OpenELM-3B");
           ("Loading the tokenizer from: %s", "meta-llama/Llama-2-7b-hf")];
        the_checks := [] |}).
Proof.
  apply (proj2 (proj2 (proj2
           (proj1 (scripts_stop_at_first_error
                     VerifySpec.ExampleHub.from_pretrained
                     (fun _ w => (Py.Raise (Py.RuntimeError "offline"), w))
                     VerifySpec.ExampleHub.cached_file "config.json" id
                     VerifySpec.ExampleHub.dirname id
                     VerifySpec.ExampleHub.build_model
                     VerifySpec.ExampleHub.build_model
                     VerifySpec.ExampleHub.encode
                     VerifySpec.ExampleHub.forward_length
                     VerifySpec.ExampleHub.forward_length
                     id VerifySpec.ExampleHub.is_eos Nat.eqb)
                  {| given_prompts := []; given_max_new_tokens := None |}
                  [] [] [] (Py.RuntimeError "offline"))))
           "/hub/apple/OpenELM-3B" ["apple/OpenELM-3B"]
           "/hub/apple/OpenELM-3B/config.json" ["apple/OpenELM-3B"]
           "/hub/apple/OpenELM-3B" ["apple/OpenELM-3B"] ["apple/OpenELM-3B"]
           eq_refl eq_refl eq_refl eq_refl).
Defined.

End VerifyErrorSpec.
